(** * Leon NLU dispatcher: a shallow embedding of
    [server/src/core/nlp/nlu/nlu.ts]

    The class [NLU] is embedded method by method.  Its mutable fields, the
    fields of [BRAIN] it reads and writes, and the conversation store are the
    components of [State]; collaborators that live outside the file (the
    classifier library, the NER gateway, the Brain executor, the log helper,
    the file system, the wall clock, the Unicode tables of the runtime) are
    the fields of [Env].  Every call that is visible from
    outside the class is appended to a trace. *)

From Stdlib Require Import String Ascii List ZArith QArith Bool Lia DecimalString.
Import ListNotations.
Close Scope Q_scope.
Open Scope list_scope.
Open Scope string_scope.

(** ** Strings *)

(** Strings are strings of bytes (UTF-8). *)
Definition lower_ascii (c : ascii) : ascii :=
  let n := nat_of_ascii c in
  if (65 <=? n)%nat && (n <=? 90)%nat then ascii_of_nat (n + 32) else c.

(** The letters A-Z folded, every other byte kept. *)
Fixpoint lowerAscii (s : string) : string :=
  match s with
  | EmptyString => EmptyString
  | String c s' => String (lower_ascii c) (lowerAscii s')
  end.

(** [s.toLowerCase()].  The folding of A-Z is written out; the folding of
    the capitals outside ASCII is the runtime's Unicode table,
    [unicodeLower], which the environment supplies (it may leave the letters
    A-Z to [lowerAscii] or fold them itself: the result is the same). *)
Definition toLowerCase (unicodeLower : string -> string) (s : string) : string :=
  lowerAscii (unicodeLower s).

(** [s.split(sep)] for a one-character separator: never empty, and
    consecutive separators yield empty segments. *)
Fixpoint split (sep : ascii) (s : string) : list string :=
  match s with
  | EmptyString => [EmptyString]
  | String c s' =>
      if Ascii.eqb c sep then EmptyString :: split sep s'
      else match split sep s' with
           | h :: t => String c h :: t
           | [] => [String c EmptyString]
           end
  end.

(** [s.includes(sub)]. *)
Fixpoint includes (sub s : string) : bool :=
  prefix sub s ||
  match s with
  | EmptyString => false
  | String _ s' => includes sub s'
  end.

(** [words.includes(w)] on an array of strings. *)
Definition arr_includes (words : list string) (w : string) : bool :=
  existsb (String.eqb w) words.

(** [s.substring(s.lastIndexOf('.') + 1)]: the segment after the last dot,
    the whole string when there is none. *)
Definition afterLastDot (s : string) : string := last (split "." s) s.

(** One round of the segment loop of POSIX [path.normalize], on the stack of
    the segments kept so far (last one first): empty segments and "." are
    dropped, ".." removes the segment before it, or stays when there is
    none to remove and the path is relative. *)
Definition normalizeSegment (allowAboveRoot : bool) (stack : list string)
  (seg : string) : list string :=
  if (seg =? "") || (seg =? ".") then stack
  else if seg =? ".." then
    match stack with
    | top :: rest =>
        if top =? ".." then (if allowAboveRoot then seg :: stack else stack)
        else rest
    | [] => if allowAboveRoot then [seg] else []
    end
  else seg :: stack.

Definition startsWithSlash (s : string) : bool :=
  match s with String c _ => Ascii.eqb c "/" | EmptyString => false end.

Fixpoint endsWithSlash (s : string) : bool :=
  match s with
  | EmptyString => false
  | String c EmptyString => Ascii.eqb c "/"
  | String _ s' => endsWithSlash s'
  end.

(** POSIX [path.normalize] on a non-empty path. *)
Definition normalize (path : string) : string :=
  let isAbsolute := startsWithSlash path in
  let trailingSeparator := endsWithSlash path in
  let kept :=
    String.concat "/"
      (rev (fold_left (normalizeSegment (negb isAbsolute)) (split "/" path) [])) in
  if kept =? "" then
    if isAbsolute then "/" else if trailingSeparator then "./" else "."
  else
    (if isAbsolute then "/" else "") ++ kept ++ (if trailingSeparator then "/" else "").

(** POSIX [path.join] on string arguments: the non-empty arguments are
    joined with "/" and the result is normalized. *)
Definition join (parts : list string) : string :=
  match filter (fun p => negb (p =? "")) parts with
  | [] => "."
  | nonEmpty => normalize (String.concat "/" nonEmpty)
  end.

(** An optional string inside a template literal or as a property key.
    [None] prints as "undefined": the model does not tell [null], which
    prints as "null", from [undefined]. *)
Definition tpl (o : option string) : string :=
  match o with Some s => s | None => "undefined" end.

(** JavaScript truthiness of a nullable string. *)
Definition truthy (o : option string) : bool :=
  match o with Some s => negb (s =? "") | None => false end.

(** ** JSON values (skill configs and resolver files) *)

Set Warnings "-register-all".

Inductive jsval : Type :=
| JUndefined
| JNull
| JBool (b : bool)
| JNum (z : Z)
| JStr (s : string)
| JArr (items : list jsval)
| JObj (props : list (string * jsval)).

Definition lookup (k : string) (props : list (string * jsval)) : jsval :=
  match find (fun p => fst p =? k) props with
  | Some p => snd p
  | None => JUndefined
  end.

(** String conversion, as used for property keys and template literals.  A
    number is an integer and prints as its decimal numeral (JavaScript does
    so below 1e21). *)
Fixpoint js_to_string (v : jsval) : string :=
  match v with
  | JUndefined => "undefined"
  | JNull => "null"
  | JBool true => "true"
  | JBool false => "false"
  | JNum z => NilZero.string_of_int (Z.to_int z)
  | JStr s => s
  | JArr items =>
      String.concat ","
        (map (fun x => match x with
                       | JUndefined | JNull => ""
                       | _ => js_to_string x
                       end) items)
  | JObj _ => "[object Object]"
  end.

Definition is_str (v : jsval) (s : string) : bool :=
  match v with JStr s' => s' =? s | _ => false end.

(** ** Errors and results *)

Inductive exn : Type :=
| TypeError (msg : string)
| SystemError (msg : string)          (* fs, JSON.parse, TCP *)
| NerError (type code : string) (obj : option (option string))
    (* the NER gateway's {type, obj, code, data}; [obj] is absent, or an
       error with that message *)
| Thrown (message : option string)    (* a value thrown by the Brain *)
| RejectMsg (msg : string)            (* reject(msg) *)
| RejectEmptyObj                      (* reject({}) *)
| ErrorObj (message : option string)  (* reject(new Error(e?.message)) *)
| LoadRejection (type msg : string).  (* reject({ type, obj }) of the loaders *)

(** [e?.message] *)
Definition message (e : exn) : option string :=
  match e with
  | TypeError m | SystemError m | RejectMsg m => Some m
  | NerError _ _ _ => None
  | Thrown m | ErrorObj m => m
  | RejectEmptyObj => None
  | LoadRejection _ m => Some m
  end.

(** [e.type], as a property key: an absent member reads "undefined". *)
Definition typeKey (e : exn) : string :=
  match e with
  | NerError t _ _ | LoadRejection t _ => t
  | _ => "undefined"
  end.

(** [e.obj.message]: a TypeError when [e.obj] is undefined. *)
Definition objMessage (e : exn) : exn + option string :=
  match e with
  | NerError _ _ (Some m) => inr m
  | LoadRejection _ m => inr (Some m)
  | _ => inl (TypeError "Cannot read properties of undefined (reading 'message')")
  end.

(** The outcome of running a method: a value, an exception (a rejected
    promise), a promise that never settles, or an exhausted recursion
    budget of the model. *)
Inductive res (A : Type) : Type :=
| Val (a : A)
| Throw (e : exn)
| Hang
| NoFuel.
Arguments Val {A} a.
Arguments Throw {A} e.
Arguments Hang {A}.
Arguments NoFuel {A}.

(** Property read [v[k]]: a TypeError on [undefined] and [null], [undefined]
    for a missing key.  Inherited (prototype) properties are not modelled. *)
Definition get_prop (v : jsval) (k : string) : exn + jsval :=
  match v with
  | JUndefined => inl (TypeError ("Cannot read properties of undefined (reading '" ++ k ++ "')"))
  | JNull => inl (TypeError ("Cannot read properties of null (reading '" ++ k ++ "')"))
  | JObj props => inr (lookup k props)
  | _ => inr JUndefined
  end.

(** Sequencing of reads that may throw. *)
Definition andThen {A B} (r : exn + A) (k : A -> exn + B) : exn + B :=
  match r with
  | inl e => inl e
  | inr a => k a
  end.

(** ** Data model *)

Module Entity.
Record t : Type := mk { entity : string; resolution : string }.
End Entity.

Module Slot.
Record t : Type := mk {
  name : string;
  expectedEntity : string;
  pickedQuestion : string;
  isFilled : bool;
  value : option Entity.t
}.
End Slot.

Record Resolver : Type := { resolverName : jsval; resolverValue : jsval }.

Record Classification : Type := {
  domain : option string;
  skill : option string;
  action : option string;
  confidence : option Q
}.

Record NLUResult : Type := {
  utterance : option string;
  currentEntities : list Entity.t;
  entities : list Entity.t;
  currentResolvers : list Resolver;
  resolvers : list Resolver;
  slots : option (list Slot.t);
  configDataFilePath : option string;
  answers : list jsval;
  classification : Classification
}.

Definition defaultNluResultObj : NLUResult :=
  {| utterance := None;
     currentEntities := [];
     entities := [];
     currentResolvers := [];
     resolvers := [];
     slots := None;
     configDataFilePath := None;
     answers := [];
     classification :=
       {| domain := None; skill := None; action := None; confidence := Some 0%Q |} |}.

Definition with_entities (es : list Entity.t) (r : NLUResult) : NLUResult :=
  {| utterance := utterance r; currentEntities := currentEntities r;
     entities := es; currentResolvers := currentResolvers r;
     resolvers := resolvers r; slots := slots r;
     configDataFilePath := configDataFilePath r; answers := answers r;
     classification := classification r |}.

Definition with_currentEntities (es : list Entity.t) (r : NLUResult) : NLUResult :=
  {| utterance := utterance r; currentEntities := es;
     entities := entities r; currentResolvers := currentResolvers r;
     resolvers := resolvers r; slots := slots r;
     configDataFilePath := configDataFilePath r; answers := answers r;
     classification := classification r |}.

Definition with_resolvers (rs : list Resolver) (r : NLUResult) : NLUResult :=
  {| utterance := utterance r; currentEntities := currentEntities r;
     entities := entities r; currentResolvers := currentResolvers r;
     resolvers := rs; slots := slots r;
     configDataFilePath := configDataFilePath r; answers := answers r;
     classification := classification r |}.

Definition with_configDataFilePath (p : option string) (r : NLUResult) : NLUResult :=
  {| utterance := utterance r; currentEntities := currentEntities r;
     entities := entities r; currentResolvers := currentResolvers r;
     resolvers := resolvers r; slots := slots r;
     configDataFilePath := p; answers := answers r;
     classification := classification r |}.

Definition with_classification (c : Classification) (r : NLUResult) : NLUResult :=
  {| utterance := utterance r; currentEntities := currentEntities r;
     entities := entities r; currentResolvers := currentResolvers r;
     resolvers := resolvers r; slots := slots r;
     configDataFilePath := configDataFilePath r; answers := answers r;
     classification := c |}.

(** One row of a language's fallback table ([langs.json]). *)
Module Fallback.
Record t : Type := mk {
  words : list string;
  domain : string;
  skill : string;
  action : string
}.
End Fallback.

(** The main classifier's answer to [process(utterance)]. *)
Module NlpResult.
Record t : Type := mk {
  locale : string;
  answers : list jsval;
  classifications : list (string * Q);   (* { intent, score } *)
  score : Q;
  intent : string;
  domain : string
}.
End NlpResult.

(** What [BRAIN.execute] resolves with.  Every field may be missing; reading
    through a missing object is a TypeError. *)
Module Processed.
Record action_t : Type := mkAction { next_action : option string; loop : bool }.
Record core_t : Type := mkCore { restart : option bool; isInActionLoop : option bool }.
Record t : Type := mk {
  executionTime : option Z;
  utterance : option string;
  configDataFilePath : option string;
  classification : option Classification;
  action : option action_t;
  nextAction : option bool;            (* [Some l]: present, [l] = !!nextAction.loop *)
  core : option core_t;
  slots : option (list Slot.t)
}.
(** The object [{}]. *)
Definition empty : t := mk None None None None None None None None.
(** [Object.keys(o).length > 0] *)
Definition has_keys (o : t) : bool :=
  match o with
  | mk None None None None None None None None => false
  | _ => true
  end.
End Processed.

(** What [process] resolves with. *)
Inductive Output : Type :=
| ONull
| OData (o : Processed.t)
| ONotFound (processingTime : Z) (msg : string)
| OTimed (processingTime : Z) (o : Processed.t) (nluProcessingTime : option Z).

(** ** The conversation store *)

Module ActiveContext.
Record t : Type := mk {
  name : option string;
  lang : option string;
  domain : option string;
  intent : option string;
  actionName : option string;
  originalUtterance : option string;
  configDataFilePath : option string;
  slots : list Slot.t;
  isInActionLoop : bool;
  nextAction : option string;
  entities : list Entity.t;
  currentEntities : list Entity.t
}.
End ActiveContext.

(** The object literal handed to the [activeContext] setter. *)
Module ContextObj.
Record t : Type := mk {
  lang : string;
  slots : list Slot.t;
  isInActionLoop : bool;
  originalUtterance : option string;
  configDataFilePath : option string;
  actionName : option string;
  domain : option string;
  intent : string;
  entities : list Entity.t
}.
End ContextObj.

Module Conversation.
Import ActiveContext.

(** Modelled from the spec: the class [Conversation] ([@/core/conversation])
    is not part of the sources.  The cleared store: no name, no slots. *)
Definition defaultActiveContext : ActiveContext.t :=
  mk None None None None None None None [] false None [] [].

(** Modelled from the spec: [HasActiveContext() -> bool]; the store holds at
    most one active context, present exactly when it has a name. *)
Definition hasActiveContext (c : ActiveContext.t) : bool :=
  match name c with Some _ => true | None => false end.

(** Modelled from the spec: [CleanActiveContext()]: clear. *)
Definition cleanActiveContext (c : ActiveContext.t) : ActiveContext.t :=
  defaultActiveContext.

(** Modelled from the spec: [name = "{domain}.{skill}"] (derived), the skill
    being the first segment of the intent. *)
Definition contextName (o : ContextObj.t) : string :=
  tpl (ContextObj.domain o) ++ "." ++ hd "" (split "." (ContextObj.intent o)).

(** Modelled from the spec: [SetActiveContext(ctx)]: if [ctx.name] differs
    from the current name, discard the current context; else merge (update
    slots and entities while preserving [originalUtterance]).  The spec does
    not say where [nextAction] comes from: [nextActionOf] stands for it. *)
Definition setActiveContext
  (nextActionOf : option string -> option string -> option string)
  (o : ContextObj.t) (c : ActiveContext.t) : ActiveContext.t :=
  let next := nextActionOf (ContextObj.configDataFilePath o) (ContextObj.actionName o) in
  match name c with
  | Some n =>
      if n =? contextName o then
        mk (Some n) (Some (ContextObj.lang o)) (ContextObj.domain o)
           (Some (ContextObj.intent o)) (ContextObj.actionName o)
           (originalUtterance c) (ContextObj.configDataFilePath o)
           (ContextObj.slots o) (ContextObj.isInActionLoop o) next
           (entities c ++ ContextObj.entities o)%list (ContextObj.entities o)
      else
        mk (Some (contextName o)) (Some (ContextObj.lang o)) (ContextObj.domain o)
           (Some (ContextObj.intent o)) (ContextObj.actionName o)
           (ContextObj.originalUtterance o) (ContextObj.configDataFilePath o)
           (ContextObj.slots o) (ContextObj.isInActionLoop o) next
           (ContextObj.entities o) (ContextObj.entities o)
  | None =>
      mk (Some (contextName o)) (Some (ContextObj.lang o)) (ContextObj.domain o)
         (Some (ContextObj.intent o)) (ContextObj.actionName o)
         (ContextObj.originalUtterance o) (ContextObj.configDataFilePath o)
         (ContextObj.slots o) (ContextObj.isInActionLoop o) next
         (ContextObj.entities o) (ContextObj.entities o)
  end.

Definition with_slots (ss : list Slot.t) (c : ActiveContext.t) : ActiveContext.t :=
  mk (name c) (lang c) (domain c) (intent c) (actionName c) (originalUtterance c)
     (configDataFilePath c) ss (isInActionLoop c) (nextAction c) (entities c)
     (currentEntities c).

(** Modelled from the spec: [SetSlots(lang, entities)]: every slot whose
    [expectedEntity] matches an entity name records it and becomes filled. *)
Definition setSlots (l : string) (es : list Entity.t) (c : ActiveContext.t)
  : ActiveContext.t :=
  with_slots
    (map (fun s =>
            match find (fun e => Entity.entity e =? Slot.expectedEntity s) es with
            | Some e =>
                Slot.mk (Slot.name s) (Slot.expectedEntity s) (Slot.pickedQuestion s)
                        true (Some e)
            | None => s
            end) (slots c)) c.

(** Modelled from the spec: [GetNotFilledSlot()]: first unfilled slot in
    declaration order. *)
Definition getNotFilledSlot (c : ActiveContext.t) : option Slot.t :=
  find (fun s => negb (Slot.isFilled s)) (slots c).

(** Modelled from the spec: [AreSlotsAllFilled() -> bool]. *)
Definition areSlotsAllFilled (c : ActiveContext.t) : bool :=
  forallb Slot.isFilled (slots c).

(** The three assignments of [handleActionLoop] that write straight into the
    active context. *)
Definition with_loop_action (l : bool) (a : option string) (c : ActiveContext.t)
  : ActiveContext.t :=
  mk (name c) (lang c) (domain c) (intent c) a (originalUtterance c)
     (configDataFilePath c) (slots c) l (nextAction c) (entities c)
     (currentEntities c).

Definition with_intent (i : string) (c : ActiveContext.t) : ActiveContext.t :=
  mk (name c) (lang c) (domain c) (Some i) (actionName c) (originalUtterance c)
     (configDataFilePath c) (slots c) (isInActionLoop c) (nextAction c) (entities c)
     (currentEntities c).

End Conversation.

(** ** Observable effects *)

Inductive phrase : Type :=
| Wernicke (key : string) (suffix : string)     (* `${BRAIN.wernicke(key)}suffix` *)
| LoadErrorPhrase (msg : option string)         (* random_errors + errors.nlu *)
| Text (s : string).

Inductive event : Type :=
| SetLang (locale : string)                     (* BRAIN.lang = locale *)
| Talk (p : phrase) (flag : bool)               (* BRAIN.talk(p, flag) *)
| Emit (name : string) (payload : jsval)        (* SOCKET_SERVER.socket.emit *)
| AddEntities (e : Entity.t) (lang : string)    (* mainNlp.addEntities *)
| Execute (r : NLUResult)                       (* BRAIN.execute(r) *)
| Kill (pid : Z)                                (* tree-kill *)
| Spawn (command : string)
| Connect                                       (* TCP_CLIENT.connect() *)
| RemoveConnectedListener
| OnConnected (utterance : option string).      (* handler: process(utterance) *)

(** ** State and environment *)

Record State : Type := mkState {
  globalResolversNlp : list string;   (* own keys of the object *)
  skillsResolversNlp : list string;
  mainNlp : list string;
  nerReady : bool;                    (* this.ner is a Ner instance, not {} *)
  conv : ActiveContext.t;
  nluResultObj : NLUResult;
  brainLang : string;                 (* BRAIN.lang *)
  brainIsMuted : bool;                (* BRAIN.isMuted *)
  tcpServerProcess : Z;               (* global.tcpServerProcess.pid *)
  clock : nat;                        (* readings of Date.now() so far *)
  trace : list event
}.

Definition set_globalResolversNlp (x : list string) (s : State) : State :=
  mkState x (skillsResolversNlp s) (mainNlp s) (nerReady s) (conv s) (nluResultObj s)
          (brainLang s) (brainIsMuted s) (tcpServerProcess s) (clock s) (trace s).
Definition set_skillsResolversNlp (x : list string) (s : State) : State :=
  mkState (globalResolversNlp s) x (mainNlp s) (nerReady s) (conv s) (nluResultObj s)
          (brainLang s) (brainIsMuted s) (tcpServerProcess s) (clock s) (trace s).
Definition set_mainNlp (x : list string) (s : State) : State :=
  mkState (globalResolversNlp s) (skillsResolversNlp s) x (nerReady s) (conv s)
          (nluResultObj s) (brainLang s) (brainIsMuted s) (tcpServerProcess s)
          (clock s) (trace s).
Definition set_nerReady (x : bool) (s : State) : State :=
  mkState (globalResolversNlp s) (skillsResolversNlp s) (mainNlp s) x (conv s)
          (nluResultObj s) (brainLang s) (brainIsMuted s) (tcpServerProcess s)
          (clock s) (trace s).
Definition set_conv (x : ActiveContext.t) (s : State) : State :=
  mkState (globalResolversNlp s) (skillsResolversNlp s) (mainNlp s) (nerReady s) x
          (nluResultObj s) (brainLang s) (brainIsMuted s) (tcpServerProcess s)
          (clock s) (trace s).
Definition set_nluResultObj (x : NLUResult) (s : State) : State :=
  mkState (globalResolversNlp s) (skillsResolversNlp s) (mainNlp s) (nerReady s)
          (conv s) x (brainLang s) (brainIsMuted s) (tcpServerProcess s)
          (clock s) (trace s).
Definition set_brainLang (x : string) (s : State) : State :=
  mkState (globalResolversNlp s) (skillsResolversNlp s) (mainNlp s) (nerReady s)
          (conv s) (nluResultObj s) x (brainIsMuted s) (tcpServerProcess s)
          (clock s) (trace s).
Definition set_clock (x : nat) (s : State) : State :=
  mkState (globalResolversNlp s) (skillsResolversNlp s) (mainNlp s) (nerReady s)
          (conv s) (nluResultObj s) (brainLang s) (brainIsMuted s)
          (tcpServerProcess s) x (trace s).
Definition add_event (e : event) (s : State) : State :=
  mkState (globalResolversNlp s) (skillsResolversNlp s) (mainNlp s) (nerReady s)
          (conv s) (nluResultObj s) (brainLang s) (brainIsMuted s)
          (tcpServerProcess s) (clock s) (trace s ++ [e])%list.

(** The state the constructor leaves behind. *)
Definition initialState (lang : string) (muted : bool) (pid : Z) : State :=
  mkState [] [] [] false Conversation.defaultActiveContext defaultNluResultObj
          lang muted pid 0 [].

(** Collaborators outside the file.  Each is a function of its arguments;
    the wall clock is a stream of readings. *)
Record Env : Type := {
  cwd : string;                                           (* process.cwd() *)
  (* String.prototype.toLowerCase on the capitals outside ASCII *)
  unicodeLower : string -> string;
  TCP_SERVER_BIN_PATH : string;
  existsSync : string -> bool;
  (* containerBootstrap() then container.get('nlp'): the own keys of the
     classifier object, for the model at the given path *)
  containerBootstrap : string -> exn + list string;
  nlpLoad : string -> option exn;                        (* nlp.load(path) *)
  getSpacyEntities : option string -> exn + list Entity.t;
  extractEntities : string -> string -> NLUResult -> exn + list Entity.t;
  mainNlpProcess : option string -> NlpResult.t;
  getIntentDomain : string -> string -> string;
  getMandatorySlots : string -> list Slot.t;
  globalResolversProcess : option string -> option string;  (* result.intent *)
  skillsResolversProcess : option string -> option string;
  readJson : string -> exn + jsval;      (* JSON.parse(fs.readFileSync(path)) *)
  getShortCodes : list string;
  getLongCode : string -> string;
  langsFallbacks : string -> option (list Fallback.t);  (* langs[code].fallbacks *)
  brainExecute : NLUResult -> exn + Processed.t;
  (* LogHelper[name]: [None] when it is falsy, else what the call
     LogHelper[name](message) throws, if anything *)
  logHelper : string -> option (option string -> option exn);
  dateNow : nat -> Z;
  spawnPid : string -> Z;                 (* pid of spawn(command) *)
  nextActionOf : option string -> option string -> option string
}.

(** ** The monad of methods *)

Definition M (A : Type) : Type := State -> res A * State.

Definition ret {A} (a : A) : M A := fun s => (Val a, s).

Definition bind {A B} (m : M A) (k : A -> M B) : M B :=
  fun s =>
    match m s with
    | (Val a, s') => k a s'
    | (Throw e, s') => (Throw e, s')
    | (Hang, s') => (Hang, s')
    | (NoFuel, s') => (NoFuel, s')
    end.

Notation "x <- m ;; k" := (bind m (fun x => k))
  (at level 61, m at next level, right associativity).
Notation "m ;; k" := (bind m (fun _ => k))
  (at level 61, right associativity).
Notation "' p <- m ;; k" := (bind m (fun x => match x with p => k end))
  (at level 61, p pattern, m at next level, right associativity).

Definition throw {A} (e : exn) : M A := fun s => (Throw e, s).
Definition get : M State := fun s => (Val s, s).
Definition modify (f : State -> State) : M unit := fun s => (Val tt, f s).
Definition log (e : event) : M unit := modify (add_event e).

(** [try { m } catch (e) { h e }] *)
Definition try_catch {A} (m : M A) (h : exn -> M A) : M A :=
  fun s =>
    match m s with
    | (Throw e, s') => h e s'
    | r => r
    end.

Definition liftE {A} (r : exn + A) : M A :=
  fun s => match r with inl e => (Throw e, s) | inr a => (Val a, s) end.

Definition require {A} (o : option A) (e : exn) : M A :=
  fun s => match o with Some a => (Val a, s) | None => (Throw e, s) end.

Definition when (b : bool) (m : M unit) : M unit := if b then m else ret tt.

(** [new Promise(async (resolve, reject) => body)]: the promise settles the
    way the body says; an exception that escapes the body leaves it pending
    for ever. *)
Inductive settle : Type :=
| Resolve (o : Output)
| Reject (e : exn).

Definition resolve (o : Output) : M settle := ret (Resolve o).
Definition reject (e : exn) : M settle := ret (Reject e).

Definition promise (body : M settle) : M Output :=
  fun s =>
    match body s with
    | (Val (Resolve o), s') => (Val o, s')
    | (Val (Reject e), s') => (Throw e, s')
    | (Throw _, s') => (Hang, s')
    | (Hang, s') => (Hang, s')
    | (NoFuel, s') => (NoFuel, s')
    end.

(** ** The class [NLU] *)

Section NLU.

Variable env : Env.

Import Conversation.

Definition talk (p : phrase) (flag : bool) : M unit := log (Talk p flag).
Definition emit (name : string) (payload : jsval) : M unit := log (Emit name payload).

(** [Date.now()] *)
Definition now : M Z :=
  fun s => (Val (dateNow env (clock s)), set_clock (S (clock s)) s).

(** [BRAIN.execute(r)] *)
Definition execute (r : NLUResult) : M Processed.t :=
  log (Execute r) ;; liftE (brainExecute env r).

(** [this.ner.extractEntities(BRAIN.lang, path, this.nluResultObj)]; while
    [this.ner] is still [{}] the method does not exist. *)
Definition nerExtractEntities (path : string) : M (list Entity.t) :=
  s <- get ;;
  if nerReady s then liftE (extractEntities env (brainLang s) path (nluResultObj s))
  else throw (TypeError "this.ner.extractEntities is not a function").

Definition missingModel (which : string) : string :=
  "The " ++ which ++ " NLP model does not exist, please run: npm run train".

(** The [catch] block shared by the three loaders. *)
Definition loadFailed (err : exn) : M unit :=
  talk (LoadErrorPhrase (message err)) false ;;
  emit "is-typing" (JBool false) ;;
  throw (LoadRejection "error" (tpl (message err))).

(** [await this.<x>Nlp.load(nlpModel)] *)
Definition awaitLoad (nlpModel : string) : M unit :=
  match nlpLoad env nlpModel with
  | Some e => throw e
  | None => ret tt
  end.

(** Lines 89-96: bootstrap the container and store the classifier object in
    the field, before the model file is read.  [containerBootstrap] stands
    for everything up to [container.get('nlp')]; the spell-check setting
    that follows is taken not to fail. *)
Definition installGlobalResolversNlp (nlpModel : string) : M unit :=
  nlp <- liftE (containerBootstrap env nlpModel) ;;
  modify (set_globalResolversNlp nlp).

Definition loadGlobalResolversModel (nlpModel : string) : M unit :=
  if negb (existsSync env nlpModel) then
    throw (LoadRejection "warning" (missingModel "global resolvers"))
  else
    try_catch
      (installGlobalResolversNlp nlpModel ;;
       awaitLoad nlpModel)
      loadFailed.

Definition installSkillsResolversNlp (nlpModel : string) : M unit :=
  nlp <- liftE (containerBootstrap env nlpModel) ;;
  modify (set_skillsResolversNlp nlp).

Definition loadSkillsResolversModel (nlpModel : string) : M unit :=
  if negb (existsSync env nlpModel) then
    throw (LoadRejection "warning" (missingModel "skills resolvers"))
  else
    try_catch
      (installSkillsResolversNlp nlpModel ;;
       awaitLoad nlpModel)
      loadFailed.

Definition installMainNlp (nlpModel : string) : M unit :=
  nlp <- liftE (containerBootstrap env nlpModel) ;;
  modify (set_mainNlp nlp).

Definition loadMainModel (nlpModel : string) : M unit :=
  if negb (existsSync env nlpModel) then
    throw (LoadRejection "warning" (missingModel "main"))
  else
    try_catch
      (installMainNlp nlpModel ;;
       awaitLoad nlpModel ;;
       modify (set_nerReady true))
      loadFailed.

Definition globalResolversModelPath : string :=
  join [cwd env; "core/data/models/leon-global-resolvers-model.nlp"].
Definition skillsResolversModelPath : string :=
  join [cwd env; "core/data/models/leon-skills-resolvers-model.nlp"].
Definition mainModelPath : string :=
  join [cwd env; "core/data/models/leon-main-model.nlp"].

(** [Promise.all] of the three loaders: each one runs whatever the others
    do; the outcomes are kept side by side.  (The loaders write disjoint
    fields, so the order in which they interleave does not matter for the
    fields.) *)
Definition loadNLPModels (s : State) : (res unit * res unit * res unit) * State :=
  let '(r1, s1) := loadGlobalResolversModel globalResolversModelPath s in
  let '(r2, s2) := loadSkillsResolversModel skillsResolversModelPath s1 in
  let '(r3, s3) := loadMainModel mainModelPath s2 in
  ((r1, r2, r3), s3).

Definition hasNlpModels (s : State) : bool :=
  (0 <? length (globalResolversNlp s))%nat &&
  (0 <? length (skillsResolversNlp s))%nat &&
  (0 <? length (mainNlp s))%nat.

(** The synchronous part of [switchLanguage]. *)
Definition switchLanguage (utterance : option string) (locale : string) : M Output :=
  modify (fun s => add_event (SetLang locale) (set_brainLang locale s)) ;;
  talk (Wernicke "random_language_switch" ".") true ;;
  s <- get ;;
  log (Kill (tcpServerProcess s)) ;;
  ret (OData Processed.empty).

(** The callback handed to [kill], run once the old process tree is gone. *)
Definition killCallback (utterance : option string) (locale : string) : M unit :=
  let command := TCP_SERVER_BIN_PATH env ++ " " ++ locale in
  modify (fun s =>
            mkState (globalResolversNlp s) (skillsResolversNlp s) (mainNlp s)
                    (nerReady s) (conv s) (nluResultObj s) (brainLang s)
                    (brainIsMuted s) (spawnPid env command) (clock s)
                    (trace s ++ [Spawn command])%list) ;;
  log Connect ;;
  log RemoveConnectedListener ;;
  log (OnConnected utterance).

Definition mergeSpacyEntities (utterance : option string) : M unit :=
  spacyEntities <- liftE (getSpacyEntities env utterance) ;;
  fold_left (fun m e => m ;; s <- get ;; log (AddEntities e (brainLang s)))
            spacyEntities (ret tt).

(** The loop of [fallback], with its accumulator [tmpWords], which is
    created once, before the outer loop.  Two arrays of strings have the
    same [JSON.stringify] exactly when they are equal. *)
Fixpoint fallback_scan (words tmpWords : list string) (fallbacks : list Fallback.t)
  : option Fallback.t :=
  match fallbacks with
  | [] => None
  | fb :: rest =>
      let tmpWords' := (tmpWords ++ filter (arr_includes words) (Fallback.words fb))%list in
      if list_eq_dec string_dec tmpWords' (Fallback.words fb) then Some fb
      else fallback_scan words tmpWords' rest
  end.

(** [None] is the source's [false]. *)
Definition fallback (fallbacks : list Fallback.t) : M (option NLUResult) :=
  s <- get ;;
  u <- require (utterance (nluResultObj s))
         (TypeError "Cannot read properties of null (reading 'toLowerCase')") ;;
  let words := split " " (toLowerCase (unicodeLower env) u) in
  if (0 <? length fallbacks)%nat then
    match fallback_scan words [] fallbacks with
    | Some fb =>
        let r :=
          with_classification
            {| domain := Some (Fallback.domain fb);
               skill := Some (Fallback.skill fb);
               action := Some (Fallback.action fb);
               confidence := Some 1%Q |}
            (with_entities [] (nluResultObj s)) in
        modify (set_nluResultObj r) ;;
        ret (Some r)
    | None => ret None
    end
  else ret None.

(** The closure [resolveResolvers] of [handleActionLoop]. *)
Definition resolveResolvers (resolversCfg resolver : jsval) (intent : string)
  : M (list Resolver) :=
  s <- get ;;
  let resolversPath := join [cwd env; "core/data"; brainLang s; "global-resolvers"] in
  resolvedIntents <-
    (if negb (includes "resolver.global" intent)
     then liftE (get_prop resolversCfg (js_to_string resolver))
     else liftE (readJson env (join [resolversPath; js_to_string resolver ++ ".json"]))) ;;
  let intent' := afterLastDot intent in
  intents <- liftE (get_prop resolvedIntents "intents") ;;
  entry <- liftE (get_prop intents intent') ;;
  value <- liftE (get_prop entry "value") ;;
  ret [ {| resolverName := resolver; resolverValue := value |} ].

(** [nlpObjs[expectedItemType].process(utterance)], then [result.intent]. *)
Definition resolverProcess (type : string) (utterance : option string)
  : M (option string) :=
  s <- get ;;
  if type =? "global_resolver" then
    if (0 <? length (globalResolversNlp s))%nat
    then ret (globalResolversProcess env utterance)
    else throw (TypeError "nlpObjs[expectedItemType].process is not a function")
  else if type =? "skill_resolver" then
    if (0 <? length (skillsResolversNlp s))%nat
    then ret (skillsResolversProcess env utterance)
    else throw (TypeError "nlpObjs[expectedItemType].process is not a function")
  else throw (TypeError "Cannot read properties of undefined (reading 'process')").

(** Lines 330 and 335: which branch the type of the expected item selects.
    [indexOf] exists on strings and arrays only. *)
Inductive itemKind : Type :=
| IsEntity
| IsResolver (key : string)   (* the key used on [nlpObjs] *)
| IsOther.

Definition expectedItemKind (expectedItemType : jsval) : exn + itemKind :=
  if is_str expectedItemType "entity" then inr IsEntity
  else
    match expectedItemType with
    | JStr type => inr (if includes "resolver" type then IsResolver type else IsOther)
    | JArr items =>
        inr (if existsb (fun x => is_str x "resolver") items
             then IsResolver (js_to_string expectedItemType) else IsOther)
    | JUndefined | JNull =>
        inl (TypeError "Cannot read properties of undefined (reading 'indexOf')")
    | _ => inl (TypeError "expectedItemType.indexOf is not a function")
    end.

(** Lines 327-380: is the expected item in the utterance?  Returns
    [(hasMatchingEntity, hasMatchingResolver)]. *)
Definition matchExpectedItem (utterance : option string) (skillName : string)
  (resolversCfg expectedItemName expectedItemType : jsval) : M (bool * bool) :=
  s <- get ;;
  kind <- liftE (expectedItemKind expectedItemType) ;;
  match kind with
  | IsEntity =>
      ret ((0 <? length (filter (fun e => is_str expectedItemName (Entity.entity e))
                                (entities (nluResultObj s))))%nat,
           false)
  | IsResolver key =>
      intent <- resolverProcess key utterance ;;
      if truthy intent &&
         (includes "resolver.global" (tpl intent) ||
          includes ("resolver." ++ skillName) (tpl intent))
      then
        rs <- resolveResolvers resolversCfg expectedItemName (tpl intent) ;;
        modify (fun s => set_nluResultObj (with_resolvers rs (nluResultObj s)) s) ;;
        ret (false, (0 <? length rs)%nat)
      else ret (false, false)
  | IsOther => ret (false, false)
  end.

(** Lines 324-326 on the parsed config: [actions[actionKey].loop.expected_item]
    and its [name] and [type], next to the config's [resolvers]. *)
Definition expectedItemOf (config : jsval) (actionKey : string)
  : exn + (jsval * jsval * jsval) :=
  andThen (get_prop config "actions") (fun actions =>
  andThen (get_prop config "resolvers") (fun resolversCfg =>
  andThen (get_prop actions actionKey) (fun action =>
  andThen (get_prop action "loop") (fun loop =>
  andThen (get_prop loop "expected_item") (fun expected_item =>
  andThen (get_prop expected_item "name") (fun expectedItemName =>
  andThen (get_prop expected_item "type") (fun expectedItemType =>
  inr (resolversCfg, expectedItemName, expectedItemType)))))))).

(** Lines 321-326: read the skill config and find the expected item of the
    action.  Returns [(resolvers, expectedItemName, expectedItemType)]. *)
Definition readExpectedItem (configDataFilePath : string) : M (jsval * jsval * jsval) :=
  config <- liftE (readJson env configDataFilePath) ;;
  s <- get ;;
  liftE (expectedItemOf config (tpl (action (classification (nluResultObj s))))).

(** Lines 294-319: rebuild the NLU result from the active context. *)
Definition enterActionLoop (utterance : option string) : M (string * string) :=
  s <- get ;;
  let domain := ActiveContext.domain (conv s) in
  intent <- require (ActiveContext.intent (conv s))
              (TypeError "Cannot read properties of null (reading 'split')") ;;
  let skillName := hd "" (split "." intent) in
  let actionName := nth_error (split "." intent) 1 in
  d <- require domain (TypeError "The 'path' argument must be of type string") ;;
  let configDataFilePath :=
    join [cwd env; "skills"; d; skillName; "config/" ++ brainLang s ++ ".json"] in
  modify (set_nluResultObj
            {| utterance := utterance;
               currentEntities := [];
               entities := [];
               currentResolvers := [];
               resolvers := [];
               slots := Some (ActiveContext.slots (conv s));
               configDataFilePath := Some configDataFilePath;
               answers := [];
               classification :=
                 {| domain := domain; skill := Some skillName;
                    action := actionName; confidence := Some 1%Q |} |}) ;;
  es <- nerExtractEntities configDataFilePath ;;
  modify (fun s => set_nluResultObj (with_entities es (nluResultObj s)) s) ;;
  ret (skillName, configDataFilePath).

(** Lines 390-423: run the action and interpret the Brain's reply. *)
Definition runLoopAction (process : option string -> M Output) : M Output :=
  try_catch
    (s <- get ;;
     processedData <- execute (nluResultObj s) ;;
     if match Processed.core processedData with
        | Some c => match Processed.restart c with Some true => true | _ => false end
        | None => false
        end
     then
       s <- get ;;
       let originalUtterance := ActiveContext.originalUtterance (conv s) in
       modify (fun s => set_conv (cleanActiveContext (conv s)) s) ;;
       process originalUtterance ;;
       ret ONull
     else
       a <- require (Processed.action processedData)
              (TypeError "Cannot read properties of undefined (reading 'next_action')") ;;
       let loopStopped :=
         match Processed.core processedData with
         | Some c => match Processed.isInActionLoop c with Some false => true | _ => false end
         | None => false
         end in
       if negb (truthy (Processed.next_action a)) && loopStopped then
         modify (fun s => set_conv (cleanActiveContext (conv s)) s) ;;
         ret ONull
       else
         (if loopStopped then
            modify (fun s => set_conv (with_loop_action (Processed.loop a)
                                         (Processed.next_action a) (conv s)) s) ;;
            c <- require (Processed.classification processedData)
                   (TypeError "Cannot read properties of undefined (reading 'skill')") ;;
            modify (fun s => set_conv (with_intent (tpl (skill c) ++ "." ++
                                                    tpl (Processed.next_action a))
                                                   (conv s)) s)
          else ret tt) ;;
         ret (OData processedData))
    (fun _ => ret ONull).

Definition handleActionLoop (process : option string -> M Output)
  (utterance : option string) : M Output :=
  '(skillName, configDataFilePath) <- enterActionLoop utterance ;;
  '(resolversCfg, expectedItemName, expectedItemType) <- readExpectedItem configDataFilePath ;;
  '(hasMatchingEntity, hasMatchingResolver) <-
     matchExpectedItem utterance skillName resolversCfg expectedItemName expectedItemType ;;
  if negb hasMatchingEntity && negb hasMatchingResolver then
    talk (Wernicke "random_context_out_of_topic" ".") false ;;
    modify (fun s => set_conv (cleanActiveContext (conv s)) s) ;;
    process utterance ;;
    ret ONull
  else runLoopAction process.

(** [this.conv.activeContext = { ... }] *)
Definition setContext (o : ContextObj.t) : M unit :=
  modify (fun s => set_conv (setActiveContext (nextActionOf env) o (conv s)) s).

Definition cleanContext : M unit :=
  modify (fun s => set_conv (cleanActiveContext (conv s)) s).

(** Lines 717-725: the NLU result that is shown to the NER gateway. *)
Definition slotFillQuery (utterance : option string) (c : ActiveContext.t)
  (skillName : string) (actionName : option string) : NLUResult :=
  {| utterance := utterance;
     currentEntities := [];
     entities := [];
     currentResolvers := [];
     resolvers := [];
     slots := None;
     configDataFilePath := None;
     answers := [];
     classification :=
       {| domain := ActiveContext.domain c; skill := Some skillName;
          action := actionName; confidence := None |} |}.

(** Lines 755-769: the NLU result of a completed slot filling. *)
Definition slotFillResult (c : ActiveContext.t) (skillName configDataFilePath : string)
  : NLUResult :=
  {| utterance := ActiveContext.originalUtterance c;
     currentEntities := [];
     entities := [];
     currentResolvers := [];
     resolvers := [];
     slots := if truthy (ActiveContext.nextAction c)
              then Some (ActiveContext.slots c) else Some [];
     configDataFilePath := Some configDataFilePath;
     answers := [];
     classification :=
       {| domain := ActiveContext.domain c; skill := Some skillName;
          action := ActiveContext.nextAction c;
          confidence := Some 1%Q |} |}.

Definition slotFill (utterance : option string) : M (option Processed.t) :=
  s <- get ;;
  if negb (truthy (ActiveContext.nextAction (conv s))) then ret None
  else
    intent <- require (ActiveContext.intent (conv s))
                (TypeError "Cannot read properties of null (reading 'split')") ;;
    let skillName := hd "" (split "." intent) in
    let actionName := nth_error (split "." intent) 1 in
    d <- require (ActiveContext.domain (conv s))
           (TypeError "The 'path' argument must be of type string") ;;
    let configDataFilePath :=
      join [cwd env; "skills"; d; skillName; "config/" ++ brainLang s ++ ".json"] in
    modify (set_nluResultObj (slotFillQuery utterance (conv s) skillName actionName)) ;;
    es <- nerExtractEntities configDataFilePath ;;
    s <- get ;;
    asked <-
      match getNotFilledSlot (conv s) with
      | Some notFilledSlot =>
          if (0 <? length es)%nat &&
             existsb (fun e => Entity.entity e =? Slot.expectedEntity notFilledSlot) es
          then
            modify (fun s => set_conv (setSlots (brainLang s) es (conv s)) s) ;;
            s <- get ;;
            match getNotFilledSlot (conv s) with
            | Some notFilledSlot =>
                talk (Text (Slot.pickedQuestion notFilledSlot)) false ;;
                emit "is-typing" (JBool false) ;;
                ret true
            | None => ret false
            end
          else ret false
      | None => ret false
      end ;;
    if asked : bool then ret (Some Processed.empty)
    else
      s <- get ;;
      if negb (areSlotsAllFilled (conv s)) then
        talk (Wernicke "random_context_out_of_topic" ".") false ;;
        cleanContext ;;
        ret None
      else
        let r := slotFillResult (conv s) skillName configDataFilePath in
        modify (set_nluResultObj r) ;;
        cleanContext ;;
        processedData <- execute r ;;
        ret (Some processedData).

Definition handleSlotFilling (process : option string -> M Output)
  (utterance : option string) : M Output :=
  processedData <- slotFill utterance ;;
  match processedData with
  | None =>
      process utterance ;;
      ret ONull
  | Some pd =>
      (if Processed.has_keys pd then
         a <- require (Processed.action pd)
                (TypeError "Cannot read properties of undefined (reading 'next_action')") ;;
         if truthy (Processed.next_action a) then
           s <- get ;;
           l <- require (Processed.nextAction pd)
                  (TypeError "Cannot read properties of undefined (reading 'loop')") ;;
           c <- require (Processed.classification pd)
                  (TypeError "Cannot read properties of undefined (reading 'domain')") ;;
           setContext
             (ContextObj.mk (brainLang s)
                (match Processed.slots pd with Some ss => ss | None => [] end)
                l (Processed.utterance pd) (Processed.configDataFilePath pd)
                (Processed.next_action a) (domain c)
                (tpl (skill c) ++ "." ++ tpl (Processed.next_action a)) [])
         else ret tt
       else ret tt) ;;
      ret (OData pd)
  end.

(** [slots.filter(({ name }) => name === wanted)] on a JSON array. *)
Fixpoint filterByName (items : list jsval) (wanted : string) : exn + list jsval :=
  match items with
  | [] => inr []
  | x :: rest =>
      match get_prop x "name" with
      | inl e => inl e
      | inr v =>
          match filterByName rest wanted with
          | inl e => inl e
          | inr l => inr (if is_str v wanted then x :: l else l)
          end
      end
  end.

Definition routeSlotFilling (intent : string) : M bool :=
  let slots := getMandatorySlots env intent in
  if (0 <? length slots)%nat then
    s <- get ;;
    let nlu := nluResultObj s in
    setContext
      (ContextObj.mk (brainLang s) slots false (utterance nlu) (configDataFilePath nlu)
         (action (classification nlu)) (domain (classification nlu)) intent
         (entities nlu)) ;;
    s <- get ;;
    match getNotFilledSlot (conv s) with
    | Some notFilledSlot =>
        path <- require (configDataFilePath (nluResultObj s))
                  (TypeError "The 'path' argument must be of type string") ;;
        config <- liftE (readJson env path) ;;
        actions <- liftE (get_prop config "actions") ;;
        act <- liftE (get_prop actions (tpl (action (classification (nluResultObj s))))) ;;
        slotsCfg <- liftE (get_prop act "slots") ;;
        matching <-
          match slotsCfg with
          | JArr items => liftE (filterByName items (Slot.name notFilledSlot))
          | JUndefined | JNull =>
              throw (TypeError "Cannot read properties of undefined (reading 'filter')")
          | _ => throw (TypeError "slots.filter is not a function")
          end ;;
        suggestions <- liftE (get_prop (hd JUndefined matching) "suggestions") ;;
        emit "suggest" suggestions ;;
        talk (Text (Slot.pickedQuestion notFilledSlot)) false ;;
        emit "is-typing" (JBool false) ;;
        ret true
    | None => ret false
    end
  else ret false.

(** The score threshold of the context-biased pick.  A score is a double;
    no double lies between the double nearest to 0.6 and 6/10, so comparing
    with 6/10 decides the same scores. *)
Definition threshold : Q := 6 # 10.

(** Lines 516-527: one round of [classifications.forEach]. *)
Definition repick (contextName : option string) (locale : string)
  (acc : Q * string * string) (c : string * Q) : Q * string * string :=
  let '(newIntent, newScore) := c in
  if negb (Qle_bool newScore threshold) then
    let skillName := hd "" (split "." newIntent) in
    let newDomain := getIntentDomain env locale newIntent in
    match contextName with
    | Some n => if n =? newDomain ++ "." ++ skillName
                then (newScore, newIntent, newDomain) else acc
    | None => acc
    end
  else acc.

(** Lines 505-528: the main classifier's answer and the classification that
    is chosen from it: [(score, intent, domain)]. *)
Definition chooseClassification (c : ActiveContext.t) (result : NlpResult.t)
  : Q * string * string :=
  let top := (NlpResult.score result, NlpResult.intent result, NlpResult.domain result) in
  if hasActiveContext c then
    fold_left (repick (ActiveContext.name c) (NlpResult.locale result))
              (NlpResult.classifications result) top
  else top.

(** Lines 505-541.  Returns [(locale, intent, skillName)]. *)
Definition classify (utterance : option string) : M (string * string * string) :=
  let result := mainNlpProcess env utterance in
  s <- get ;;
  let '(score, intent, dom) := chooseClassification (conv s) result in
  let skillName := hd "" (split "." intent) in
  let actionName := nth_error (split "." intent) 1 in
  modify (set_nluResultObj
            {| utterance := utterance;
               currentEntities := [];
               entities := [];
               currentResolvers := [];
               resolvers := [];
               slots := None;
               configDataFilePath := None;
               answers := NlpResult.answers result;
               classification :=
                 {| domain := Some dom; skill := Some skillName;
                    action := actionName; confidence := Some score |} |}) ;;
  ret (NlpResult.locale result, intent, skillName).

(** [e.code] of a caught NER error. *)
Definition code (e : exn) : option string :=
  match e with NerError _ c _ => Some c | _ => None end.

(** Lines 637-656: activate the context of the chosen classification and
    copy its entities into the NLU result. *)
Definition activate (intent skillName : string) : M unit :=
  s <- get ;;
  let newContextName := tpl (domain (classification (nluResultObj s))) ++ "." ++ skillName in
  when (negb match ActiveContext.name (conv s) with
             | Some n => n =? newContextName
             | None => false
             end)
       cleanContext ;;
  setContext
    (ContextObj.mk (brainLang s) [] false (utterance (nluResultObj s))
       (configDataFilePath (nluResultObj s)) (action (classification (nluResultObj s)))
       (domain (classification (nluResultObj s))) intent (entities (nluResultObj s))) ;;
  modify (fun s => set_nluResultObj
                     (with_currentEntities (ActiveContext.currentEntities (conv s))
                        (nluResultObj s)) s) ;;
  modify (fun s => set_nluResultObj
                     (with_entities (ActiveContext.entities (conv s)) (nluResultObj s)) s).

(** Lines 658-694: execute, queue the next action, time the call. *)
Definition executeAndRotate (processingTimeStart : Z) : M settle :=
  try_catch
    (s <- get ;;
     processedData <- execute (nluResultObj s) ;;
     match Processed.nextAction processedData with
     | Some l =>
         cleanContext ;;
         s <- get ;;
         a <- require (Processed.action processedData)
                (TypeError "Cannot read properties of undefined (reading 'next_action')") ;;
         c <- require (Processed.classification processedData)
                (TypeError "Cannot read properties of undefined (reading 'domain')") ;;
         setContext
           (ContextObj.mk (brainLang s) [] l (Processed.utterance processedData)
              (Processed.configDataFilePath processedData) (Processed.next_action a)
              (domain c) (tpl (skill c) ++ "." ++ tpl (Processed.next_action a)) [])
     | None => ret tt
     end ;;
     processingTimeEnd <- now ;;
     let processingTime := (processingTimeEnd - processingTimeStart)%Z in
     resolve (OTimed processingTime processedData
                (option_map (fun t => (processingTime - t)%Z)
                            (Processed.executionTime processedData))))
    (fun e =>
       s <- get ;;
       when (negb (brainIsMuted s)) (emit "is-typing" (JBool false)) ;;
       reject (ErrorObj (message e))).

(** Lines 637-694. *)
Definition normalPath (intent skillName : string) (processingTimeStart : Z)
  : M settle :=
  activate intent skillName ;;
  executeAndRotate processingTimeStart.

(** Lines 611-613: [if (LogHelper[e.type]) LogHelper[e.type](e.obj.message)]
    on the caught [e]. *)
Definition logCaught (e : exn) : M unit :=
  match logHelper env (typeKey e) with
  | Some call =>
      m <- liftE (objMessage e) ;;
      match call m with
      | Some thrown => throw thrown
      | None => ret tt
      end
  | None => ret tt
  end.

(** Lines 595-618: the skill's config path and the entities; a failure of
    the NER gateway is logged and spoken, not propagated. *)
Definition locateAndExtract : M unit :=
  s <- get ;;
  d <- require (domain (classification (nluResultObj s)))
         (TypeError "The 'path' argument must be of type string") ;;
  k <- require (skill (classification (nluResultObj s)))
         (TypeError "The 'path' argument must be of type string") ;;
  let configDataFilePath :=
    join [cwd env; "skills"; d; k; "config/" ++ brainLang s ++ ".json"] in
  modify (fun s => set_nluResultObj
                     (with_configDataFilePath (Some configDataFilePath) (nluResultObj s)) s) ;;
  try_catch
    (es <- nerExtractEntities configDataFilePath ;;
     modify (fun s => set_nluResultObj (with_entities es (nluResultObj s)) s))
    (fun e =>
       logCaught e ;;
       s <- get ;;
       when (negb (brainIsMuted s)) (talk (Wernicke (tpl (code e)) "!") false)).

(** Lines 590-635: config path, entities, slot routing. *)
Definition afterIntent (process : option string -> M Output)
  (utterance : option string) (intent skillName : string) (processingTimeStart : Z)
  : M settle :=
  locateAndExtract ;;
  shouldSlotLoop <- routeSlotFilling intent ;;
  if shouldSlotLoop : bool then resolve (OData Processed.empty)
  else
    s <- get ;;
    if hasActiveContext (conv s) && (0 <? length (ActiveContext.slots (conv s)))%nat then
      try_catch (o <- handleSlotFilling process utterance ;; resolve o)
                (fun _ => reject RejectEmptyObj)
    else normalPath intent skillName processingTimeStart.

(** Lines 543-588: language gate and the 'None' intent. *)
Definition dispatchIntent (process : option string -> M Output)
  (utterance : option string) (locale intent skillName : string)
  (processingTimeStart : Z) : M settle :=
  if negb (arr_includes (getShortCodes env) locale) then
    talk (Wernicke "random_language_not_supported" ".") true ;;
    emit "is-typing" (JBool false) ;;
    resolve (OData Processed.empty)
  else
    s <- get ;;
    if negb (brainLang s =? locale) then
      o <- switchLanguage utterance locale ;;
      resolve o
    else if intent =? "None" then
      fallbacks <- require (langsFallbacks env (getLongCode env locale))
                     (TypeError "Cannot read properties of undefined (reading 'fallbacks')") ;;
      fb <- fallback fallbacks ;;
      match fb with
      | None =>
          s <- get ;;
          when (negb (brainIsMuted s))
               (talk (Wernicke "random_unknown_intents" ".") true ;;
                emit "is-typing" (JBool false)) ;;
          processingTimeEnd <- now ;;
          resolve (ONotFound (processingTimeEnd - processingTimeStart)%Z "Intent not found")
      | Some r =>
          modify (set_nluResultObj r) ;;
          afterIntent process utterance intent skillName processingTimeStart
      end
    else afterIntent process utterance intent skillName processingTimeStart.

Definition modelMissing : string :=
  "The NLP model is missing, please rebuild the project or if you are in dev run: npm run train".

(** The body of [process], with the recursive calls left open. *)
Definition process_body (process : option string -> M Output)
  (utterance : option string) : M Output :=
  processingTimeStart <- now ;;
  promise
    (s <- get ;;
     if negb (hasNlpModels s) then
       when (negb (brainIsMuted s))
            (talk (Wernicke "random_errors" "!") false ;;
             emit "is-typing" (JBool false)) ;;
       reject (RejectMsg modelMissing)
     else
       mergeSpacyEntities utterance ;;
       s <- get ;;
       if hasActiveContext (conv s) && ActiveContext.isInActionLoop (conv s) then
         o <- handleActionLoop process utterance ;;
         resolve o
       else if hasActiveContext (conv s) &&
               (0 <? length (ActiveContext.slots (conv s)))%nat then
         try_catch (o <- handleSlotFilling process utterance ;; resolve o)
                   (fun _ => reject RejectEmptyObj)
       else
         '(locale, intent, skillName) <- classify utterance ;;
         dispatchIntent process utterance locale intent skillName processingTimeStart).

(** [process]: the methods call one another; [fuel] bounds the depth of
    the re-entrant calls. *)
Fixpoint process (fuel : nat) (utterance : option string) : M Output :=
  match fuel with
  | O => fun s => (NoFuel, s)
  | S fuel' => process_body (process fuel') utterance
  end.

(** The handler [connectedHandler] that [switchLanguage] registers. *)
Definition connectedHandler (fuel : nat) (utterance : option string) : M Output :=
  process fuel utterance.

End NLU.

(** ** Vocabulary of the properties *)

(** A model counts as installed once its file exists and the container has
    handed out a classifier object with at least one own key. *)
Definition installed (env : Env) (nlpModel : string) : Prop :=
  existsSync env nlpModel = true /\
  exists nlp, containerBootstrap env nlpModel = inr nlp /\ nlp <> [].

(** [a] occurs in [t] before an occurrence of [b]. *)
Definition precedes (a b : event) (t : list event) : Prop :=
  exists l1 l2 l3, t = (l1 ++ a :: l2 ++ b :: l3)%list.

Definition announcement : event := Talk (Wernicke "random_language_switch" ".") true.

(** The call [process(utterance)] from state [s] gets as far as line 541:
    the models are there, the spaCy merge succeeds, the active context (if
    any) neither loops nor waits for slots, and the classification stage
    leaves [(locale, intent, skillName)] and the state [s1]. *)
Definition classified (env : Env) (utterance : option string) (s : State)
  (locale intent skillName : string) (s1 : State) : Prop :=
  hasNlpModels s = true /\
  exists s0,
    mergeSpacyEntities env utterance (set_clock (S (clock s)) s) = (Val tt, s0) /\
    Conversation.hasActiveContext (conv s0) && ActiveContext.isInActionLoop (conv s0)
      = false /\
    Conversation.hasActiveContext (conv s0) &&
      (0 <? length (ActiveContext.slots (conv s0)))%nat = false /\
    classify env utterance s0 = (Val (locale, intent, skillName), s1).

(** Only the trace differs. *)
Definition same_fields (s s' : State) : Prop :=
  globalResolversNlp s' = globalResolversNlp s /\
  skillsResolversNlp s' = skillsResolversNlp s /\
  mainNlp s' = mainNlp s /\
  nerReady s' = nerReady s /\
  conv s' = conv s /\
  nluResultObj s' = nluResultObj s /\
  brainLang s' = brainLang s /\
  brainIsMuted s' = brainIsMuted s /\
  tcpServerProcess s' = tcpServerProcess s /\
  clock s' = clock s.

(** [k] contains no dot. *)
Definition no_dot (k : string) : Prop := forall a b, k <> a ++ "." ++ b.

(** The classification [c] scores above the threshold and its
    "{domain}.{skill}" is [contextName]. *)
Definition matchesContext (env : Env) (contextName locale : string) (c : string * Q)
  : Prop :=
  (threshold < snd c)%Q /\
  getIntentDomain env locale (fst c) ++ "." ++ hd "" (split "." (fst c)) = contextName.

Definition unknownIntentEvents (muted : bool) : list event :=
  if muted then []
  else [Talk (Wernicke "random_unknown_intents" ".") true; Emit "is-typing" (JBool false)].

(** Lines 560-588 let the call through: either the intent is not 'None',
    or the fallback matcher found a row. *)
Definition intentResolved (env : Env) (locale intent : string) (s1 s1' : State)
  : Prop :=
  (intent <> "None" /\ s1' = s1) \/
  (intent = "None" /\
   exists fallbacks r,
     langsFallbacks env (getLongCode env locale) = Some fallbacks /\
     fallback env fallbacks s1 = (Val (Some r), s1')).

(** The call [process(u)] from [s] reaches line 637: the classifier ran,
    the language is supported and current, the intent is resolved, the
    entities were looked for (state [sNer]), no slot question was asked and
    the context waits for no slot (state [s2]). *)
Definition reachesNormalPath (env : Env) (u : option string) (s : State)
  (intent skillName : string) (sNer s2 : State) : Prop :=
  exists locale s1 sInt,
    classified env u s locale intent skillName s1 /\
    arr_includes (getShortCodes env) locale = true /\
    brainLang s = locale /\
    intentResolved env locale intent s1 sInt /\
    locateAndExtract env sInt = (Val tt, sNer) /\
    routeSlotFilling env intent sNer = (Val false, s2) /\
    Conversation.hasActiveContext (conv s2) &&
      (0 <? length (ActiveContext.slots (conv s2)))%nat = false.

(** The active context at line 752, once the entities [es] of the answer
    had their chance to fill slots (lines 733-750). *)
Definition contextAtCheck (es : list Entity.t) (s : State) : ActiveContext.t :=
  match Conversation.getNotFilledSlot (conv s) with
  | Some notFilledSlot =>
      if (0 <? length es)%nat &&
         existsb (fun e => Entity.entity e =? Slot.expectedEntity notFilledSlot) es
      then Conversation.setSlots (brainLang s) es (conv s)
      else conv s
  | None => conv s
  end.

Definition outOfTopic : event := Talk (Wernicke "random_context_out_of_topic" ".") false.

(** The config declares [actions[actionKey].loop.expected_item] as an
    object whose [type] is the string [type]. *)
Definition declaresItemOfType (config : jsval) (actionKey type : string) : Prop :=
  exists cprops aprops actprops lprops iprops,
    config = JObj cprops /\
    lookup "actions" cprops = JObj aprops /\
    lookup actionKey aprops = JObj actprops /\
    lookup "loop" actprops = JObj lprops /\
    lookup "expected_item" lprops = JObj iprops /\
    lookup "type" iprops = JStr type.

(** The config declares [actions[actionKey].loop.expected_item] as an
    object whose [type] is a string. *)
Definition declaresExpectedItem (config : jsval) (actionKey : string) : Prop :=
  exists type, declaresItemOfType config actionKey type.

(** [nlpObjs[key].process] is a function (lines 336-340): [key] names one
    of the two resolver classifiers, and its object has been loaded. *)
Definition hasClassifier (s : State) (key : string) : bool :=
  if key =? "global_resolver" then (0 <? length (globalResolversNlp s))%nat
  else if key =? "skill_resolver" then (0 <? length (skillsResolversNlp s))%nat
  else false.

(** Lines 294-340 of [handleActionLoop]: everything before the entity or
    resolver matching, up to the dispatch on the type of the expected item
    and, for a resolver, the call of its classifier. *)
Definition beforeMatching (env : Env) (u : option string) : M itemKind :=
  ' (skillName, path) <- enterActionLoop env u ;;
  ' (rs, name, type) <- readExpectedItem env path ;;
  kind <- liftE (expectedItemKind type) ;;
  match kind with
  | IsResolver key => resolverProcess env key u ;; ret kind
  | _ => ret kind
  end.

(** ** Concrete scenarios *)

Module Scenario.

(** The state in which [utterance] has just been stored in the NLU result. *)
Definition heard (utterance : string) (s : State) : State :=
  set_nluResultObj
    {| utterance := Some utterance;
       currentEntities := [];
       entities := [];
       currentResolvers := [];
       resolvers := [];
       slots := None;
       configDataFilePath := None;
       answers := [];
       classification := classification defaultNluResultObj |} s.

Definition start : State := initialState "en" false 42%Z.

Definition twoFallbacks : list Fallback.t :=
  [ Fallback.mk ["hello"; "leon"] "greetings" "hello" "run";
    Fallback.mk ["hello"] "greetings" "hello" "wave" ].

(** A skill config with one looping action that expects an entity. *)
Definition guessConfig : jsval :=
  JObj [ ("actions",
          JObj [ ("run", JObj []);
                 ("guess",
                  JObj [ ("loop",
                          JObj [ ("expected_item",
                                  JObj [ ("name", JStr "number");
                                         ("type", JStr "entity") ]) ]) ]) ]);
         ("resolvers", JObj []) ].

(** The log helper has these channels, and logging returns. *)
Definition logs : string -> option (option string -> option exn) :=
  fun name =>
    if arr_includes ["title"; "default"; "info"; "success"; "warning"; "error"] name
    then Some (fun _ => None) else None.

(** An installation with English and French, one fallback row, every model
    file on disk, and the given collaborators. *)
Definition make
  (load : string -> option exn)
  (ner : string -> string -> NLUResult -> exn + list Entity.t)
  (classifier : option string -> NlpResult.t)
  (domainOf : string -> string -> string)
  (brain : NLUResult -> exn + Processed.t) : Env :=
  {| cwd := "/leon";
     unicodeLower := fun s => s;
     TCP_SERVER_BIN_PATH := "/leon/bin/tcp_server";
     existsSync := fun _ => true;
     containerBootstrap := fun _ => inr ["settings"; "container"];
     nlpLoad := load;
     getSpacyEntities := fun _ => inr [];
     extractEntities := ner;
     mainNlpProcess := classifier;
     getIntentDomain := domainOf;
     getMandatorySlots := fun _ => [];
     globalResolversProcess := fun _ => None;
     skillsResolversProcess := fun _ => None;
     readJson := fun _ => inr guessConfig;
     getShortCodes := ["en"; "fr"];
     getLongCode := fun l => if l =? "en" then "en-US" else "fr-FR";
     langsFallbacks :=
       fun _ => Some [Fallback.mk ["hello"; "leon"] "greetings" "hello" "run"];
     brainExecute := brain;
     logHelper := logs;
     dateNow := fun n => (100 + 10 * Z.of_nat n)%Z;
     spawnPid := fun _ => 43%Z;
     nextActionOf := fun _ _ => None |}.

Definition loads : string -> option exn := fun _ => None.

Definition findsPerson : string -> string -> NLUResult -> exn + list Entity.t :=
  fun _ _ _ => inr [Entity.mk "person" "leon"].

Definition findsNoIntent : option string -> NlpResult.t :=
  fun _ => NlpResult.mk "en" [] [("None", 1%Q)] 1%Q "None" "default".

(** The Brain runs the action in 5 ms and queues nothing. *)
Definition runs : NLUResult -> exn + Processed.t :=
  fun r => inr (Processed.mk (Some 5%Z) (utterance r) (configDataFilePath r)
                  (Some (classification r))
                  (Some (Processed.mkAction None false)) None None None).

(** Every model loads; the classifier finds no intent; the NER gateway finds
    a person; the Brain runs. *)
Definition env : Env := make loads findsPerson findsNoIntent (fun _ _ => "default") runs.

(** The main model file is on disk but does not parse. *)
Definition corruptMainModel : Env :=
  make (fun p => if p =? mainModelPath env then Some (SystemError "Unexpected token")
                 else None)
       findsPerson findsNoIntent (fun _ _ => "default") runs.

(** The skill crashes. *)
Definition crashingSkill : Env :=
  make loads findsPerson findsNoIntent (fun _ _ => "default")
       (fun _ => inl (Thrown (Some "skill crashed"))).

(** The NER gateway fails. *)
Definition failingNer : Env :=
  make loads (fun _ _ _ => inl (NerError "error" "random_ner_type_not_supported" (Some (Some "entity type not supported"))))
       findsNoIntent (fun _ _ => "default") runs.

(** Two skills understand "delete it"; the to-do list scores higher. *)
Definition twoLists : Env :=
  make loads findsPerson
       (fun _ => NlpResult.mk "en" []
                   [("todo.delete", (72 # 100)%Q); ("list.delete", (68 # 100)%Q)]
                   (72 # 100)%Q "todo.delete" "productivity")
       (fun _ intent => if intent =? "list.delete" then "shopping" else "productivity")
       runs.

(** The state once the three models of [env] are loaded. *)
Definition loaded : State := snd (loadNLPModels env start).

(** The same, with a muted Brain. *)
Definition loadedMuted : State :=
  snd (loadNLPModels env (initialState "en" true 42%Z)).

(** "Create my shopping list" was the previous turn. *)
Definition shoppingContext : ActiveContext.t :=
  ActiveContext.mk (Some "shopping.list") (Some "en") (Some "shopping")
    (Some "list.create") (Some "create") (Some "Create my shopping list")
    (Some "/leon/skills/shopping/list/config/en.json") [] false None [] [].

(** The guessing game is waiting for a number. *)
Definition guessContext : ActiveContext.t :=
  ActiveContext.mk (Some "games.number") (Some "en") (Some "games")
    (Some "number.guess") (Some "guess") (Some "Let's play")
    (Some "/leon/skills/games/number/config/en.json") [] true None [] [].

Definition milk : Slot.t :=
  Slot.mk "item" "product" "What should I add?" true (Some (Entity.mk "product" "milk")).

(** The only slot of "add to my shopping list" is filled; [next] is the
    context's next action. *)
Definition addItemContext (next : option string) : ActiveContext.t :=
  ActiveContext.mk (Some "shopping.list") (Some "en") (Some "shopping")
    (Some "list.add") (Some "add") (Some "add to my shopping list")
    (Some "/leon/skills/shopping/list/config/en.json") [milk] false next [] [].

(** The stages of [process (Some "Hello Leon")] from [loaded], up to the
    activation of the context. *)
Definition helloClassified : State :=
  snd (classify env (Some "Hello Leon") (set_clock 1 loaded)).
Definition helloMatched : State :=
  snd (fallback env [Fallback.mk ["hello"; "leon"] "greetings" "hello" "run"] helloClassified).
Definition helloExtracted : State := snd (locateAndExtract env helloMatched).
Definition helloRouted : State := snd (routeSlotFilling env "None" helloExtracted).
Definition helloActivated : State := snd (activate env "None" "None" helloRouted).

End Scenario.

(** ** Further vocabulary *)

(** The tokens [fallback] compares the rows with (line 829). *)
Definition tokens (env : Env) (u : string) : list string :=
  split " " (toLowerCase (unicodeLower env) u).

Definition is_upper (c : ascii) : bool :=
  let n := nat_of_ascii c in (65 <=? n)%nat && (n <=? 90)%nat.

(** Some character of [s] is an ASCII capital. *)
Fixpoint has_upper (s : string) : bool :=
  match s with
  | EmptyString => false
  | String c s' => is_upper c || has_upper s'
  end.

(** No word of the row is a token. *)
Definition untouched (words : list string) (fb : Fallback.t) : Prop :=
  Fallback.words fb <> [] /\
  forall w, In w (Fallback.words fb) -> arr_includes words w = false.

(** What [fallback] stores and returns when the row [fb] matches. *)
Definition fallbackResult (fb : Fallback.t) (r : NLUResult) : NLUResult :=
  with_classification
    {| domain := Some (Fallback.domain fb); skill := Some (Fallback.skill fb);
       action := Some (Fallback.action fb); confidence := Some 1%Q |}
    (with_entities [] r).

(** The callback of [slots.filter] at line 811, on one element. *)
Definition namedLike (wanted : string) (x : jsval) : bool :=
  match get_prop x "name" with
  | inr v => is_str v wanted
  | inl _ => false
  end.

Definition nullish (x : jsval) : bool :=
  match x with JUndefined | JNull => true | _ => false end.


(** The model at [nlpModel] is on disk but cannot be brought up: the
    container fails, or the classifier fails to load the file, with [e]. *)
Definition loadFails (env : Env) (nlpModel : string) (e : exn) : Prop :=
  containerBootstrap env nlpModel = inl e \/
  ((exists nlp, containerBootstrap env nlpModel = inr nlp) /\ nlpLoad env nlpModel = Some e).

(** What a loader says when the load fails with [e]. *)
Definition loadErrorEvents (e : exn) : list event :=
  [Talk (LoadErrorPhrase (message e)) false; Emit "is-typing" (JBool false)].

(** What [process] says when the models are missing. *)
Definition modelsMissingEvents (muted : bool) : list event :=
  if muted then []
  else [Talk (Wernicke "random_errors" "!") false; Emit "is-typing" (JBool false)].

Definition unsupportedLanguageEvents : list event :=
  [Talk (Wernicke "random_language_not_supported" ".") true;
   Emit "is-typing" (JBool false)].

(** The config path that [process] builds at line 595. *)
Definition configPathOf (env : Env) (s : State) (d k : string) : string :=
  join [cwd env; "skills"; d; k; "config/" ++ brainLang s ++ ".json"].

(** What the [catch] of line 685 emits. *)
Definition executorErrorEvents (muted : bool) : list event :=
  if muted then [] else [Emit "is-typing" (JBool false)].

(** The log line of the NER catch (lines 611-613) runs through for [e]: the
    log helper has no member named like [e.type], or [e] carries an [obj]
    and the logging returns. *)
Definition logsQuietly (env : Env) (e : exn) : Prop :=
  logHelper env (typeKey e) = None \/
  exists call m,
    logHelper env (typeKey e) = Some call /\ objMessage e = inr m /\ call m = None.

(** What the [catch] of line 610 says for the error [e]. *)
Definition nerErrorEvents (muted : bool) (e : exn) : list event :=
  if muted then [] else [Talk (Wernicke (tpl (code e)) "!") false].

(** Line 735: an extracted entity fills the pending slot. *)
Definition fillsSlot (es : list Entity.t) (slot : Slot.t) : bool :=
  (0 <? length es)%nat &&
  existsb (fun e => Entity.entity e =? Slot.expectedEntity slot) es.

(** The context object that [routeSlotFilling] hands to the store. *)
Definition routedContext (env : Env) (intent : string) (s : State) : ContextObj.t :=
  ContextObj.mk (brainLang s) (getMandatorySlots env intent) false
    (utterance (nluResultObj s)) (configDataFilePath (nluResultObj s))
    (action (classification (nluResultObj s)))
    (domain (classification (nluResultObj s))) intent (entities (nluResultObj s)).

(** Lines 303-319: the NLU result that [handleActionLoop] rebuilds from the
    active context and the extracted entities [es]. *)
Definition loopResult (env : Env) (u : option string) (s : State)
  (d intent : string) (es : list Entity.t) : NLUResult :=
  {| utterance := u;
     currentEntities := [];
     entities := es;
     currentResolvers := [];
     resolvers := [];
     slots := Some (ActiveContext.slots (conv s));
     configDataFilePath := Some (configPathOf env s d (hd "" (split "." intent)));
     answers := [];
     classification :=
       {| domain := ActiveContext.domain (conv s);
          skill := Some (hd "" (split "." intent));
          action := nth_error (split "." intent) 1;
          confidence := Some 1%Q |} |}.

(** Line 393: [processedData.core?.restart === true]. *)
Definition asksRestart (pd : Processed.t) : bool :=
  match Processed.core pd with
  | Some c => match Processed.restart c with Some true => true | _ => false end
  | None => false
  end.

(** Lines 407 and 414: [processedData.core?.isInActionLoop === false]. *)
Definition stopsLoop (pd : Processed.t) : bool :=
  match Processed.core pd with
  | Some c => match Processed.isInActionLoop c with Some false => true | _ => false end
  | None => false
  end.

(** ** Further scenarios *)

Module Cases.

Definition helloRow : Fallback.t := Fallback.mk ["hello"; "leon"] "greetings" "hello" "run".
Definition waveRow : Fallback.t := Fallback.mk ["hello"] "greetings" "hello" "wave".

(** Two actions of the shopping list understand "remove it"; the first
    scores higher. *)
Definition twoMatches : Env :=
  Scenario.make Scenario.loads Scenario.findsPerson
    (fun _ => NlpResult.mk "en" []
                [("list.delete", (9 # 10)%Q); ("list.remove", (7 # 10)%Q)]
                (9 # 10)%Q "list.delete" "shopping")
    (fun _ _ => "shopping")
    Scenario.runs.

(** The shopping list scores exactly 0.6; the to-do list is on top. *)
Definition borderline : NlpResult.t :=
  NlpResult.mk "en" [] [("todo.delete", (6 # 10)%Q); ("list.delete", (6 # 10)%Q)]
    (6 # 10)%Q "todo.delete" "productivity".

(** The NER gateway finds the number 7. *)
Definition findsNumber : Env :=
  Scenario.make Scenario.loads (fun _ _ _ => inr [Entity.mk "number" "7"])
    Scenario.findsNoIntent (fun _ _ => "default") Scenario.runs.

(** The guessing game has rebuilt its NLU result for the answer "7". *)
Definition guessing : State :=
  snd (enterActionLoop findsNumber (Some "7")
         (set_conv Scenario.guessContext Scenario.loaded)).

(** As [Scenario.env], on a disk without model files. *)
Definition emptyDisk : Env :=
  {| cwd := cwd Scenario.env;
     unicodeLower := unicodeLower Scenario.env;
     TCP_SERVER_BIN_PATH := TCP_SERVER_BIN_PATH Scenario.env;
     existsSync := fun _ => false;
     containerBootstrap := containerBootstrap Scenario.env;
     nlpLoad := nlpLoad Scenario.env;
     getSpacyEntities := getSpacyEntities Scenario.env;
     extractEntities := extractEntities Scenario.env;
     mainNlpProcess := mainNlpProcess Scenario.env;
     getIntentDomain := getIntentDomain Scenario.env;
     getMandatorySlots := getMandatorySlots Scenario.env;
     globalResolversProcess := globalResolversProcess Scenario.env;
     skillsResolversProcess := skillsResolversProcess Scenario.env;
     readJson := readJson Scenario.env;
     getShortCodes := getShortCodes Scenario.env;
     getLongCode := getLongCode Scenario.env;
     langsFallbacks := langsFallbacks Scenario.env;
     brainExecute := brainExecute Scenario.env;
     logHelper := logHelper Scenario.env;
     dateNow := dateNow Scenario.env;
     spawnPid := spawnPid Scenario.env;
     nextActionOf := nextActionOf Scenario.env |}.

(** The classifier hears German, which is not installed. *)
Definition german : Env :=
  Scenario.make Scenario.loads Scenario.findsPerson
    (fun _ => NlpResult.mk "de" [] [("None", 1%Q)] 1%Q "None" "default")
    (fun _ _ => "default") Scenario.runs.

(** The classifier hears French. *)
Definition french : Env :=
  Scenario.make Scenario.loads Scenario.findsPerson
    (fun _ => NlpResult.mk "fr" [] [("None", 1%Q)] 1%Q "None" "default")
    (fun _ _ => "default") Scenario.runs.

(** As [Scenario.env], but [langs.json] has no entry for the language. *)
Definition noTable : Env :=
  {| cwd := cwd Scenario.env;
     unicodeLower := unicodeLower Scenario.env;
     TCP_SERVER_BIN_PATH := TCP_SERVER_BIN_PATH Scenario.env;
     existsSync := existsSync Scenario.env;
     containerBootstrap := containerBootstrap Scenario.env;
     nlpLoad := nlpLoad Scenario.env;
     getSpacyEntities := getSpacyEntities Scenario.env;
     extractEntities := extractEntities Scenario.env;
     mainNlpProcess := mainNlpProcess Scenario.env;
     getIntentDomain := getIntentDomain Scenario.env;
     getMandatorySlots := getMandatorySlots Scenario.env;
     globalResolversProcess := globalResolversProcess Scenario.env;
     skillsResolversProcess := skillsResolversProcess Scenario.env;
     readJson := readJson Scenario.env;
     getShortCodes := getShortCodes Scenario.env;
     getLongCode := getLongCode Scenario.env;
     langsFallbacks := fun _ => None;
     brainExecute := brainExecute Scenario.env;
     logHelper := logHelper Scenario.env;
     dateNow := dateNow Scenario.env;
     spawnPid := spawnPid Scenario.env;
     nextActionOf := nextActionOf Scenario.env |}.

(** The Brain queues a next action but reports no action. *)
Definition queuesWithoutAction : Env :=
  Scenario.make Scenario.loads Scenario.findsPerson Scenario.findsNoIntent
    (fun _ _ => "default")
    (fun r => inr (Processed.mk (Some 5%Z) (utterance r) (configDataFilePath r)
                     (Some (classification r)) None (Some false) None None)).

(** The state in which the classifier of [env] has answered [u]. *)
Definition answered (env : Env) (u : option string) (s : State) : State :=
  snd (classify env u (set_clock (S (clock s)) s)).

(** The later stages of [process env u] from [s] when the intent is 'None'
    and the row [helloRow] is the fallback table. *)
Definition extracted (env : Env) (u : option string) (s : State) : State :=
  snd (locateAndExtract env (snd (fallback env [helloRow] (answered env u s)))).
Definition routed (env : Env) (u : option string) (s : State) : State :=
  snd (routeSlotFilling env "None" (extracted env u s)).
Definition activated (env : Env) (u : option string) (s : State) : State :=
  snd (activate env "None" "None" (routed env u s)).

Definition item : Slot.t := Slot.mk "item" "product" "What should I add?" false None.
Definition quantity : Slot.t := Slot.mk "quantity" "number" "How many?" false None.

(** "add to my shopping list" waits for the given slots. *)
Definition asking (slots : list Slot.t) (next : option string) : ActiveContext.t :=
  ActiveContext.mk (Some "shopping.list") (Some "en") (Some "shopping")
    (Some "list.add") (Some "add") (Some "add to my shopping list")
    (Some "/leon/skills/shopping/list/config/en.json") slots false next [] [].

(** The NER gateway finds the product milk. *)
Definition findsProduct : Env :=
  Scenario.make Scenario.loads (fun _ _ _ => inr [Entity.mk "product" "milk"])
    Scenario.findsNoIntent (fun _ _ => "default") Scenario.runs.

Definition listConfig : jsval :=
  JObj [ ("actions",
          JObj [ ("add",
                  JObj [ ("slots",
                          JArr [ JObj [ ("name", JStr "item");
                                        ("suggestions",
                                         JArr [JStr "milk"; JStr "eggs"]) ] ]) ]) ]) ].

(** "add to my shopping list": the action has the mandatory slot [item]. *)
Definition shopping : Env :=
  {| cwd := cwd Scenario.env;
     unicodeLower := unicodeLower Scenario.env;
     TCP_SERVER_BIN_PATH := TCP_SERVER_BIN_PATH Scenario.env;
     existsSync := existsSync Scenario.env;
     containerBootstrap := containerBootstrap Scenario.env;
     nlpLoad := nlpLoad Scenario.env;
     getSpacyEntities := getSpacyEntities Scenario.env;
     extractEntities := fun _ _ _ => inr [];
     mainNlpProcess :=
       fun _ => NlpResult.mk "en" [] [("list.add", 1%Q)] 1%Q "list.add" "shopping";
     getIntentDomain := fun _ _ => "shopping";
     getMandatorySlots := fun _ => [item];
     globalResolversProcess := globalResolversProcess Scenario.env;
     skillsResolversProcess := skillsResolversProcess Scenario.env;
     readJson := fun _ => inr listConfig;
     getShortCodes := getShortCodes Scenario.env;
     getLongCode := getLongCode Scenario.env;
     langsFallbacks := langsFallbacks Scenario.env;
     brainExecute := brainExecute Scenario.env;
     logHelper := logHelper Scenario.env;
     dateNow := dateNow Scenario.env;
     spawnPid := spawnPid Scenario.env;
     nextActionOf := fun _ _ => Some "add" |}.

(** The state of [process shopping "add to my shopping list"] at line 620. *)
Definition beforeRouting : State :=
  snd (locateAndExtract shopping
         (answered shopping (Some "add to my shopping list") Scenario.loaded)).

(** A skill config whose looping action expects an item of a resolver type
    that names none of the two resolver classifiers. *)
Definition customConfig : jsval :=
  JObj [ ("actions",
          JObj [ ("guess",
                  JObj [ ("loop",
                          JObj [ ("expected_item",
                                  JObj [ ("name", JStr "number");
                                         ("type", JStr "custom_resolver") ]) ]) ]) ]);
         ("resolvers", JObj []) ].

(** As [Scenario.env], with that config on disk. *)
Definition customResolver : Env :=
  {| cwd := cwd Scenario.env;
     unicodeLower := unicodeLower Scenario.env;
     TCP_SERVER_BIN_PATH := TCP_SERVER_BIN_PATH Scenario.env;
     existsSync := existsSync Scenario.env;
     containerBootstrap := containerBootstrap Scenario.env;
     nlpLoad := nlpLoad Scenario.env;
     getSpacyEntities := getSpacyEntities Scenario.env;
     extractEntities := extractEntities Scenario.env;
     mainNlpProcess := mainNlpProcess Scenario.env;
     getIntentDomain := getIntentDomain Scenario.env;
     getMandatorySlots := getMandatorySlots Scenario.env;
     globalResolversProcess := globalResolversProcess Scenario.env;
     skillsResolversProcess := skillsResolversProcess Scenario.env;
     readJson := fun _ => inr customConfig;
     getShortCodes := getShortCodes Scenario.env;
     getLongCode := getLongCode Scenario.env;
     langsFallbacks := langsFallbacks Scenario.env;
     brainExecute := brainExecute Scenario.env;
     logHelper := logHelper Scenario.env;
     dateNow := dateNow Scenario.env;
     spawnPid := spawnPid Scenario.env;
     nextActionOf := nextActionOf Scenario.env |}.

(** The NER gateway fails with an error that names the log channel "error"
    and carries no [obj]. *)
Definition bareNerError : Env :=
  Scenario.make Scenario.loads
    (fun _ _ _ => inl (NerError "error" "random_ner_type_not_supported" None))
    Scenario.findsNoIntent (fun _ _ => "default") Scenario.runs.

(** The Unicode folding of the Latin-1 capitals (U+00C0 to U+00DE, without
    the multiplication sign U+00D7) on UTF-8: the byte after 0xC3 moves from
    0x80-0x9E to 0xA0-0xBE. *)
Fixpoint lowerLatin1 (afterC3 : bool) (s : string) : string :=
  match s with
  | EmptyString => EmptyString
  | String c s' =>
      let n := nat_of_ascii c in
      String (if afterC3 && (128 <=? n)%nat && (n <=? 158)%nat && negb (n =? 151)%nat
              then ascii_of_nat (n + 32) else c)
             (lowerLatin1 (n =? 195)%nat s')
  end.

(** As [Scenario.env], on a runtime that folds the Latin-1 capitals. *)
Definition accents : Env :=
  {| cwd := cwd Scenario.env;
     unicodeLower := lowerLatin1 false;
     TCP_SERVER_BIN_PATH := TCP_SERVER_BIN_PATH Scenario.env;
     existsSync := existsSync Scenario.env;
     containerBootstrap := containerBootstrap Scenario.env;
     nlpLoad := nlpLoad Scenario.env;
     getSpacyEntities := getSpacyEntities Scenario.env;
     extractEntities := extractEntities Scenario.env;
     mainNlpProcess := mainNlpProcess Scenario.env;
     getIntentDomain := getIntentDomain Scenario.env;
     getMandatorySlots := getMandatorySlots Scenario.env;
     globalResolversProcess := globalResolversProcess Scenario.env;
     skillsResolversProcess := skillsResolversProcess Scenario.env;
     readJson := readJson Scenario.env;
     getShortCodes := getShortCodes Scenario.env;
     getLongCode := getLongCode Scenario.env;
     langsFallbacks := langsFallbacks Scenario.env;
     brainExecute := brainExecute Scenario.env;
     logHelper := logHelper Scenario.env;
     dateNow := dateNow Scenario.env;
     spawnPid := spawnPid Scenario.env;
     nextActionOf := nextActionOf Scenario.env |}.

(** The French word for school as spoken, with a capital E with acute accent
    (the bytes 0xC3 0x89), and the fallback row for it in small letters
    (0xC3 0xA9). *)
Definition ecoleSpoken : string :=
  String (ascii_of_nat 195) (String (ascii_of_nat 137) "cole").

Definition ecoleRow : Fallback.t :=
  Fallback.mk [String (ascii_of_nat 195) (String (ascii_of_nat 169) "cole")]
    "education" "school" "run".

(** The Brain's reply to a turn of an action loop. *)
Definition replies (core : option Processed.core_t) (next : option string) (l : bool)
  : NLUResult -> exn + Processed.t :=
  fun r => inr (Processed.mk (Some 5%Z) (utterance r) (configDataFilePath r)
                  (Some (classification r))
                  (Some (Processed.mkAction next l)) None core None).

(** The skill ends the loop and may name a next action. *)
Definition stopping (next : option string) : Env :=
  Scenario.make Scenario.loads (fun _ _ _ => inr [Entity.mk "number" "7"])
    Scenario.findsNoIntent (fun _ _ => "default")
    (replies (Some (Processed.mkCore None (Some false))) next false).

(** The skill asks to start over. *)
Definition restarting : Env :=
  Scenario.make Scenario.loads (fun _ _ _ => inr [Entity.mk "number" "7"])
    Scenario.findsNoIntent (fun _ _ => "default")
    (replies (Some (Processed.mkCore (Some true) None)) None false).

(** The guessing game is waiting for a number, all models loaded. *)
Definition inLoop : State := set_conv Scenario.guessContext Scenario.loaded.

End Cases.

(** ** Properties *)

(** *** Readiness *)

Lemma nonempty_length {A} (l : list A) : (0 <? length l)%nat = true <-> l <> [].
Proof.
  destruct l; simpl; split; intros H; try congruence; try discriminate.
  reflexivity.
Qed.

Lemma loadGlobalResolversModel_fields env p s :
  let s' := snd (loadGlobalResolversModel env p s) in
  globalResolversNlp s' =
    (if existsSync env p
     then match containerBootstrap env p with
          | inr nlp => nlp
          | inl _ => globalResolversNlp s
          end
     else globalResolversNlp s) /\
  skillsResolversNlp s' = skillsResolversNlp s /\
  mainNlp s' = mainNlp s.
Proof.
  unfold loadGlobalResolversModel, installGlobalResolversNlp, awaitLoad, try_catch,
    bind, liftE, loadFailed, talk, emit, log, modify, throw, ret.
  destruct (existsSync env p); simpl; [|auto].
  destruct (containerBootstrap env p); simpl; [auto|].
  destruct (nlpLoad env p); simpl; auto.
Qed.

Lemma loadSkillsResolversModel_fields env p s :
  let s' := snd (loadSkillsResolversModel env p s) in
  skillsResolversNlp s' =
    (if existsSync env p
     then match containerBootstrap env p with
          | inr nlp => nlp
          | inl _ => skillsResolversNlp s
          end
     else skillsResolversNlp s) /\
  globalResolversNlp s' = globalResolversNlp s /\
  mainNlp s' = mainNlp s.
Proof.
  unfold loadSkillsResolversModel, installSkillsResolversNlp, awaitLoad, try_catch,
    bind, liftE, loadFailed, talk, emit, log, modify, throw, ret.
  destruct (existsSync env p); simpl; [|auto].
  destruct (containerBootstrap env p); simpl; [auto|].
  destruct (nlpLoad env p); simpl; auto.
Qed.

Lemma loadMainModel_fields env p s :
  let s' := snd (loadMainModel env p s) in
  mainNlp s' =
    (if existsSync env p
     then match containerBootstrap env p with
          | inr nlp => nlp
          | inl _ => mainNlp s
          end
     else mainNlp s) /\
  globalResolversNlp s' = globalResolversNlp s /\
  skillsResolversNlp s' = skillsResolversNlp s.
Proof.
  unfold loadMainModel, installMainNlp, awaitLoad, try_catch,
    bind, liftE, loadFailed, talk, emit, log, modify, throw, ret.
  destruct (existsSync env p); simpl; [|auto].
  destruct (containerBootstrap env p); simpl; [auto|].
  destruct (nlpLoad env p); simpl; auto.
Qed.

Lemma installed_field env p (old : list string) :
  old = [] ->
  (if existsSync env p
   then match containerBootstrap env p with inr nlp => nlp | inl _ => old end
   else old) <> [] <-> installed env p.
Proof.
  intros ->. unfold installed.
  destruct (existsSync env p); [|split; [congruence | intros [H _]; discriminate]].
  destruct (containerBootstrap env p) as [e|nlp].
  - split; [congruence|]. intros [_ [nlp [H _]]]. discriminate.
  - split.
    + intros H. split; [reflexivity|]. exists nlp. auto.
    + intros [_ [nlp' [H1 H2]]]. congruence.
Qed.

(** C4, as the code has it: starting from the constructor's empty fields,
    the readiness check is true after the three loaders have run exactly
    when each model file exists and its container handed out a non-empty
    classifier object.  The outcome of [load] plays no part: the field is
    assigned before the model file is read. *)
Theorem hasNlpModels_after_loadNLPModels env s :
  globalResolversNlp s = [] -> skillsResolversNlp s = [] -> mainNlp s = [] ->
  hasNlpModels (snd (loadNLPModels env s)) = true <->
  installed env (globalResolversModelPath env) /\
  installed env (skillsResolversModelPath env) /\
  installed env (mainModelPath env).
Proof.
  intros Hg Hs Hm. unfold loadNLPModels.
  pose proof (loadGlobalResolversModel_fields env (globalResolversModelPath env) s) as H1.
  destruct (loadGlobalResolversModel env (globalResolversModelPath env) s) as [r1 s1].
  pose proof (loadSkillsResolversModel_fields env (skillsResolversModelPath env) s1) as H2.
  destruct (loadSkillsResolversModel env (skillsResolversModelPath env) s1) as [r2 s2].
  pose proof (loadMainModel_fields env (mainModelPath env) s2) as H3.
  destruct (loadMainModel env (mainModelPath env) s2) as [r3 s3].
  simpl in *. destruct H1 as (G1 & S1 & M1), H2 as (S2 & G2 & M2), H3 as (M3 & G3 & S3).
  unfold hasNlpModels. rewrite !andb_true_iff, !nonempty_length.
  rewrite G3, G2, G1, S3, S2, S1, M3, M2, M1.
  rewrite !installed_field by assumption. tauto.
Qed.

(** Witness for C4: in the scenario the fields start empty and all three
    models are installed. *)
Lemma hasNlpModels_after_loadNLPModels_witness :
  (globalResolversNlp Scenario.start = [] /\
   skillsResolversNlp Scenario.start = [] /\
   mainNlp Scenario.start = []) /\
  (hasNlpModels (snd (loadNLPModels Scenario.env Scenario.start)) = true <->
   installed Scenario.env (globalResolversModelPath Scenario.env) /\
   installed Scenario.env (skillsResolversModelPath Scenario.env) /\
   installed Scenario.env (mainModelPath Scenario.env)).
Proof.
  split; [repeat split|].
  apply (hasNlpModels_after_loadNLPModels Scenario.env Scenario.start); reflexivity.
Defined.

(** C4, counterexample: the main model file exists but fails to load; the
    loader rejects, yet the readiness check answers true. *)
Lemma hasNlpModels_true_after_failed_load :
  let '(outcome, s) := loadNLPModels Scenario.corruptMainModel Scenario.start in
  outcome = (Val tt, Val tt, Throw (LoadRejection "error" "Unexpected token")) /\
  hasNlpModels s = true /\
  nerReady s = false.
Proof. vm_compute. auto. Qed.

(** *** The fallback matcher *)

(** Whatever the accumulator holds was found in the utterance. *)
Lemma fallback_scan_sound words fallbacks :
  forall tmpWords fb,
    (forall w, In w tmpWords -> arr_includes words w = true) ->
    fallback_scan words tmpWords fallbacks = Some fb ->
    In fb fallbacks /\
    forall w, In w (Fallback.words fb) -> arr_includes words w = true.
Proof.
  induction fallbacks as [|x rest IH]; intros tmpWords fb Htmp Hscan; simpl in Hscan.
  - discriminate.
  - assert (Hacc : forall w,
               In w (tmpWords ++ filter (arr_includes words) (Fallback.words x))%list ->
               arr_includes words w = true).
    { intros w Hw. apply in_app_or in Hw. destruct Hw as [Hw|Hw]; [auto|].
      apply filter_In in Hw. tauto. }
    destruct (list_eq_dec string_dec _ (Fallback.words x)) as [Heq|Hne].
    + inversion Hscan; subst fb. split; [left; reflexivity|].
      intros w Hw. apply Hacc. rewrite Heq. exact Hw.
    + destruct (IH _ _ Hacc Hscan) as [Hin Hall]. split; [right; exact Hin|exact Hall].
Qed.

(** A row that matches is one whose words are all tokens of the lowercased
    utterance, and the result it yields has confidence 1 and no entities. *)
Lemma fallback_match env fallbacks s r s' :
  fallback env fallbacks s = (Val (Some r), s') ->
  exists u fb,
    utterance (nluResultObj s) = Some u /\
    In fb fallbacks /\
    (forall w, In w (Fallback.words fb) ->
               arr_includes (split " " (toLowerCase (unicodeLower env) u)) w = true) /\
    r = with_classification
          {| domain := Some (Fallback.domain fb); skill := Some (Fallback.skill fb);
             action := Some (Fallback.action fb); confidence := Some 1%Q |}
          (with_entities [] (nluResultObj s)) /\
    s' = set_nluResultObj r s.
Proof.
  unfold fallback, bind, get, require, modify, ret.
  destruct (utterance (nluResultObj s)) as [u|] eqn:Hu; [|discriminate].
  destruct (0 <? length fallbacks)%nat; [|discriminate].
  destruct (fallback_scan (split " " (toLowerCase (unicodeLower env) u)) [] fallbacks) as [fb|] eqn:Hscan;
    [|discriminate].
  intros H. inversion H; subst. clear H.
  apply fallback_scan_sound in Hscan; [|intros w []].
  destruct Hscan as [Hin Hall]. exists u, fb. auto.
Qed.

(** C2, the failing input: the table's second row is ["hello"] and the
    utterance is "hello", so every word of that row is a token of the
    utterance; the first row, ["hello", "leon"], matched in part and left
    "hello" in the accumulator, and the matcher answers "not matched". *)
Theorem fallback_misses_row_after_partial_match :
  let s := Scenario.heard "hello" Scenario.start in
  forallb (arr_includes (split " " (toLowerCase (unicodeLower Scenario.env) "hello"))) ["hello"] = true /\
  fallback Scenario.env Scenario.twoFallbacks s = (Val None, s).
Proof. vm_compute. auto. Qed.

(** *** Language switch *)

(** C8, as the code has it: the language is updated first, the announcement
    is spoken next, the kill of the old process tree is requested last, and
    the empty object is returned; the child is spawned with the new locale by
    the kill callback, which also reconnects and registers the handler. *)
Theorem switchLanguage_effects env utterance locale s :
  exists s',
    switchLanguage utterance locale s = (Val (OData Processed.empty), s') /\
    brainLang s' = locale /\
    trace s' = (trace s ++ [SetLang locale; announcement; Kill (tcpServerProcess s)])%list /\
    exists s'',
      killCallback env utterance locale s' = (Val tt, s'') /\
      tcpServerProcess s'' = spawnPid env (TCP_SERVER_BIN_PATH env ++ " " ++ locale) /\
      trace s'' =
        (trace s' ++ [Spawn (TCP_SERVER_BIN_PATH env ++ " " ++ locale); Connect;
                      RemoveConnectedListener; OnConnected utterance])%list.
Proof.
  eexists. split; [reflexivity|]. simpl. split; [reflexivity|].
  split; [rewrite <- !app_assoc; reflexivity|].
  eexists. split; [reflexivity|]. simpl. split; [reflexivity|].
  rewrite <- !app_assoc. reflexivity.
Qed.

(** C8, counterexample: switching from "en" to "fr", the announcement does
    not come before the update of [BRAIN.lang]; the update is the first
    effect of the call. *)
Lemma switchLanguage_updates_before_announcing :
  let t := trace (snd (switchLanguage (Some "bonjour") "fr" Scenario.start)) in
  t = [SetLang "fr"; announcement; Kill 42%Z] /\
  ~ precedes announcement (SetLang "fr") t.
Proof.
  split; [reflexivity|].
  intros (l1 & l2 & l3 & H). simpl in H.
  destruct l1 as [|x1 l1]; simpl in H; [discriminate|].
  injection H as _ H.
  destruct l1 as [|x2 l1]; simpl in H.
  - injection H as H.
    destruct l2 as [|y1 l2]; simpl in H; [discriminate|].
    injection H as _ H.
    destruct l2; simpl in H; discriminate.
  - injection H as _ H.
    destruct l1 as [|x3 l1]; simpl in H; [discriminate|].
    injection H as _ H.
    destruct l1; simpl in H; discriminate.
Qed.

(** *** Reaching the classifier *)

Lemma process_classified env fuel utterance s locale intent skillName s1 :
  classified env utterance s locale intent skillName s1 ->
  process env (S fuel) utterance s =
  promise (dispatchIntent env (process env fuel) utterance locale intent skillName
             (dateNow env (clock s))) s1.
Proof.
  intros (Hm & s0 & Hmerge & Hloop & Hslots & Hcls).
  simpl. unfold process_body, bind at 1, now. unfold promise, bind at 1, get.
  assert (Hm' : hasNlpModels (set_clock (S (clock s)) s) = true) by exact Hm.
  rewrite Hm'. simpl. unfold bind at 1. rewrite Hmerge.
  unfold bind at 1, get. rewrite Hloop, Hslots.
  unfold bind at 1. rewrite Hcls. reflexivity.
Qed.

Lemma same_fields_refl s : same_fields s s.
Proof. repeat split. Qed.

Lemma addEntities_loop_same_fields (l : list Entity.t) :
  forall (m : M unit),
    (forall s r s', m s = (r, s') -> same_fields s s') ->
    forall s r s',
      fold_left (fun m e => m ;; s <- get ;; log (AddEntities e (brainLang s))) l m s
        = (r, s') ->
      same_fields s s'.
Proof.
  induction l as [|e l IH]; intros m Hm s r s' H; simpl in H.
  - eauto.
  - eapply IH; [|exact H]. clear H. intros t r' t' H.
    unfold bind, get, log, modify in H.
    destruct (m t) as [[a| | |] t1] eqn:E; inversion H; subst; clear H;
      apply Hm in E; exact E.
Qed.

Lemma mergeSpacyEntities_same_fields env utterance s r s' :
  mergeSpacyEntities env utterance s = (r, s') -> same_fields s s'.
Proof.
  unfold mergeSpacyEntities, bind at 1, liftE.
  destruct (getSpacyEntities env utterance) as [e|l].
  - intros H. inversion H. apply same_fields_refl.
  - apply addEntities_loop_same_fields. intros t r' t' H. inversion H.
    apply same_fields_refl.
Qed.

(** *** Context-biased choice of the classification *)

Lemma split_nonempty sep s : split sep s <> [].
Proof.
  destruct s as [|c s]; simpl; [discriminate|].
  destruct (Ascii.eqb c sep); [discriminate|].
  destruct (split sep s); discriminate.
Qed.

Lemma first_segment_no_dot s : no_dot (hd "" (split "." s)).
Proof.
  induction s as [|c s IH]; intros a b H; simpl in H.
  - destruct a; discriminate.
  - destruct (Ascii.eqb c ".") eqn:Ec.
    + simpl in H. destruct a; discriminate.
    + destruct (split "." s) as [|h t] eqn:Es; [exact (split_nonempty _ _ Es)|].
      simpl in *. destruct a as [|c' a]; simpl in H.
      * injection H as Hc _. subst c. discriminate.
      * injection H as _ Hh. exact (IH a b Hh).
Qed.

Lemma dotted_name_inj d1 : forall d2 k1 k2,
  no_dot k1 -> no_dot k2 ->
  d1 ++ "." ++ k1 = d2 ++ "." ++ k2 -> d1 = d2 /\ k1 = k2.
Proof.
  induction d1 as [|c d1 IH]; intros [|c2 d2] k1 k2 H1 H2 H; simpl in H.
  - injection H as H. auto.
  - injection H as _ H. exfalso. exact (H1 d2 k2 H).
  - injection H as _ H. exfalso. exact (H2 d1 k1 (eq_sym H)).
  - injection H as Hc H. subst c2. destruct (IH d2 k1 k2 H1 H2 H). subst. auto.
Qed.

Lemma repick_spec env n locale acc c :
  (matchesContext env n locale c ->
   repick env (Some n) locale acc c = (snd c, fst c, getIntentDomain env locale (fst c))) /\
  (~ matchesContext env n locale c -> repick env (Some n) locale acc c = acc).
Proof.
  destruct c as [i q]. unfold repick, matchesContext. simpl.
  destruct (Qle_bool q threshold) eqn:Eq; simpl.
  - apply Qle_bool_iff in Eq. split; [|reflexivity].
    intros [Hlt _]. exfalso. exact (Qlt_not_le _ _ Hlt Eq).
  - assert (Hlt : (threshold < q)%Q).
    { apply Qnot_le_lt. intros Hle. apply Qle_bool_iff in Hle. congruence. }
    match goal with
    | |- context [String.eqb ?a ?b] => destruct (String.eqb_spec a b) as [Hn|Hn]
    end.
    + split; [reflexivity|]. intros Hno. exfalso. apply Hno. auto.
    + split; [|reflexivity]. intros [_ Hm]. congruence.
Qed.

Lemma matchesContext_dec env n locale c :
  matchesContext env n locale c \/ ~ matchesContext env n locale c.
Proof.
  unfold matchesContext.
  destruct (Qlt_le_dec threshold (snd c)) as [Hlt|Hle].
  - destruct (string_dec
                (getIntentDomain env locale (fst c) ++ "." ++ hd "" (split "." (fst c))) n).
    + left. auto.
    + right. tauto.
  - right. intros [Hlt _]. exact (Qlt_not_le _ _ Hlt Hle).
Qed.

Lemma repick_fold env n locale l :
  forall acc,
    ((exists c, In c l /\ matchesContext env n locale c) ->
     exists c, In c l /\ matchesContext env n locale c /\
               fold_left (repick env (Some n) locale) l acc =
               (snd c, fst c, getIntentDomain env locale (fst c))) /\
    ((forall c, In c l -> ~ matchesContext env n locale c) ->
     fold_left (repick env (Some n) locale) l acc = acc).
Proof.
  induction l as [|x l IH] using rev_ind; intros acc.
  - split; [intros (c & [] & _)|reflexivity].
  - rewrite fold_left_app. simpl.
    destruct (repick_spec env n locale (fold_left (repick env (Some n) locale) l acc) x)
      as [Hyes Hno].
    destruct (IH acc) as [IH1 IH2]. split.
    + intros (c & Hin & Hc).
      destruct (matchesContext_dec env n locale x) as [Hx|Hx].
      * exists x. split; [apply in_or_app; right; left; reflexivity|]. auto.
      * rewrite (Hno Hx). apply in_app_or in Hin. destruct Hin as [Hin|[->|[]]].
        -- destruct IH1 as (c' & Hin' & Hc' & Hf); [eauto|].
           exists c'. split; [apply in_or_app; left; exact Hin'|]. auto.
        -- contradiction.
    + intros Hall. rewrite Hno by (apply Hall; apply in_or_app; right; left; reflexivity).
      apply IH2. intros c Hin. apply Hall. apply in_or_app. left. exact Hin.
Qed.

(** C3: in a call that reaches the classifier while the active context is
    named "{d}.{k}": if some classification scores above 0.6 and its
    "{domain}.{skill}" is the context's name, the chosen classification has
    domain [d] and skill [k]; otherwise the classifier's own top result
    (intent, domain, score) is kept. *)
Theorem context_biased_repick env utterance s locale intent skillName s1 d k :
  classified env utterance s locale intent skillName s1 ->
  ActiveContext.name (conv s) = Some (d ++ "." ++ k) ->
  no_dot k ->
  let result := mainNlpProcess env utterance in
  let chosen := classification (nluResultObj s1) in
  ((exists c, In c (NlpResult.classifications result) /\
              matchesContext env (d ++ "." ++ k) (NlpResult.locale result) c) ->
   domain chosen = Some d /\ skill chosen = Some k /\ skillName = k) /\
  ((forall c, In c (NlpResult.classifications result) ->
              ~ matchesContext env (d ++ "." ++ k) (NlpResult.locale result) c) ->
   intent = NlpResult.intent result /\
   domain chosen = Some (NlpResult.domain result) /\
   skill chosen = Some (hd "" (split "." (NlpResult.intent result))) /\
   confidence chosen = Some (NlpResult.score result)).
Proof.
  intros (_ & s0 & Hmerge & _ & _ & Hcls) Hname Hk result chosen.
  apply mergeSpacyEntities_same_fields in Hmerge.
  destruct Hmerge as (_ & _ & _ & _ & Hconv & _). simpl in Hconv.
  unfold classify, bind, get, modify, ret in Hcls. rewrite Hconv in Hcls.
  unfold chooseClassification, Conversation.hasActiveContext in Hcls.
  rewrite Hname in Hcls. fold result in Hcls.
  destruct (repick_fold env (d ++ "." ++ k) (NlpResult.locale result)
              (NlpResult.classifications result)
              (NlpResult.score result, NlpResult.intent result, NlpResult.domain result))
    as [Hyes Hno].
  split.
  - intros Hex. destruct (Hyes Hex) as (c & _ & [_ Hc] & Hf).
    rewrite Hf in Hcls. inversion Hcls; subst. subst chosen. simpl.
    apply dotted_name_inj in Hc; [|apply first_segment_no_dot|exact Hk].
    destruct Hc as [-> ->]. auto.
  - intros Hall. rewrite (Hno Hall) in Hcls. inversion Hcls; subst. subst chosen.
    simpl. auto.
Qed.

(** What the stages before line 541 leave behind: the spaCy entities were
    registered, the clock was read once, the NLU result was rebuilt. *)
Lemma mergeSpacyEntities_trace env utterance s s' :
  mergeSpacyEntities env utterance s = (Val tt, s') ->
  exists l, getSpacyEntities env utterance = inr l /\
            trace s' = (trace s ++ map (fun e => AddEntities e (brainLang s)) l)%list.
Proof.
  unfold mergeSpacyEntities, bind at 1, liftE.
  destruct (getSpacyEntities env utterance) as [e|l]; [discriminate|].
  intros H. exists l. split; [reflexivity|].
  assert (G : forall (m : M unit) s0 pre,
             (forall r t, m s0 = (r, t) ->
                          r = Val tt -> same_fields s0 t /\ trace t = (trace s0 ++ pre)%list) ->
             forall t,
               fold_left (fun m e => m ;; s <- get ;; log (AddEntities e (brainLang s))) l m s0
                 = (Val tt, t) ->
               trace t = (trace s0 ++ pre ++ map (fun e => AddEntities e (brainLang s0)) l)%list).
  { clear H. induction l as [|e l IH]; intros m s0 pre Hm t H; simpl in H.
    - destruct (Hm _ _ H eq_refl) as [_ Ht]. simpl. rewrite app_nil_r. exact Ht.
    - apply (IH _ s0 (pre ++ [AddEntities e (brainLang s0)])%list) in H.
      + rewrite H. simpl. rewrite <- !app_assoc. reflexivity.
      + intros r t' Hr ->. unfold bind, get, log, modify in Hr.
        destruct (m s0) as [[[]| | |] t1] eqn:E; inversion Hr; subst; clear Hr.
        destruct (Hm _ _ eq_refl eq_refl) as [Hf Ht].
        split; [exact Hf|]. simpl. rewrite Ht.
        destruct Hf as (_ & _ & _ & _ & _ & _ & -> & _).
        rewrite <- app_assoc. reflexivity. }
  apply (G _ s []) in H; [exact H|].
  intros r t Hr _. inversion Hr. split; [apply same_fields_refl|].
  rewrite app_nil_r. reflexivity.
Qed.

Lemma classified_frame env u s locale intent skillName s1 :
  classified env u s locale intent skillName s1 ->
  exists l,
    getSpacyEntities env u = inr l /\
    trace s1 = (trace s ++ map (fun e => AddEntities e (brainLang s)) l)%list /\
    clock s1 = S (clock s) /\
    conv s1 = conv s /\
    brainLang s1 = brainLang s /\
    brainIsMuted s1 = brainIsMuted s /\
    nerReady s1 = nerReady s /\
    locale = NlpResult.locale (mainNlpProcess env u) /\
    skillName = hd "" (split "." intent) /\
    utterance (nluResultObj s1) = u.
Proof.
  intros (_ & s0 & Hmerge & _ & _ & Hcls).
  destruct (mergeSpacyEntities_trace _ _ _ _ Hmerge) as (l & Hl & Ht).
  apply mergeSpacyEntities_same_fields in Hmerge.
  destruct Hmerge as (_ & _ & _ & Hn & Hc & _ & Hb & Hmu & _ & Hk).
  simpl in *. exists l.
  unfold classify, bind, get, modify, ret in Hcls.
  destruct (chooseClassification env (conv s0) (mainNlpProcess env u))
    as [[sc i] d].
  inversion Hcls; subst; clear Hcls. simpl. repeat split; auto.
Qed.

(** *** Intent not found *)

Lemma fallback_none env fallbacks s s' :
  fallback env fallbacks s = (Val None, s') -> s' = s.
Proof.
  unfold fallback, bind, get, require, modify, ret.
  destruct (utterance (nluResultObj s)); [|discriminate].
  destruct (0 <? length fallbacks)%nat; [|intros H; inversion H; reflexivity].
  destruct (fallback_scan _ _ _); [discriminate|].
  intros H; inversion H; reflexivity.
Qed.

(** C7, as the code has it: when the call reaches the classifier, the
    locale is supported and is the current language, the chosen intent is
    'None' and the fallback matcher answers "not matched", [process] resolves
    with [{processingTime, message: "Intent not found"}], the processing time
    being the difference of the two clock readings; the unknown-intent
    phrase is spoken (and the typing indicator cleared) unless the Brain is
    muted, and the Brain executes nothing: the only other effects of the
    call are the registrations of the spaCy entities. *)
Theorem intent_not_found env fuel u s locale skillName s1 fallbacks s2 :
  classified env u s locale "None" skillName s1 ->
  arr_includes (getShortCodes env) locale = true ->
  brainLang s = locale ->
  langsFallbacks env (getLongCode env locale) = Some fallbacks ->
  fallback env fallbacks s1 = (Val None, s2) ->
  exists s' spacy,
    process env (S fuel) u s =
      (Val (ONotFound (dateNow env (S (clock s)) - dateNow env (clock s))%Z
                      "Intent not found"), s') /\
    getSpacyEntities env u = inr spacy /\
    trace s' = (trace s ++ map (fun e => AddEntities e (brainLang s)) spacy ++
                unknownIntentEvents (brainIsMuted s))%list.
Proof.
  intros Hcls Hsup Hlang Hfbs Hfb. subst locale.
  rewrite (process_classified _ fuel _ _ _ _ _ _ Hcls).
  destruct (classified_frame _ _ _ _ _ _ _ Hcls)
    as (spacy & Hsp & Ht & Hck & _ & Hl & Hmu & _).
  pose proof (fallback_none _ _ _ _ Hfb) as ->.
  unfold promise, dispatchIntent. rewrite Hsup. simpl.
  unfold bind at 1, get. rewrite Hl, String.eqb_refl. simpl.
  unfold bind at 1, require. rewrite Hfbs.
  unfold bind at 1. rewrite Hfb.
  unfold bind at 1, get. rewrite Hmu. unfold unknownIntentEvents.
  destruct (brainIsMuted s); simpl.
  - unfold bind, ret, now, resolve, ret. simpl. rewrite Hck.
    eexists; exists spacy. split; [reflexivity|]. split; [exact Hsp|].
    simpl. rewrite Ht, app_nil_r. reflexivity.
  - unfold bind, talk, emit, log, modify, now, resolve, ret. simpl. rewrite Hck.
    eexists; exists spacy. split; [reflexivity|]. split; [exact Hsp|].
    simpl. rewrite Ht, <- !app_assoc. reflexivity.
Qed.

(** *** The normal path *)

Ltac run :=
  repeat progress
    unfold bind, get, require, modify, ret, throw, liftE, try_catch, when, log, talk,
      emit, resolve, reject, now, execute, setContext, cleanContext in *.

(** Case analysis on an innermost scrutinee of [H]. *)
Ltac break H :=
  match type of H with
  | context [match ?x with _ => _ end] =>
      lazymatch x with
      | context [match _ with _ => _ end] => fail
      | _ => destruct x eqn:?; simpl in H; try discriminate H
      end
  end.

(** Projections of updated states. *)
Ltac fields :=
  cbn [globalResolversNlp skillsResolversNlp mainNlp nerReady conv nluResultObj
       brainLang brainIsMuted tcpServerProcess clock trace
       set_globalResolversNlp set_skillsResolversNlp set_mainNlp set_nerReady
       set_conv set_nluResultObj set_brainLang set_clock add_event negb] in *.

Ltac break_goal :=
  match goal with
  | |- context [match ?x with _ => _ end] =>
      lazymatch x with
      | context [match _ with _ => _ end] => fail
      | _ => destruct x eqn:?; simpl
      end
  end.

Lemma fallback_frame env fallbacks s r s' :
  fallback env fallbacks s = (Val (Some r), s') ->
  s' = set_nluResultObj r s /\
  utterance r = utterance (nluResultObj s) /\
  confidence (classification r) = Some 1%Q /\
  entities r = [].
Proof.
  intros H. apply fallback_match in H.
  destruct H as (u & fb & Hu & _ & _ & -> & ->). simpl. auto.
Qed.

Lemma locateAndExtract_frame env s s' :
  locateAndExtract env s = (Val tt, s') ->
  clock s' = clock s /\
  conv s' = conv s /\
  brainLang s' = brainLang s /\
  brainIsMuted s' = brainIsMuted s /\
  classification (nluResultObj s') = classification (nluResultObj s) /\
  utterance (nluResultObj s') = utterance (nluResultObj s).
Proof.
  unfold locateAndExtract, logCaught, nerExtractEntities. run. intros H.
  repeat break H; inversion H; subst; simpl; auto 10.
Qed.

Lemma routeSlotFilling_false_frame env s intent :
  forall s', routeSlotFilling env intent s = (Val false, s') ->
  clock s' = clock s /\
  trace s' = trace s /\
  brainLang s' = brainLang s /\
  brainIsMuted s' = brainIsMuted s /\
  nluResultObj s' = nluResultObj s /\
  (conv s' = conv s \/
   conv s' =
     Conversation.setActiveContext (nextActionOf env)
       (ContextObj.mk (brainLang s) (getMandatorySlots env intent) false
          (utterance (nluResultObj s)) (configDataFilePath (nluResultObj s))
          (action (classification (nluResultObj s)))
          (domain (classification (nluResultObj s))) intent
          (entities (nluResultObj s)))
       (conv s)).
Proof.
  unfold routeSlotFilling. run. intros s' H.
  repeat break H; inversion H; subst; simpl; auto 10.
Qed.

Lemma intentResolved_frame env locale intent s1 s1' :
  intentResolved env locale intent s1 s1' ->
  clock s1' = clock s1 /\
  trace s1' = trace s1 /\
  conv s1' = conv s1 /\
  brainLang s1' = brainLang s1 /\
  brainIsMuted s1' = brainIsMuted s1 /\
  utterance (nluResultObj s1') = utterance (nluResultObj s1) /\
  (intent = "None" -> confidence (classification (nluResultObj s1')) = Some 1%Q).
Proof.
  intros [[Hne ->]|[-> (fbs & r & _ & Hfb)]].
  - repeat split; auto. intros; contradiction.
  - apply fallback_frame in Hfb. destruct Hfb as (-> & Hu & Hc & _).
    simpl. repeat split; auto.
Qed.

Lemma dispatchIntent_resolved env proc u locale intent skillName t0 s1 s1' :
  arr_includes (getShortCodes env) locale = true ->
  brainLang s1 = locale ->
  intentResolved env locale intent s1 s1' ->
  dispatchIntent env proc u locale intent skillName t0 s1 =
  afterIntent env proc u intent skillName t0 s1'.
Proof.
  intros Hsup Hlang Hres. unfold dispatchIntent. rewrite Hsup. simpl.
  unfold bind at 1, get. rewrite Hlang, String.eqb_refl. simpl.
  destruct Hres as [[Hne ->]|[-> (fbs & r & Hfbs & Hfb)]].
  - apply String.eqb_neq in Hne. rewrite Hne. reflexivity.
  - simpl. unfold bind at 1, require. rewrite Hfbs.
    unfold bind at 1. rewrite Hfb.
    apply fallback_frame in Hfb. destruct Hfb as (-> & _).
    unfold bind at 1, modify. destruct s1; reflexivity.
Qed.

Lemma process_normal_path env fuel u s intent skillName sNer s2 :
  reachesNormalPath env u s intent skillName sNer s2 ->
  process env (S fuel) u s =
  promise (normalPath env intent skillName (dateNow env (clock s))) s2.
Proof.
  intros (locale & s1 & sInt & Hcls & Hsup & Hlang & Hres & Hner & Hroute & Hslots).
  rewrite (process_classified _ fuel _ _ _ _ _ _ Hcls).
  destruct (classified_frame _ _ _ _ _ _ _ Hcls) as (_ & _ & _ & _ & _ & Hl & _).
  unfold promise.
  rewrite (dispatchIntent_resolved env _ u locale intent skillName _ s1 sInt);
    [|assumption|congruence|assumption].
  unfold afterIntent. unfold bind at 1. rewrite Hner.
  unfold bind at 1. rewrite Hroute. unfold bind at 1, get. rewrite Hslots.
  reflexivity.
Qed.

Lemma activate_spec env intent skillName s :
  exists s3,
    activate env intent skillName s = (Val tt, s3) /\
    clock s3 = clock s /\
    trace s3 = trace s /\
    brainLang s3 = brainLang s /\
    brainIsMuted s3 = brainIsMuted s /\
    classification (nluResultObj s3) = classification (nluResultObj s) /\
    utterance (nluResultObj s3) = utterance (nluResultObj s) /\
    entities (nluResultObj s3) = ActiveContext.entities (conv s3) /\
    exists inherited,
      ActiveContext.entities (conv s3) = (inherited ++ entities (nluResultObj s))%list.
Proof.
  unfold activate. run.
  unfold Conversation.setActiveContext, Conversation.cleanActiveContext. simpl.
  repeat break_goal;
    (eexists; (split; [reflexivity|]); simpl; repeat split; auto);
    try (exists []; reflexivity); eexists; reflexivity.
Qed.

Lemma reachesNormalPath_frame env u s intent skillName sNer s2 :
  reachesNormalPath env u s intent skillName sNer s2 ->
  clock s2 = S (clock s) /\
  brainIsMuted s2 = brainIsMuted s /\
  nluResultObj s2 = nluResultObj sNer /\
  utterance (nluResultObj s2) = u /\
  (intent = "None" -> confidence (classification (nluResultObj s2)) = Some 1%Q).
Proof.
  intros (locale & s1 & sInt & Hcls & _ & _ & Hres & Hner & Hroute & _).
  destruct (classified_frame _ _ _ _ _ _ _ Hcls)
    as (_ & _ & _ & Hck & _ & _ & Hmu & _ & _ & _ & Hu).
  destruct (intentResolved_frame _ _ _ _ _ Hres) as (Hck1 & _ & _ & _ & Hmu1 & Hu1 & Hc1).
  destruct (locateAndExtract_frame _ _ _ Hner) as (Hck2 & _ & _ & Hmu2 & Hc2 & Hu2).
  destruct (routeSlotFilling_false_frame _ _ _ _ Hroute) as (Hck3 & _ & _ & Hmu3 & Hn3 & _).
  repeat split; try congruence.
  intros Hi. rewrite Hn3, Hc2. auto.
Qed.

(** *** Timing *)

(** C9: when the call takes the normal path and the Brain executes the NLU
    result successfully (and, if it queues a next action, reports the action
    and the classification that the rotation reads), [process] resolves
    with the Brain's data, [processingTime] = the clock reading at return
    minus the reading at method entry, and [nluProcessingTime] =
    [processingTime] minus the Brain's [executionTime]. *)
Theorem nluProcessingTime_excludes_execution
  env fuel u s intent skillName sNer s2 s3 pd :
  reachesNormalPath env u s intent skillName sNer s2 ->
  activate env intent skillName s2 = (Val tt, s3) ->
  brainExecute env (nluResultObj s3) = inr pd ->
  (Processed.nextAction pd <> None ->
   Processed.action pd <> None /\ Processed.classification pd <> None) ->
  let processingTime := (dateNow env (S (clock s)) - dateNow env (clock s))%Z in
  exists s',
    process env (S fuel) u s =
      (Val (OTimed processingTime pd
              (option_map (fun executionTime => (processingTime - executionTime)%Z)
                          (Processed.executionTime pd))), s') /\
    clock s' = S (S (clock s)) /\
    In (Execute (nluResultObj s3)) (trace s').
Proof.
  intros Hreach Hact Hexec Hrot processingTime.
  rewrite (process_normal_path _ fuel _ _ _ _ _ _ Hreach).
  destruct (reachesNormalPath_frame _ _ _ _ _ _ _ Hreach) as (Hck & _).
  destruct (activate_spec env intent skillName s2) as (s3' & Hact' & Hck3 & _).
  rewrite Hact in Hact'. inversion Hact'; subst s3'. clear Hact'.
  unfold promise, normalPath. unfold bind at 1. rewrite Hact.
  unfold executeAndRotate, try_catch, execute. run. rewrite Hexec. simpl.
  destruct (Processed.nextAction pd) as [l|] eqn:Hnext.
  - destruct Hrot as [Ha Hc]; [discriminate|].
    destruct (Processed.action pd) as [a|]; [|contradiction].
    destruct (Processed.classification pd) as [c|]; [|contradiction].
    simpl. eexists. split; [|split].
    + subst processingTime. rewrite Hck3, Hck. reflexivity.
    + simpl. congruence.
    + simpl. apply in_or_app. right. left. reflexivity.
  - simpl. eexists. split; [|split].
    + subst processingTime. rewrite Hck3, Hck. reflexivity.
    + simpl. congruence.
    + simpl. apply in_or_app. right. left. reflexivity.
Qed.

(** *** Fallback matches inside [process] *)

Lemma locateAndExtract_result env s d k s' :
  domain (classification (nluResultObj s)) = Some d ->
  skill (classification (nluResultObj s)) = Some k ->
  locateAndExtract env s = (Val tt, s') ->
  let path := configPathOf env s d k in
  entities (nluResultObj s') =
    if nerReady s then
      match extractEntities env (brainLang s) path
              (with_configDataFilePath (Some path) (nluResultObj s)) with
      | inr es => es
      | inl _ => entities (nluResultObj s)
      end
    else entities (nluResultObj s).
Proof.
  intros Hd Hk. unfold locateAndExtract, logCaught, nerExtractEntities, configPathOf.
  run. rewrite Hd, Hk. fields. intros H.
  destruct (nerReady s); fields;
    [destruct (extractEntities env _ _ _); fields|];
    repeat break H; inversion H; subst; reflexivity.
Qed.

Lemma executeAndRotate_executes env t0 s :
  In (Execute (nluResultObj s)) (trace (snd (promise (executeAndRotate env t0) s))).
Proof.
  unfold promise, executeAndRotate. run.
  repeat break_goal; simpl; rewrite ?in_app_iff; simpl; tauto.
Qed.

(** C1, as the code has it: in a turn whose chosen intent is 'None', whose
    fallback matcher returns [matched] and which goes on along the normal
    path, [matched] has confidence 1, no entities and the domain, skill and
    action of a row of the table all of whose words are tokens of the
    utterance.  The NLU result that [process] hands to the Brain has the
    classification of [matched]; its entities are those of the activated
    context, which end with the entities of the NER stage: what the gateway
    extracted for the config of the row's skill, and nothing if the NER
    object is missing or the extraction failed. *)
Theorem fallback_result_handed_to_brain
  env fuel u s locale skillName s1 fallbacks matched sInt sNer s2 s3 :
  classified env u s locale "None" skillName s1 ->
  arr_includes (getShortCodes env) locale = true ->
  brainLang s = locale ->
  langsFallbacks env (getLongCode env locale) = Some fallbacks ->
  fallback env fallbacks s1 = (Val (Some matched), sInt) ->
  locateAndExtract env sInt = (Val tt, sNer) ->
  routeSlotFilling env "None" sNer = (Val false, s2) ->
  Conversation.hasActiveContext (conv s2) &&
    (0 <? length (ActiveContext.slots (conv s2)))%nat = false ->
  activate env "None" skillName s2 = (Val tt, s3) ->
  exists spoken fb inherited,
    u = Some spoken /\
    In fb fallbacks /\
    (forall w, In w (Fallback.words fb) -> arr_includes (tokens env spoken) w = true) /\
    classification matched =
      {| domain := Some (Fallback.domain fb); skill := Some (Fallback.skill fb);
         action := Some (Fallback.action fb); confidence := Some 1%Q |} /\
    entities matched = [] /\
    classification (nluResultObj s3) = classification matched /\
    entities (nluResultObj s3) = ActiveContext.entities (conv s3) /\
    ActiveContext.entities (conv s3) = (inherited ++ entities (nluResultObj sNer))%list /\
    (let path := configPathOf env s (Fallback.domain fb) (Fallback.skill fb) in
     entities (nluResultObj sNer) =
       if nerReady s then
         match extractEntities env (brainLang s) path
                 (with_configDataFilePath (Some path) matched) with
         | inr es => es
         | inl _ => []
         end
       else []) /\
    In (Execute (nluResultObj s3)) (trace (snd (process env (S fuel) u s))).
Proof.
  intros Hcls Hsup Hlang Hfbs Hfb Hner Hroute Hslots Hact.
  assert (Hreach : reachesNormalPath env u s "None" skillName sNer s2).
  { exists locale, s1, sInt. repeat (split; [assumption|]).
    split; [|auto]. right. split; [reflexivity|]. exists fallbacks, matched. auto. }
  pose proof (process_normal_path _ fuel _ _ _ _ _ _ Hreach) as Hproc.
  destruct (fallback_match _ _ _ _ _ Hfb) as (spoken & fb & Hu & Hin & Hall & Hr & Hs).
  destruct (classified_frame _ _ _ _ _ _ _ Hcls)
    as (_ & _ & _ & _ & _ & Hl & _ & Hn & _ & _ & Hu1).
  destruct (locateAndExtract_frame _ _ _ Hner) as (_ & _ & _ & _ & Hc2 & _).
  destruct (routeSlotFilling_false_frame _ _ _ _ Hroute) as (_ & _ & _ & _ & Hn3 & _).
  destruct (activate_spec env "None" skillName s2)
    as (s3' & Hact' & _ & _ & _ & _ & Hc3 & _ & He3 & inherited & Hinh).
  rewrite Hact in Hact'. inversion Hact'; subst s3'. clear Hact'.
  assert (Hobj : nluResultObj sInt = matched) by (rewrite Hs; reflexivity).
  assert (Hcm : classification matched =
                {| domain := Some (Fallback.domain fb); skill := Some (Fallback.skill fb);
                   action := Some (Fallback.action fb); confidence := Some 1%Q |})
    by (rewrite Hr; reflexivity).
  assert (Hem : entities matched = []) by (rewrite Hr; reflexivity).
  assert (Hd : domain (classification (nluResultObj sInt)) = Some (Fallback.domain fb))
    by (rewrite Hobj, Hcm; reflexivity).
  assert (Hk : skill (classification (nluResultObj sInt)) = Some (Fallback.skill fb))
    by (rewrite Hobj, Hcm; reflexivity).
  pose proof (locateAndExtract_result _ _ _ _ _ Hd Hk Hner) as He. simpl in He.
  assert (HsInt : brainLang sInt = brainLang s /\ nerReady sInt = nerReady s).
  { rewrite Hs. simpl. split; assumption. }
  destruct HsInt as [Hl' Hn'].
  unfold configPathOf in He. rewrite Hobj, Hem, Hl', Hn' in He.
  exists spoken, fb, inherited.
  split; [congruence|]. split; [exact Hin|]. split; [exact Hall|].
  split; [exact Hcm|]. split; [exact Hem|].
  split; [rewrite Hc3, Hn3, Hc2, Hobj; reflexivity|].
  split; [exact He3|]. split; [rewrite Hinh, Hn3; reflexivity|].
  split; [exact He|].
  rewrite Hproc. unfold promise, normalPath. unfold bind at 1. rewrite Hact.
  apply executeAndRotate_executes.
Qed.

(** *** Slot filling *)

Lemma all_filled_none_pending c :
  Conversation.areSlotsAllFilled c = true -> Conversation.getNotFilledSlot c = None.
Proof.
  unfold Conversation.areSlotsAllFilled, Conversation.getNotFilledSlot.
  induction (ActiveContext.slots c) as [|x l IH]; simpl; [reflexivity|].
  intros H. apply andb_true_iff in H. destruct H as [Hx Hl].
  rewrite Hx. simpl. auto.
Qed.

(** When every slot is filled on entry, the check at line 752 sees the
    context as it was. *)
Lemma contextAtCheck_all_filled es s :
  Conversation.areSlotsAllFilled (conv s) = true -> contextAtCheck es s = conv s.
Proof.
  intros H. unfold contextAtCheck. rewrite (all_filled_none_pending _ H). reflexivity.
Qed.

(** C5, as the code has it: in a [slotFill] call whose context has a next
    action, an intent and a domain, whose entity extraction succeeds and
    after which all slots of the context are filled, the NLU result that is
    built has the context's [originalUtterance], the context's [nextAction]
    as action and confidence 1; the context is cleared, the result is passed
    to the Brain, and the call ends the way the Brain's execution ends. *)
Theorem slotFill_all_filled env u s intent d es :
  truthy (ActiveContext.nextAction (conv s)) = true ->
  ActiveContext.intent (conv s) = Some intent ->
  ActiveContext.domain (conv s) = Some d ->
  nerReady s = true ->
  let skillName := hd "" (split "." intent) in
  let path := join [cwd env; "skills"; d; skillName; "config/" ++ brainLang s ++ ".json"] in
  extractEntities env (brainLang s) path
    (slotFillQuery u (conv s) skillName (nth_error (split "." intent) 1)) = inr es ->
  Conversation.areSlotsAllFilled (contextAtCheck es s) = true ->
  let r := slotFillResult (contextAtCheck es s) skillName path in
  utterance r = ActiveContext.originalUtterance (conv s) /\
  action (classification r) = ActiveContext.nextAction (conv s) /\
  confidence (classification r) = Some 1%Q /\
  exists s',
    slotFill env u s =
      (match brainExecute env r with
       | inr processedData => Val (Some processedData)
       | inl e => Throw e
       end, s') /\
    Conversation.hasActiveContext (conv s') = false /\
    nluResultObj s' = r /\
    trace s' = (trace s ++ [Execute r])%list.
Proof.
  intros Hnext Hint Hdom Hner skillName path Hes Hall r.
  assert (Hctx : ActiveContext.originalUtterance (contextAtCheck es s)
                 = ActiveContext.originalUtterance (conv s) /\
                 ActiveContext.nextAction (contextAtCheck es s)
                 = ActiveContext.nextAction (conv s)).
  { unfold contextAtCheck. repeat break_goal; auto. }
  destruct Hctx as [Hou Hna].
  split; [exact Hou|]. split; [exact Hna|]. split; [reflexivity|].
  unfold slotFill, nerExtractEntities. run.
  rewrite Hnext, Hint, Hdom. fields. rewrite Hner.
  subst skillName path. rewrite Hes. fields.
  unfold contextAtCheck in *.
  destruct (Conversation.getNotFilledSlot (conv s)) as [slot|] eqn:Hslot; simpl.
  - destruct ((0 <? length es)%nat &&
              existsb (fun e => Entity.entity e =? Slot.expectedEntity slot) es) eqn:Hm;
      simpl.
    + rewrite (all_filled_none_pending _ Hall). simpl. rewrite Hall. simpl.
      destruct (brainExecute env _); eexists; (split; [reflexivity|]); auto.
    + rewrite (all_filled_none_pending _ Hall) in Hslot. discriminate.
  - rewrite Hall. simpl.
    destruct (brainExecute env _); eexists; (split; [reflexivity|]); auto.
Qed.

(** *** The action loop *)

Lemma enterActionLoop_trace env u s r s' :
  enterActionLoop env u s = (r, s') -> trace s' = trace s.
Proof.
  unfold enterActionLoop, nerExtractEntities. run. intros H.
  repeat break H; inversion H; subst; reflexivity.
Qed.

Lemma readExpectedItem_state env path s r s' :
  readExpectedItem env path s = (r, s') -> s' = s.
Proof.
  unfold readExpectedItem. run. intros H.
  repeat break H; inversion H; subst; reflexivity.
Qed.

Lemma matchExpectedItem_trace env u skillName rs name type s r s' :
  matchExpectedItem env u skillName rs name type s = (r, s') -> trace s' = trace s.
Proof.
  unfold matchExpectedItem, resolverProcess, resolveResolvers. run. intros H.
  repeat break H; inversion H; subst; reflexivity.
Qed.

Lemma then_null (x : res Output * State) :
  (let (r, s') := x in
   match r with
   | Val _ => (Val ONull, s')
   | Throw e => (Throw e, s')
   | Hang => (Hang, s')
   | NoFuel => (NoFuel, s')
   end) =
  match x with
  | (Val _, s') => (Val ONull, s')
  | (Throw e, s') => (Throw e, s')
  | (Hang, s') => (Hang, s')
  | (NoFuel, s') => (NoFuel, s')
  end.
Proof. destruct x as [[o|e| |] s']; reflexivity. Qed.

(** C6, as the code has it: when neither the expected entity nor an
    expected resolver matches, the handler has produced no effect so far; it
    speaks the out-of-topic phrase, clears the active context and re-enters
    [process] with the same utterance.  It does not call the Brain itself
    (the re-entered call may).  If the re-entered call resolves, whatever
    with, the handler returns null; if it rejects or stays pending, so does
    the handler. *)
Theorem handleActionLoop_out_of_topic env fuel u s skillName path s1 rs name type s2 s3 :
  enterActionLoop env u s = (Val (skillName, path), s1) ->
  readExpectedItem env path s1 = (Val (rs, name, type), s2) ->
  matchExpectedItem env u skillName rs name type s2 = (Val (false, false), s3) ->
  let spoken := add_event outOfTopic s3 in
  let cleared := set_conv Conversation.defaultActiveContext spoken in
  trace cleared = (trace s ++ [outOfTopic])%list /\
  Conversation.hasActiveContext (conv cleared) = false /\
  handleActionLoop env (process env fuel) u s =
    match process env fuel u cleared with
    | (Val _, s') => (Val ONull, s')
    | (Throw e, s') => (Throw e, s')
    | (Hang, s') => (Hang, s')
    | (NoFuel, s') => (NoFuel, s')
    end.
Proof.
  intros Henter Hread Hmatch spoken cleared.
  split; [|split; [reflexivity|]].
  - subst cleared spoken. simpl.
    rewrite (matchExpectedItem_trace _ _ _ _ _ _ _ _ _ Hmatch).
    rewrite (readExpectedItem_state _ _ _ _ _ Hread).
    rewrite (enterActionLoop_trace _ _ _ _ _ Henter). reflexivity.
  - unfold handleActionLoop. unfold bind at 1. rewrite Henter.
    unfold bind at 1. rewrite Hread. unfold bind at 1. rewrite Hmatch. simpl.
    unfold bind at 1, talk, log, modify. unfold bind at 1.
    unfold bind, ret. exact (then_null _).
Qed.

Lemma resolverProcess_spec env key u s :
  resolverProcess env key u s =
    if hasClassifier s key
    then (Val (if key =? "global_resolver" then globalResolversProcess env u
               else skillsResolversProcess env u), s)
    else (Throw (TypeError (if (key =? "global_resolver") || (key =? "skill_resolver")
                            then "nlpObjs[expectedItemType].process is not a function"
                            else "Cannot read properties of undefined (reading 'process')")),
          s).
Proof.
  unfold resolverProcess, hasClassifier. run.
  destruct (key =? "global_resolver"); simpl.
  - destruct (0 <? length (globalResolversNlp s))%nat; reflexivity.
  - destruct (key =? "skill_resolver"); simpl; [|reflexivity].
    destruct (0 <? length (skillsResolversNlp s))%nat; reflexivity.
Qed.

Lemma beforeMatching_throws env proc u s e s' :
  beforeMatching env u s = (Throw e, s') ->
  handleActionLoop env proc u s = (Throw e, s').
Proof.
  intros H. unfold beforeMatching in H. unfold bind at 1 in H.
  unfold handleActionLoop. unfold bind at 1.
  destruct (enterActionLoop env u s) as [[[k p]|x| |] s1]; try discriminate;
    [|inversion H; reflexivity].
  unfold bind at 1 in H. unfold bind at 1.
  destruct (readExpectedItem env p s1) as [[[[rs n] t]|x| |] s2]; try discriminate;
    [|inversion H; reflexivity].
  unfold bind at 1, liftE in H. unfold bind at 1, matchExpectedItem.
  unfold bind at 1, get. unfold bind at 1, liftE.
  destruct (expectedItemKind t) as [x|[| key |]];
    [inversion H; reflexivity|discriminate| |discriminate].
  unfold bind at 1 in H. unfold bind at 1.
  rewrite resolverProcess_spec in *.
  destruct (hasClassifier s2 key); [discriminate|]. inversion H; reflexivity.
Qed.

Lemma declares_expectedItemOf config key type :
  declaresItemOfType config key type ->
  exists rs name, expectedItemOf config key = inr (rs, name, JStr type).
Proof.
  intros (cprops & aprops & actprops & lprops & iprops & -> & Ha & Hact & Hl & Hi & Ht).
  unfold expectedItemOf, andThen. simpl. rewrite Ha. simpl. rewrite Hact. simpl.
  rewrite Hl. simpl. rewrite Hi. simpl. rewrite Ht.
  do 2 eexists. reflexivity.
Qed.

Lemma get_prop_object v k props :
  get_prop v k = inr (JObj props) -> exists vprops, v = JObj vprops /\ lookup k vprops = JObj props.
Proof.
  destruct v; simpl; intros H; inversion H; eauto.
Qed.

Lemma expectedItemOf_declares config key rs name type :
  expectedItemOf config key = inr (rs, name, JStr type) ->
  declaresItemOfType config key type.
Proof.
  unfold expectedItemOf, andThen. intros H.
  destruct (get_prop config "actions") as [|actions] eqn:E1; [discriminate|].
  destruct (get_prop config "resolvers") as [|rc] eqn:E2; [discriminate|].
  destruct (get_prop actions key) as [|act] eqn:E3; [discriminate|].
  destruct (get_prop act "loop") as [|loop] eqn:E4; [discriminate|].
  destruct (get_prop loop "expected_item") as [|item] eqn:E5; [discriminate|].
  destruct (get_prop item "name") as [|nm] eqn:E6; [discriminate|].
  destruct (get_prop item "type") as [|ty] eqn:E7; [discriminate|].
  inversion H; subst. clear H.
  assert (Hitem : exists iprops, item = JObj iprops /\ lookup "type" iprops = JStr type).
  { destruct item; simpl in E7; inversion E7; eauto. }
  destruct Hitem as (iprops & -> & Ht).
  apply get_prop_object in E5. destruct E5 as (lprops & -> & Hi).
  apply get_prop_object in E4. destruct E4 as (actprops & -> & Hl).
  apply get_prop_object in E3. destruct E3 as (aprops & -> & Hact).
  apply get_prop_object in E1. destruct E1 as (cprops & -> & Ha).
  exists cprops, aprops, actprops, lprops, iprops. auto 10.
Qed.

Lemma get_prop_throws v k e :
  get_prop v k = inl e -> (exists msg, e = TypeError msg) /\ forall props, v <> JObj props.
Proof.
  destruct v; simpl; intros H; inversion H; split; eauto; intros; discriminate.
Qed.

Lemma expectedItemOf_throws config key e :
  expectedItemOf config key = inl e ->
  (exists msg, e = TypeError msg) /\ ~ declaresExpectedItem config key.
Proof.
  unfold expectedItemOf, andThen. intros H.
  assert (Hmsg : exists msg, e = TypeError msg).
  { repeat (break H; try (inversion H; subst);
            try match goal with
                | E : get_prop _ _ = inl _ |- _ => apply get_prop_throws in E; tauto
                end). }
  split; [exact Hmsg|].
  intros [type Hdecl]. destruct (declares_expectedItemOf _ _ _ Hdecl) as (rs & name & E).
  unfold expectedItemOf, andThen in E. rewrite H in E. discriminate.
Qed.

Lemma expectedItemKind_string type :
  expectedItemKind (JStr type) =
    inr (if type =? "entity" then IsEntity
         else if includes "resolver" type then IsResolver type else IsOther).
Proof. unfold expectedItemKind. simpl. destruct (type =? "entity"); reflexivity. Qed.

Lemma expectedItemKind_throws t e :
  expectedItemKind t = inl e -> (exists msg, e = TypeError msg) /\ forall type, t <> JStr type.
Proof.
  unfold expectedItemKind. intros H.
  destruct t; simpl in H; try (inversion H; split; [eauto|intros; discriminate]).
  - destruct (s =? "entity"); discriminate.
  - destruct (existsb _ _); discriminate.
Qed.

Lemma enterActionLoop_runs env u s intent d es :
  ActiveContext.intent (conv s) = Some intent ->
  ActiveContext.domain (conv s) = Some d ->
  nerReady s = true ->
  extractEntities env (brainLang s) (configPathOf env s d (hd "" (split "." intent)))
    (loopResult env u s d intent []) = inr es ->
  enterActionLoop env u s =
    (Val (hd "" (split "." intent), configPathOf env s d (hd "" (split "." intent))),
     set_nluResultObj (loopResult env u s d intent es) s).
Proof.
  intros Hint Hdom Hner Hes.
  unfold enterActionLoop, nerExtractEntities, loopResult, configPathOf in *.
  rewrite Hdom in Hes. run. rewrite Hint, Hdom. fields. rewrite Hner, Hes. fields.
  unfold with_entities.
  cbn [entities utterance currentEntities currentResolvers resolvers slots
       configDataFilePath answers classification].
  reflexivity.
Qed.

(** C10, as the code has it.  (1) When the context names an intent and a
    domain, the entity extraction succeeds, the config file is read and its
    entry for the context's action declares [loop.expected_item] with a
    string type that is 'entity', or does not contain 'resolver', or names a
    resolver classifier that is loaded, the reads of the expected item and
    the dispatch on its type succeed, and they leave the rebuilt NLU result.
    (2) With a declared string type that contains 'resolver' and names no
    loaded classifier, the dispatch itself throws a TypeError.  (3) The
    steps before the matching fail in these places only: the context has
    no intent or no domain; the NER object is missing or the extraction for
    the context's config path throws; the config file at that path cannot
    be read or parsed; or, with a TypeError, the config does not declare the
    expected item of the context's action, or declares it with a resolver
    type that names no loaded classifier.  None of them is guarded. *)
Theorem expected_item_access env u s :
  (forall intent d es config type,
     ActiveContext.intent (conv s) = Some intent ->
     ActiveContext.domain (conv s) = Some d ->
     nerReady s = true ->
     extractEntities env (brainLang s) (configPathOf env s d (hd "" (split "." intent)))
       (loopResult env u s d intent []) = inr es ->
     readJson env (configPathOf env s d (hd "" (split "." intent))) = inr config ->
     declaresItemOfType config (tpl (nth_error (split "." intent) 1)) type ->
     (type = "entity" \/ includes "resolver" type = false \/ hasClassifier s type = true ->
      exists kind,
        expectedItemKind (JStr type) = inr kind /\
        beforeMatching env u s =
          (Val kind, set_nluResultObj (loopResult env u s d intent es) s)) /\
     (type <> "entity" -> includes "resolver" type = true -> hasClassifier s type = false ->
      beforeMatching env u s =
        (Throw (TypeError
                  (if (type =? "global_resolver") || (type =? "skill_resolver")
                   then "nlpObjs[expectedItemType].process is not a function"
                   else "Cannot read properties of undefined (reading 'process')")),
         set_nluResultObj (loopResult env u s d intent es) s))) /\
  (forall e s',
     beforeMatching env u s = (Throw e, s') ->
     ActiveContext.intent (conv s) = None \/
     ActiveContext.domain (conv s) = None \/
     exists intent d,
       ActiveContext.intent (conv s) = Some intent /\
       ActiveContext.domain (conv s) = Some d /\
       let path := configPathOf env s d (hd "" (split "." intent)) in
       let key := tpl (nth_error (split "." intent) 1) in
       (nerReady s = false \/
        extractEntities env (brainLang s) path (loopResult env u s d intent []) = inl e \/
        readJson env path = inl e \/
        exists config msg,
          readJson env path = inr config /\
          e = TypeError msg /\
          (~ declaresExpectedItem config key \/
           exists type,
             declaresItemOfType config key type /\
             type <> "entity" /\
             includes "resolver" type = true /\
             hasClassifier s type = false))).
Proof.
  split.
  - intros intent d es config type Hint Hdom Hner Hes Hjson Hdecl.
    destruct (declares_expectedItemOf _ _ _ Hdecl) as (rs & name & Hitem).
    assert (Hrun : beforeMatching env u s =
              (kind <- liftE (expectedItemKind (JStr type)) ;;
               match kind with
               | IsResolver key => resolverProcess env key u ;; ret kind
               | _ => ret kind
               end) (set_nluResultObj (loopResult env u s d intent es) s)).
    { unfold beforeMatching. unfold bind at 1.
      rewrite (enterActionLoop_runs _ _ _ _ _ _ Hint Hdom Hner Hes).
      unfold bind at 1, readExpectedItem. unfold bind at 1, liftE at 1. rewrite Hjson.
      unfold bind at 1, get. unfold liftE at 1.
      cbn [nluResultObj set_nluResultObj loopResult action classification].
      rewrite Hitem. reflexivity. }
    rewrite Hrun, expectedItemKind_string. unfold liftE. split.
    + intros [->|[Hno|Hhas]].
      * simpl. unfold bind, ret. eexists. split; reflexivity.
      * rewrite Hno.
        destruct (type =? "entity"); unfold bind, ret; eexists; split; reflexivity.
      * destruct (type =? "entity"); [unfold bind, ret; eexists; split; reflexivity|].
        destruct (includes "resolver" type);
          [|unfold bind, ret; eexists; split; reflexivity].
        unfold bind, ret. cbv beta iota. rewrite resolverProcess_spec.
        assert (Hhas' : hasClassifier (set_nluResultObj (loopResult env u s d intent es) s)
                          type = true) by exact Hhas.
        rewrite Hhas'. eexists. split; reflexivity.
    + intros Hne Hres Hhas. apply String.eqb_neq in Hne. rewrite Hne, Hres.
      unfold bind, ret. cbv beta iota. rewrite resolverProcess_spec.
      assert (Hhas' : hasClassifier (set_nluResultObj (loopResult env u s d intent es) s)
                        type = false) by exact Hhas.
      rewrite Hhas'. reflexivity.
  - intros e s' H.
    destruct (ActiveContext.intent (conv s)) as [intent|] eqn:Hint; [|auto].
    destruct (ActiveContext.domain (conv s)) as [d|] eqn:Hdom; [|auto].
    right; right. exists intent, d. split; [reflexivity|]. split; [reflexivity|].
    cbv zeta.
    destruct (nerReady s) eqn:Hner; [|auto].
    destruct (extractEntities env (brainLang s)
                (configPathOf env s d (hd "" (split "." intent)))
                (loopResult env u s d intent [])) as [x|es] eqn:Hes.
    { right; left.
      unfold beforeMatching, enterActionLoop, nerExtractEntities, loopResult,
        configPathOf in *.
      rewrite Hdom in Hes. run. rewrite Hint, Hdom in H. fields.
      rewrite Hner, Hes in H. inversion H. reflexivity. }
    unfold beforeMatching in H. unfold bind at 1 in H.
    rewrite (enterActionLoop_runs _ _ _ _ _ _ Hint Hdom Hner Hes) in H.
    unfold bind at 1, readExpectedItem in H. unfold bind at 1, liftE at 1 in H.
    destruct (readJson env (configPathOf env s d (hd "" (split "." intent))))
      as [x|config] eqn:Hjson.
    { right; right; left. inversion H. reflexivity. }
    right; right; right.
    unfold bind at 1, get in H. unfold liftE at 1 in H.
    cbn [nluResultObj set_nluResultObj loopResult action classification] in H.
    destruct (expectedItemOf config (tpl (nth_error (split "." intent) 1)))
      as [x|[[rs n] t]] eqn:Hitem.
    { inversion H; subst x. destruct (expectedItemOf_throws _ _ _ Hitem) as [[msg ->] Hno].
      exists config, msg. auto. }
    unfold bind at 1, liftE in H.
    destruct (expectedItemKind t) as [x|kind] eqn:Hkind.
    { inversion H; subst x.
      destruct (expectedItemKind_throws _ _ Hkind) as [[msg ->] Hnot].
      exists config, msg. split; [reflexivity|]. split; [reflexivity|]. left.
      intros [type Hdecl]. destruct (declares_expectedItemOf _ _ _ Hdecl) as (rs' & n' & E).
      rewrite E in Hitem. inversion Hitem; subst. exact (Hnot type eq_refl). }
    destruct kind as [|key|]; try discriminate.
    unfold bind at 1 in H. rewrite resolverProcess_spec in H.
    destruct (hasClassifier _ key) eqn:Hhas; [discriminate|].
    inversion H; subst. eexists config, _. split; [reflexivity|]. split; [reflexivity|].
    destruct t as [| | | |type| |]; try (left; intros [type Hdecl];
      destruct (declares_expectedItemOf _ _ _ Hdecl) as (rs' & n' & E);
      rewrite E in Hitem; discriminate).
    right. exists type. rewrite expectedItemKind_string in Hkind.
    split; [exact (expectedItemOf_declares _ _ _ _ _ Hitem)|].
    destruct (type =? "entity") eqn:Hent; [discriminate|].
    destruct (includes "resolver" type) eqn:Hres; [|discriminate].
    inversion Hkind; subst key.
    split; [apply String.eqb_neq; exact Hent|]. split; [reflexivity|exact Hhas].
Qed.

(** *** The properties on the scenarios *)

Lemma hello_reaches_normal_path :
  reachesNormalPath Scenario.env (Some "Hello Leon") Scenario.loaded "None" "None"
    Scenario.helloExtracted Scenario.helloRouted.
Proof.
  exists "en", Scenario.helloClassified, Scenario.helloMatched.
  split; [|split; [reflexivity|split; [reflexivity|split; [|split; [|split]]]]].
  - split; [reflexivity|]. exists (set_clock 1 Scenario.loaded).
    repeat split; reflexivity.
  - right. split; [reflexivity|]. do 2 eexists.
    split; [reflexivity|vm_compute; reflexivity].
  - vm_compute; reflexivity.
  - vm_compute; reflexivity.
  - vm_compute; reflexivity.
Defined.

(** Witness for C1: "Hello Leon", no intent found, the row
    ["hello", "leon"] matches. *)
Lemma fallback_result_handed_to_brain_witness :
  let u := Some "Hello Leon" in
  let fallbacks := [Fallback.mk ["hello"; "leon"] "greetings" "hello" "run"] in
  let matched := nluResultObj Scenario.helloMatched in
  classified Scenario.env u Scenario.loaded "en" "None" "None" Scenario.helloClassified /\
  fallback Scenario.env fallbacks Scenario.helloClassified
    = (Val (Some matched), Scenario.helloMatched) /\
  locateAndExtract Scenario.env Scenario.helloMatched = (Val tt, Scenario.helloExtracted) /\
  routeSlotFilling Scenario.env "None" Scenario.helloExtracted
    = (Val false, Scenario.helloRouted) /\
  activate Scenario.env "None" "None" Scenario.helloRouted
    = (Val tt, Scenario.helloActivated) /\
  exists spoken fb inherited,
    u = Some spoken /\
    In fb fallbacks /\
    (forall w, In w (Fallback.words fb) ->
               arr_includes (tokens Scenario.env spoken) w = true) /\
    classification matched =
      {| domain := Some (Fallback.domain fb); skill := Some (Fallback.skill fb);
         action := Some (Fallback.action fb); confidence := Some 1%Q |} /\
    entities matched = [] /\
    classification (nluResultObj Scenario.helloActivated) = classification matched /\
    entities (nluResultObj Scenario.helloActivated)
      = ActiveContext.entities (conv Scenario.helloActivated) /\
    ActiveContext.entities (conv Scenario.helloActivated)
      = (inherited ++ entities (nluResultObj Scenario.helloExtracted))%list /\
    (let path :=
       configPathOf Scenario.env Scenario.loaded (Fallback.domain fb) (Fallback.skill fb) in
     entities (nluResultObj Scenario.helloExtracted) =
       if nerReady Scenario.loaded then
         match extractEntities Scenario.env (brainLang Scenario.loaded) path
                 (with_configDataFilePath (Some path) matched) with
         | inr es => es
         | inl _ => []
         end
       else []) /\
    In (Execute (nluResultObj Scenario.helloActivated))
       (trace (snd (process Scenario.env 1 (Some "Hello Leon") Scenario.loaded))).
Proof.
  intros u fallbacks matched.
  assert (Hcls : classified Scenario.env u Scenario.loaded "en" "None" "None"
                   Scenario.helloClassified).
  { split; [reflexivity|]. exists (set_clock 1 Scenario.loaded).
    repeat split; reflexivity. }
  assert (Hfb : fallback Scenario.env fallbacks Scenario.helloClassified
                = (Val (Some matched), Scenario.helloMatched))
    by (vm_compute; reflexivity).
  assert (Hner : locateAndExtract Scenario.env Scenario.helloMatched
                 = (Val tt, Scenario.helloExtracted)) by (vm_compute; reflexivity).
  assert (Hroute : routeSlotFilling Scenario.env "None" Scenario.helloExtracted
                   = (Val false, Scenario.helloRouted)) by (vm_compute; reflexivity).
  assert (Hact : activate Scenario.env "None" "None" Scenario.helloRouted
                 = (Val tt, Scenario.helloActivated)) by (vm_compute; reflexivity).
  split; [exact Hcls|]. split; [exact Hfb|]. split; [exact Hner|].
  split; [exact Hroute|]. split; [exact Hact|].
  refine (fallback_result_handed_to_brain Scenario.env 0 u Scenario.loaded "en" "None"
            Scenario.helloClassified fallbacks matched Scenario.helloMatched
            Scenario.helloExtracted Scenario.helloRouted Scenario.helloActivated
            Hcls eq_refl eq_refl eq_refl Hfb Hner Hroute _ Hact).
  vm_compute; reflexivity.
Defined.

(** C1, counterexample: the classifier finds no intent for "Hello Leon", the
    fallback row matches and its result has no entities; the NLU result that
    [process] then hands to the Brain, and keeps, has confidence 1 and one
    entity, the person that the NER gateway extracted. *)
Lemma process_fallback_match_has_entities :
  let u := Some "Hello Leon" in
  let final := snd (process Scenario.env 1 u Scenario.loaded) in
  NlpResult.intent (mainNlpProcess Scenario.env u) = "None" /\
  (exists matched,
     fst (fallback Scenario.env [Fallback.mk ["hello"; "leon"] "greetings" "hello" "run"]
            Scenario.helloClassified) = Val (Some matched) /\
     entities matched = []) /\
  trace final = [Execute (nluResultObj final)] /\
  confidence (classification (nluResultObj final)) = Some 1%Q /\
  entities (nluResultObj final) = [Entity.mk "person" "leon"] /\
  entities (nluResultObj final) <> [].
Proof.
  split; [vm_compute; reflexivity|].
  split; [eexists; split; vm_compute; reflexivity|].
  split; [vm_compute; reflexivity|]. split; [vm_compute; reflexivity|].
  split; [vm_compute; reflexivity|].
  vm_compute. discriminate.
Qed.

(** Witness for C3: the shopping list is the active context; "delete it"
    scores 0.72 for the to-do list and 0.68 for the shopping list. *)
Lemma context_biased_repick_witness :
  let s := set_conv Scenario.shoppingContext Scenario.loaded in
  let s1 := snd (classify Scenario.twoLists (Some "delete it") (set_clock 1 s)) in
  classified Scenario.twoLists (Some "delete it") s "en" "list.delete" "list" s1 /\
  ActiveContext.name (conv s) = Some ("shopping" ++ "." ++ "list") /\
  no_dot "list" /\
  domain (classification (nluResultObj s1)) = Some "shopping" /\
  skill (classification (nluResultObj s1)) = Some "list" /\
  "list" = "list".
Proof.
  intros s s1.
  assert (Hcls : classified Scenario.twoLists (Some "delete it") s "en" "list.delete"
                   "list" s1).
  { split; [reflexivity|]. exists (set_clock 1 s). repeat split; reflexivity. }
  split; [exact Hcls|]. split; [reflexivity|].
  split; [exact (first_segment_no_dot "list")|].
  apply (proj1 (context_biased_repick Scenario.twoLists (Some "delete it") s "en"
                  "list.delete" "list" s1 "shopping" "list" Hcls eq_refl
                  (first_segment_no_dot "list"))).
  exists ("list.delete", (68 # 100)%Q).
  split; [right; left; reflexivity|]. split; reflexivity.
Defined.

(** Witness for C5: the only slot is filled and the context has a next
    action. *)
Lemma slotFill_all_filled_witness :
  let s := set_conv (Scenario.addItemContext (Some "add")) Scenario.loaded in
  let path := "/leon/skills/shopping/list/config/en.json" in
  let r := slotFillResult (contextAtCheck [Entity.mk "person" "leon"] s) "list" path in
  utterance r = Some "add to my shopping list" /\
  action (classification r) = Some "add" /\
  confidence (classification r) = Some 1%Q /\
  exists s',
    slotFill Scenario.env (Some "milk") s =
      (match brainExecute Scenario.env r with
       | inr processedData => Val (Some processedData)
       | inl e => Throw e
       end, s') /\
    Conversation.hasActiveContext (conv s') = false /\
    nluResultObj s' = r /\
    trace s' = (trace s ++ [Execute r])%list.
Proof.
  intros s path r.
  exact (slotFill_all_filled Scenario.env (Some "milk") s "list.add" "shopping"
           [Entity.mk "person" "leon"] eq_refl eq_refl eq_refl eq_refl eq_refl eq_refl).
Defined.

(** C5, counterexample: the only slot of the context is filled but the
    context has no next action; [slotFill] returns null at once: no NLU
    result is built, the context is not cleared, the Brain is not called. *)
Lemma slotFill_without_next_action :
  let s := set_conv (Scenario.addItemContext None) Scenario.loaded in
  Conversation.areSlotsAllFilled (conv s) = true /\
  slotFill Scenario.env (Some "milk") s = (Val None, s).
Proof. split; reflexivity. Qed.

(** Witness for C6: the guessing game expects a number, the utterance
    "hello leon" has none. *)
Lemma handleActionLoop_out_of_topic_witness :
  let s := set_conv Scenario.guessContext Scenario.loaded in
  let u := Some "hello leon" in
  let path := "/leon/skills/games/number/config/en.json" in
  let s1 := snd (enterActionLoop Scenario.env u s) in
  let cleared := set_conv Conversation.defaultActiveContext (add_event outOfTopic s1) in
  enterActionLoop Scenario.env u s = (Val ("number", path), s1) /\
  readExpectedItem Scenario.env path s1 = (Val (JObj [], JStr "number", JStr "entity"), s1) /\
  matchExpectedItem Scenario.env u "number" (JObj []) (JStr "number") (JStr "entity") s1
    = (Val (false, false), s1) /\
  trace cleared = (trace s ++ [outOfTopic])%list /\
  Conversation.hasActiveContext (conv cleared) = false /\
  handleActionLoop Scenario.env (process Scenario.env 1) u s =
    match process Scenario.env 1 u cleared with
    | (Val _, s') => (Val ONull, s')
    | (Throw e, s') => (Throw e, s')
    | (Hang, s') => (Hang, s')
    | (NoFuel, s') => (NoFuel, s')
    end.
Proof.
  intros s u path s1 cleared.
  split; [reflexivity|]. split; [reflexivity|]. split; [reflexivity|].
  exact (handleActionLoop_out_of_topic Scenario.env 1 u s "number" path s1 (JObj [])
           (JStr "number") (JStr "entity") s1 s1 eq_refl eq_refl eq_refl).
Defined.

(** C6, counterexample: the same turn with a skill that crashes.  Neither
    the entity nor a resolver matches; the re-entered [process] takes the
    fallback row, calls the Brain, and rejects; the handler does not return
    null, it rejects with the same error. *)
Lemma handleActionLoop_rejects_when_reentry_rejects :
  let s := set_conv Scenario.guessContext Scenario.loaded in
  let u := Some "hello leon" in
  let s1 := snd (enterActionLoop Scenario.crashingSkill u s) in
  let final := handleActionLoop Scenario.crashingSkill (process Scenario.crashingSkill 1) u s in
  matchExpectedItem Scenario.crashingSkill u "number" (JObj []) (JStr "number")
    (JStr "entity") s1 = (Val (false, false), s1) /\
  fst final = Throw (ErrorObj (Some "skill crashed")) /\
  fst final <> Val ONull /\
  exists r, In (Execute r) (trace (snd final)).
Proof.
  split; [reflexivity|]. split; [reflexivity|]. split; [vm_compute; discriminate|].
  eexists. vm_compute. right. left. reflexivity.
Qed.

Lemma gibberish_classified :
  classified Scenario.env (Some "asdfghjkl") Scenario.loaded "en" "None" "None"
    (snd (classify Scenario.env (Some "asdfghjkl") (set_clock 1 Scenario.loaded))).
Proof.
  split; [reflexivity|]. exists (set_clock 1 Scenario.loaded). repeat split; reflexivity.
Defined.

(** Witness for C7: "asdfghjkl", no intent, no fallback row. *)
Lemma intent_not_found_witness :
  let u := Some "asdfghjkl" in
  let s1 := snd (classify Scenario.env u (set_clock 1 Scenario.loaded)) in
  classified Scenario.env u Scenario.loaded "en" "None" "None" s1 /\
  arr_includes (getShortCodes Scenario.env) "en" = true /\
  brainLang Scenario.loaded = "en" /\
  fallback Scenario.env [Fallback.mk ["hello"; "leon"] "greetings" "hello" "run"] s1 = (Val None, s1) /\
  exists s' spacy,
    process Scenario.env 1 u Scenario.loaded = (Val (ONotFound 10 "Intent not found"), s') /\
    getSpacyEntities Scenario.env u = inr spacy /\
    trace s' = (trace Scenario.loaded ++
                map (fun e => AddEntities e (brainLang Scenario.loaded)) spacy ++
                unknownIntentEvents false)%list.
Proof.
  intros u s1.
  split; [exact gibberish_classified|]. split; [reflexivity|]. split; [reflexivity|].
  split; [reflexivity|].
  exact (intent_not_found Scenario.env 0 u Scenario.loaded "en" "None" s1
           [Fallback.mk ["hello"; "leon"] "greetings" "hello" "run"] s1
           gibberish_classified eq_refl eq_refl eq_refl eq_refl).
Defined.

(** C7, counterexample: the same turn with a muted Brain.  The models are
    loaded, the locale is supported and current, the intent is 'None', the
    fallback matcher answers "not matched"; the call resolves with "Intent
    not found" and nothing is spoken. *)
Lemma intent_not_found_muted_is_silent :
  let u := Some "asdfghjkl" in
  let s := Scenario.loadedMuted in
  let s1 := snd (classify Scenario.env u (set_clock 1 s)) in
  let final := process Scenario.env 1 u s in
  classified Scenario.env u s "en" "None" "None" s1 /\
  arr_includes (getShortCodes Scenario.env) "en" = true /\
  brainLang s = "en" /\
  fallback Scenario.env [Fallback.mk ["hello"; "leon"] "greetings" "hello" "run"] s1 = (Val None, s1) /\
  fst final = Val (ONotFound 10 "Intent not found") /\
  trace (snd final) = [] /\
  ~ In (Talk (Wernicke "random_unknown_intents" ".") true) (trace (snd final)).
Proof.
  split; [|split; [reflexivity|split; [reflexivity|split; [reflexivity|
          split; [reflexivity|split; [reflexivity|intros []]]]]]].
  split; [reflexivity|]. exists (set_clock 1 Scenario.loadedMuted).
  repeat split; reflexivity.
Qed.

(** Witness for C9: "Hello Leon"; the clock reads 100 on entry and 110 on
    return, the Brain reports 5 ms. *)
Lemma nluProcessingTime_excludes_execution_witness :
  reachesNormalPath Scenario.env (Some "Hello Leon") Scenario.loaded "None" "None"
    Scenario.helloExtracted Scenario.helloRouted /\
  activate Scenario.env "None" "None" Scenario.helloRouted
    = (Val tt, Scenario.helloActivated) /\
  (exists pd,
     brainExecute Scenario.env (nluResultObj Scenario.helloActivated) = inr pd /\
     Processed.executionTime pd = Some 5%Z /\
     exists s',
       process Scenario.env 1 (Some "Hello Leon") Scenario.loaded =
         (Val (OTimed 10 pd (Some 5%Z)), s') /\
       clock s' = 2 /\
       In (Execute (nluResultObj Scenario.helloActivated)) (trace s')).
Proof.
  split; [exact hello_reaches_normal_path|]. split; [reflexivity|].
  eexists. split; [reflexivity|]. split; [reflexivity|].
  refine (nluProcessingTime_excludes_execution Scenario.env 0 (Some "Hello Leon")
            Scenario.loaded "None" "None" Scenario.helloExtracted Scenario.helloRouted
            Scenario.helloActivated _ hello_reaches_normal_path eq_refl eq_refl _).
  intros H. exfalso. apply H. reflexivity.
Defined.

Lemma guessConfig_declares : declaresItemOfType Scenario.guessConfig "guess" "entity".
Proof. unfold declaresItemOfType. do 5 eexists. repeat split; reflexivity. Defined.

(** Witness for C10: the guessing game's config declares the expected item
    of the action "guess", with the type 'entity'. *)
Lemma expected_item_access_witness :
  let s := set_conv Scenario.guessContext Scenario.loaded in
  let u := Some "7" in
  let path := "/leon/skills/games/number/config/en.json" in
  let es := [Entity.mk "person" "leon"] in
  ActiveContext.intent (conv s) = Some "number.guess" /\
  ActiveContext.domain (conv s) = Some "games" /\
  configPathOf Scenario.env s "games" "number" = path /\
  extractEntities Scenario.env (brainLang s) path
    (loopResult Scenario.env u s "games" "number.guess" []) = inr es /\
  readJson Scenario.env path = inr Scenario.guessConfig /\
  declaresItemOfType Scenario.guessConfig "guess" "entity" /\
  exists kind,
    expectedItemKind (JStr "entity") = inr kind /\
    beforeMatching Scenario.env u s =
      (Val kind,
       set_nluResultObj (loopResult Scenario.env u s "games" "number.guess" es) s).
Proof.
  intros s u path es.
  split; [reflexivity|]. split; [reflexivity|]. split; [vm_compute; reflexivity|].
  split; [reflexivity|]. split; [reflexivity|]. split; [exact guessConfig_declares|].
  refine (proj1 (proj1 (expected_item_access Scenario.env u s) "number.guess" "games" es
                   Scenario.guessConfig "entity" eq_refl eq_refl _ eq_refl eq_refl
                   guessConfig_declares) (or_introl eq_refl)).
  vm_compute; reflexivity.
Defined.

(** C10, counterexample.  (a) The config declares the expected item, with
    a string type, and can be read; the handler still fails before the
    matching, and before it reads the config: the NER gateway threw, and
    nothing in [handleActionLoop] catches that.  (b) The config declares the
    expected item with the string type "custom_resolver"; the reads succeed
    and the dispatch on the type throws the TypeError of an undefined
    access. *)
Lemma handleActionLoop_fails_before_the_access :
  let s := set_conv Scenario.guessContext Scenario.loaded in
  let u := Some "7" in
  let path := "/leon/skills/games/number/config/en.json" in
  let thrown := NerError "error" "random_ner_type_not_supported"
                  (Some (Some "entity type not supported")) in
  let undefinedAccess :=
    TypeError "Cannot read properties of undefined (reading 'process')" in
  (readJson Scenario.failingNer path = inr Scenario.guessConfig /\
   declaresExpectedItem Scenario.guessConfig "guess" /\
   fst (enterActionLoop Scenario.failingNer u s) = Throw thrown /\
   fst (beforeMatching Scenario.failingNer u s) = Throw thrown /\
   fst (handleActionLoop Scenario.failingNer (process Scenario.failingNer 1) u s)
     = Throw thrown) /\
  (readJson Cases.customResolver path = inr Cases.customConfig /\
   declaresItemOfType Cases.customConfig "guess" "custom_resolver" /\
   (exists rs name,
      expectedItemOf Cases.customConfig "guess" = inr (rs, name, JStr "custom_resolver")) /\
   fst (beforeMatching Cases.customResolver u s) = Throw undefinedAccess /\
   fst (handleActionLoop Cases.customResolver (process Cases.customResolver 1) u s)
     = Throw undefinedAccess).
Proof.
  split.
  - split; [reflexivity|]. split; [exists "entity"; exact guessConfig_declares|].
    split; [reflexivity|]. split; reflexivity.
  - split; [reflexivity|].
    split; [unfold declaresItemOfType; do 5 eexists; repeat split; reflexivity|].
    split; [do 2 eexists; reflexivity|]. split; vm_compute; reflexivity.
Qed.

(** ** Further properties *)

(** *** The fallback matcher, row by row *)

Lemma filter_all {A} (f : A -> bool) (l : list A) :
  (forall x, In x l -> f x = true) -> filter f l = l.
Proof.
  induction l as [|a l IH]; simpl; intros H; [reflexivity|].
  rewrite (H a) by (left; reflexivity). f_equal. apply IH. intros x Hx. apply H. right. exact Hx.
Qed.

Lemma filter_none {A} (f : A -> bool) (l : list A) :
  (forall x, In x l -> f x = false) -> filter f l = [].
Proof.
  induction l as [|a l IH]; simpl; intros H; [reflexivity|].
  rewrite (H a) by (left; reflexivity). apply IH. intros x Hx. apply H. right. exact Hx.
Qed.

(** Once the accumulator holds a word, no row matches any more. *)
Lemma fallback_scan_poisoned words fallbacks :
  forall tmpWords,
    tmpWords <> [] ->
    (forall w, In w tmpWords -> arr_includes words w = true) ->
    fallback_scan words tmpWords fallbacks = None.
Proof.
  induction fallbacks as [|x rest IH]; intros tmp Hne Hin; simpl; [reflexivity|].
  assert (Hacc : forall w,
             In w (tmp ++ filter (arr_includes words) (Fallback.words x))%list ->
             arr_includes words w = true).
  { intros w Hw. apply in_app_or in Hw. destruct Hw as [Hw|Hw]; [auto|].
    apply filter_In in Hw. tauto. }
  destruct (list_eq_dec string_dec _ (Fallback.words x)) as [Heq|Hneq].
  - exfalso. rewrite Heq in Hacc. rewrite (filter_all _ _ Hacc) in Heq.
    apply (f_equal (@length string)) in Heq. rewrite length_app in Heq.
    destruct tmp; [congruence|]. simpl in Heq. lia.
  - apply IH; [|exact Hacc]. destruct tmp; [congruence|discriminate].
Qed.

Lemma fallback_scan_skips words pre :
  (forall x, In x pre -> untouched words x) ->
  forall rest, fallback_scan words [] (pre ++ rest) = fallback_scan words [] rest.
Proof.
  induction pre as [|x pre IH]; intros Hpre rest; simpl; [reflexivity|].
  destruct (Hpre x (or_introl eq_refl)) as [Hne Hnone].
  rewrite (filter_none _ _ Hnone).
  destruct (list_eq_dec string_dec [] (Fallback.words x)) as [Heq|_]; [congruence|].
  apply IH. intros y Hy. apply Hpre. right. exact Hy.
Qed.

Lemma fallback_run env fallbacks s u :
  utterance (nluResultObj s) = Some u ->
  fallback env fallbacks s =
  match fallback_scan (tokens env u) [] fallbacks with
  | Some fb => (Val (Some (fallbackResult fb (nluResultObj s))),
                set_nluResultObj (fallbackResult fb (nluResultObj s)) s)
  | None => (Val None, s)
  end.
Proof.
  intros Hu. unfold fallback, bind, get, require, modify, ret, tokens, fallbackResult.
  rewrite Hu. destruct fallbacks as [|x rest]; [reflexivity|].
  simpl (0 <? _)%nat. cbv iota.
  destruct (fallback_scan _ _ _); reflexivity.
Qed.

(** The loop returns [fb] exactly when [fb] stands after rows that are not
    found at all and is itself found in full. *)
Lemma fallback_scan_first_clean_full_row words fallbacks fb :
  fallback_scan words [] fallbacks = Some fb <->
  exists pre rest,
    fallbacks = (pre ++ fb :: rest)%list /\
    (forall x, In x pre -> untouched words x) /\
    (forall w, In w (Fallback.words fb) -> arr_includes words w = true).
Proof.
  split.
  - induction fallbacks as [|x l IH]; simpl; [discriminate|].
    destruct (list_eq_dec string_dec _ (Fallback.words x)) as [Heq|Hneq].
    + intros H. inversion H; subst x. exists [], l. split; [reflexivity|].
      split; [intros y []|]. intros w Hw. rewrite <- Heq in Hw.
      apply filter_In in Hw. tauto.
    + destruct (filter (arr_includes words) (Fallback.words x)) as [|w0 f] eqn:Hf.
      * intros Hscan. destruct (IH Hscan) as (pre & rest & -> & Hpre & Hall).
        exists (x :: pre), rest. split; [reflexivity|]. split; [|exact Hall].
        intros y [<-|Hy]; [|auto]. split.
        -- intros E. apply Hneq. rewrite E. reflexivity.
        -- intros w Hw. destruct (arr_includes words w) eqn:E; [|reflexivity].
           assert (Hin : In w (filter (arr_includes words) (Fallback.words x)))
             by (apply filter_In; auto).
           rewrite Hf in Hin. destruct Hin.
      * intros Hscan. rewrite fallback_scan_poisoned in Hscan; [discriminate|discriminate|].
        intros w Hw. rewrite <- Hf in Hw. apply filter_In in Hw. tauto.
  - intros (pre & rest & -> & Hpre & Hall).
    rewrite (fallback_scan_skips _ _ Hpre). simpl. rewrite (filter_all _ _ Hall).
    destruct (list_eq_dec string_dec _ _); [reflexivity|congruence].
Qed.

(** X1: for an utterance [u], [fallback] returns a result exactly when the
    table has a row all of whose words are tokens of the lowercased
    utterance, standing after rows none of whose words is a token; the
    result is then that row's classification with confidence 1 and no
    entities, stored in the NLU result.  (A row without words counts as
    found in full.) *)
Theorem fallback_returns_first_clean_full_row env fallbacks s u r s' :
  utterance (nluResultObj s) = Some u ->
  fallback env fallbacks s = (Val (Some r), s') <->
  exists pre fb rest,
    fallbacks = (pre ++ fb :: rest)%list /\
    (forall x, In x pre -> untouched (tokens env u) x) /\
    (forall w, In w (Fallback.words fb) -> arr_includes (tokens env u) w = true) /\
    r = fallbackResult fb (nluResultObj s) /\
    s' = set_nluResultObj r s.
Proof.
  intros Hu. rewrite (fallback_run _ _ _ _ Hu). split.
  - destruct (fallback_scan (tokens env u) [] fallbacks) as [fb|] eqn:Hscan; [|discriminate].
    intros H. inversion H; subst. clear H.
    apply fallback_scan_first_clean_full_row in Hscan.
    destruct Hscan as (pre & rest & -> & Hpre & Hall).
    exists pre, fb, rest. auto.
  - intros (pre & fb & rest & -> & Hpre & Hall & -> & ->).
    assert (Hscan : fallback_scan (tokens env u) [] (pre ++ fb :: rest) = Some fb).
    { apply fallback_scan_first_clean_full_row. exists pre, rest. auto. }
    rewrite Hscan. reflexivity.
Qed.

Lemma fallback_returns_first_clean_full_row_witness :
  let s := Scenario.heard Cases.ecoleSpoken Scenario.start in
  let r := fallbackResult Cases.ecoleRow (nluResultObj s) in
  utterance (nluResultObj s) = Some Cases.ecoleSpoken /\
  has_upper Cases.ecoleSpoken = false /\
  tokens Cases.accents Cases.ecoleSpoken = Fallback.words Cases.ecoleRow /\
  tokens Cases.accents Cases.ecoleSpoken <> [Cases.ecoleSpoken] /\
  fallback Cases.accents [Cases.ecoleRow] s = (Val (Some r), set_nluResultObj r s).
Proof.
  intros s r.
  split; [reflexivity|]. split; [vm_compute; reflexivity|].
  split; [vm_compute; reflexivity|]. split; [vm_compute; discriminate|].
  apply (proj2 (fallback_returns_first_clean_full_row Cases.accents [Cases.ecoleRow] s
                  Cases.ecoleSpoken r (set_nluResultObj r s) eq_refl)).
  exists [], Cases.ecoleRow, []. split; [reflexivity|]. split; [intros x []|].
  split; [|split; reflexivity].
  intros w [<-|[]]. vm_compute; reflexivity.
Defined.

(** X2: a row that is found in part (one of its words is a token of the
    utterance, another is not), standing after rows that are not found at
    all, makes [fallback] answer "not matched", whatever rows follow; the
    state is left as it was. *)
Theorem fallback_partial_match_blocks_table env pre x rest s u :
  utterance (nluResultObj s) = Some u ->
  (forall y, In y pre -> untouched (tokens env u) y) ->
  (exists w, In w (Fallback.words x) /\ arr_includes (tokens env u) w = true) ->
  (exists w, In w (Fallback.words x) /\ arr_includes (tokens env u) w = false) ->
  fallback env (pre ++ x :: rest)%list s = (Val None, s).
Proof.
  intros Hu Hpre (w1 & Hw1 & Hin1) (w2 & Hw2 & Hout2).
  rewrite (fallback_run _ _ _ _ Hu), (fallback_scan_skips _ _ Hpre). simpl.
  destruct (list_eq_dec string_dec _ (Fallback.words x)) as [Heq|_].
  - exfalso. rewrite <- Heq in Hw2. apply filter_In in Hw2. destruct Hw2. congruence.
  - rewrite fallback_scan_poisoned; [reflexivity| |].
    + intros E. assert (Hin : In w1 (filter (arr_includes (tokens env u)) (Fallback.words x)))
        by (apply filter_In; auto).
      rewrite E in Hin. destruct Hin.
    + intros w Hw. apply filter_In in Hw. tauto.
Qed.

Lemma fallback_partial_match_blocks_table_witness :
  let s := Scenario.heard "hello" Scenario.start in
  utterance (nluResultObj s) = Some "hello" /\
  (exists w, In w (Fallback.words Cases.helloRow) /\ arr_includes (tokens Scenario.env "hello") w = true) /\
  (exists w, In w (Fallback.words Cases.helloRow) /\ arr_includes (tokens Scenario.env "hello") w = false) /\
  fallback Scenario.env ([] ++ Cases.helloRow :: [Cases.waveRow])%list s = (Val None, s).
Proof.
  assert (H1 : exists w, In w (Fallback.words Cases.helloRow) /\
                         arr_includes (tokens Scenario.env "hello") w = true).
  { exists "hello". split; [left; reflexivity|vm_compute; reflexivity]. }
  assert (H2 : exists w, In w (Fallback.words Cases.helloRow) /\
                         arr_includes (tokens Scenario.env "hello") w = false).
  { exists "leon". split; [right; left; reflexivity|vm_compute; reflexivity]. }
  split; [reflexivity|]. split; [exact H1|]. split; [exact H2|].
  apply (fallback_partial_match_blocks_table Scenario.env [] Cases.helloRow [Cases.waveRow]
           (Scenario.heard "hello" Scenario.start) "hello" eq_refl); [|exact H1|exact H2].
  intros y [].
Defined.

Lemma lower_ascii_not_upper c : is_upper (lower_ascii c) = false.
Proof.
  destruct c as [[] [] [] [] [] [] [] []]; reflexivity.
Qed.

Lemma lowerAscii_no_upper s : has_upper (lowerAscii s) = false.
Proof.
  induction s as [|c s IH]; simpl; [reflexivity|].
  rewrite lower_ascii_not_upper, IH. reflexivity.
Qed.

Lemma toLowerCase_no_upper fold s : has_upper (toLowerCase fold s) = false.
Proof. apply lowerAscii_no_upper. Qed.

Lemma split_no_upper sep s :
  has_upper s = false -> forall w, In w (split sep s) -> has_upper w = false.
Proof.
  induction s as [|c s IH]; simpl; intros H w Hw.
  - destruct Hw as [<-|[]]. reflexivity.
  - apply orb_false_iff in H. destruct H as [Hc Hs].
    destruct (Ascii.eqb c sep).
    + destruct Hw as [<-|Hw]; [reflexivity|auto].
    + destruct (split sep s) as [|h t] eqn:E.
      * destruct Hw as [<-|[]]. simpl. rewrite Hc. reflexivity.
      * destruct Hw as [<-|Hw].
        -- simpl. rewrite Hc. simpl. apply IH; [exact Hs|left; reflexivity].
        -- apply IH; [exact Hs|right; exact Hw].
Qed.

Lemma arr_includes_In words w : arr_includes words w = true <-> In w words.
Proof.
  unfold arr_includes. rewrite existsb_exists. split.
  - intros (x & Hx & E). apply String.eqb_eq in E. subst. exact Hx.
  - intros H. exists w. split; [exact H|apply String.eqb_refl].
Qed.

(** X3: the utterance is lowercased, the rows are not: a row that
    [fallback] returns has no word with an ASCII capital. *)
Theorem fallback_rows_with_capitals_never_match env fallbacks s r s' :
  fallback env fallbacks s = (Val (Some r), s') ->
  exists fb,
    In fb fallbacks /\
    r = fallbackResult fb (nluResultObj s) /\
    forall w, In w (Fallback.words fb) -> has_upper w = false.
Proof.
  intros H. destruct (fallback_match _ _ _ _ _ H) as (u & fb & Hu & Hin & Hall & Hr & _).
  exists fb. split; [exact Hin|]. split; [exact Hr|].
  intros w Hw. apply Hall, arr_includes_In in Hw.
  exact (split_no_upper _ _ (toLowerCase_no_upper _ u) _ Hw).
Qed.

Lemma fallback_rows_with_capitals_never_match_witness :
  let s := Scenario.heard "Hello Leon" Scenario.start in
  let r := fallbackResult Cases.helloRow (nluResultObj s) in
  fallback Scenario.env [Cases.helloRow] s = (Val (Some r), set_nluResultObj r s) /\
  exists fb,
    In fb [Cases.helloRow] /\
    r = fallbackResult fb (nluResultObj s) /\
    forall w, In w (Fallback.words fb) -> has_upper w = false.
Proof.
  intros s r.
  assert (H : fallback Scenario.env [Cases.helloRow] s = (Val (Some r), set_nluResultObj r s))
    by (vm_compute; reflexivity).
  split; [exact H|].
  exact (fallback_rows_with_capitals_never_match Scenario.env [Cases.helloRow] s r _ H).
Defined.

(** *** The context-biased choice, case by case *)

(** X4: with an active context, the classification that is chosen is the
    last one in the classifier's list that scores above 0.6 and belongs to
    the context, whatever the scores of the matching ones before it. *)
Theorem repick_last_match_wins env c result n pre x rest :
  ActiveContext.name c = Some n ->
  NlpResult.classifications result = (pre ++ x :: rest)%list ->
  matchesContext env n (NlpResult.locale result) x ->
  (forall y, In y rest -> ~ matchesContext env n (NlpResult.locale result) y) ->
  chooseClassification env c result =
    (snd x, fst x, getIntentDomain env (NlpResult.locale result) (fst x)).
Proof.
  intros Hn Hl Hx Hrest.
  unfold chooseClassification, Conversation.hasActiveContext. rewrite Hn, Hl.
  rewrite fold_left_app. simpl.
  rewrite (proj1 (repick_spec env n (NlpResult.locale result) _ x) Hx).
  apply (proj2 (repick_fold env n (NlpResult.locale result) rest _)). exact Hrest.
Qed.

Lemma repick_last_match_wins_witness :
  let result := mainNlpProcess Cases.twoMatches (Some "remove it") in
  ActiveContext.name Scenario.shoppingContext = Some "shopping.list" /\
  NlpResult.classifications result
    = ([("list.delete", (9 # 10)%Q)] ++ ("list.remove", (7 # 10)%Q) :: [])%list /\
  matchesContext Cases.twoMatches "shopping.list" "en" ("list.remove", (7 # 10)%Q) /\
  chooseClassification Cases.twoMatches Scenario.shoppingContext result
    = ((7 # 10)%Q, "list.remove", "shopping").
Proof.
  assert (Hm : matchesContext Cases.twoMatches "shopping.list" "en"
                 ("list.remove", (7 # 10)%Q)) by (split; reflexivity).
  split; [reflexivity|]. split; [reflexivity|]. split; [exact Hm|].
  apply (repick_last_match_wins Cases.twoMatches Scenario.shoppingContext
           (mainNlpProcess Cases.twoMatches (Some "remove it")) "shopping.list"
           [("list.delete", (9 # 10)%Q)] ("list.remove", (7 # 10)%Q) []
           eq_refl eq_refl Hm).
  intros y [].
Defined.

(** X5: the threshold is strict: when no classification scores above 0.6,
    the classifier's own top result is kept, with or without an active
    context. *)
Theorem repick_needs_score_above_threshold env c result :
  (forall y, In y (NlpResult.classifications result) -> (snd y <= threshold)%Q) ->
  chooseClassification env c result =
    (NlpResult.score result, NlpResult.intent result, NlpResult.domain result).
Proof.
  intros Hall. unfold chooseClassification, Conversation.hasActiveContext.
  destruct (ActiveContext.name c) as [n|]; [|reflexivity].
  apply (proj2 (repick_fold env n (NlpResult.locale result) _ _)).
  intros y Hy [Hlt _]. exact (Qlt_not_le _ _ Hlt (Hall y Hy)).
Qed.

Lemma repick_needs_score_above_threshold_witness :
  (forall y, In y (NlpResult.classifications Cases.borderline) -> (snd y <= threshold)%Q) /\
  chooseClassification Cases.twoMatches Scenario.shoppingContext Cases.borderline
    = ((6 # 10)%Q, "todo.delete", "productivity").
Proof.
  assert (H : forall y, In y (NlpResult.classifications Cases.borderline) ->
                        (snd y <= threshold)%Q).
  { intros y [<-|[<-|[]]]; vm_compute; discriminate. }
  split; [exact H|].
  exact (repick_needs_score_above_threshold Cases.twoMatches Scenario.shoppingContext
           Cases.borderline H).
Defined.

(** *** Reading the skill config *)

(** X6: on a JSON array, the filter of line 811 throws a TypeError exactly
    when an element is null or undefined; otherwise it keeps, in order, the
    elements whose [name] is the wanted string. *)
Theorem filterByName_keeps_named items wanted :
  match filterByName items wanted with
  | inr kept => existsb nullish items = false /\ kept = filter (namedLike wanted) items
  | inl e => existsb nullish items = true /\ exists msg, e = TypeError msg
  end.
Proof.
  induction items as [|x l IH]; simpl; [auto|].
  unfold namedLike at 1.
  destruct (get_prop x "name") as [e|v] eqn:Hx.
  - destruct (get_prop_throws _ _ _ Hx) as [Hmsg _].
    destruct x; simpl in Hx; try discriminate; auto.
  - assert (Hn : nullish x = false) by (destruct x; simpl in Hx; try discriminate; reflexivity).
    rewrite Hn. simpl.
    destruct (filterByName l wanted) as [e|kept].
    + exact IH.
    + destruct IH as [H1 H2]. split; [exact H1|].
      destruct (is_str v wanted); congruence.
Qed.

(** *** Matching the expected item *)

Lemma is_str_eq v s : is_str v s = true -> v = JStr s.
Proof.
  destruct v; simpl; try discriminate. intros H. apply String.eqb_eq in H. congruence.
Qed.

Lemma filter_nonempty {A} (f : A -> bool) (l : list A) :
  (0 <? length (filter f l))%nat = true -> exists x, In x l /\ f x = true.
Proof.
  destruct (filter f l) as [|x t] eqn:E; simpl; [discriminate|].
  intros _. exists x. apply filter_In. rewrite E. left. reflexivity.
Qed.

(** X7: the two flags of [handleActionLoop] are never both set.  The entity
    flag is set only for the type 'entity', when an extracted entity bears
    the expected name, and nothing is changed; the resolver flag is set
    only together with exactly one resolver, named like the expected
    item. *)
Theorem matchExpectedItem_flags env u skillName rs name type s hasEntity hasResolver s' :
  matchExpectedItem env u skillName rs name type s = (Val (hasEntity, hasResolver), s') ->
  hasEntity && hasResolver = false /\
  (hasEntity = true ->
   type = JStr "entity" /\ s' = s /\
   exists e, In e (entities (nluResultObj s)) /\ name = JStr (Entity.entity e)) /\
  (hasResolver = true ->
   exists value,
     resolvers (nluResultObj s') = [ {| resolverName := name; resolverValue := value |} ]).
Proof.
  unfold matchExpectedItem. unfold bind at 1, get. unfold bind at 1, liftE.
  destruct (expectedItemKind type) as [e|[|key|]] eqn:Hk; [discriminate| | |].
  - unfold ret. intros H. inversion H; subst. clear H.
    split; [apply andb_false_r|]. split; [|discriminate].
    intros Hent. apply filter_nonempty in Hent. destruct Hent as (e & He & Hs).
    split; [|split; [reflexivity|exists e; split; [exact He|exact (is_str_eq _ _ Hs)]]].
    unfold expectedItemKind in Hk.
    destruct (is_str type "entity") eqn:E; [exact (is_str_eq _ _ E)|].
    destruct type; try discriminate;
      match type of Hk with context [if ?b then _ else _] => destruct b end; discriminate.
  - unfold bind at 1.
    destruct (resolverProcess env key u s) as [[intent|x| |] s1] eqn:Hp; try discriminate.
    destruct (truthy intent && _) eqn:Hc.
    + unfold bind at 1.
      destruct (resolveResolvers env rs name (tpl intent) s1) as [[l|x| |] s2] eqn:Hr;
        try discriminate.
      unfold bind, modify, ret. intros H. inversion H; subst. clear H.
      split; [reflexivity|]. split; [discriminate|]. intros _. simpl.
      unfold resolveResolvers in Hr. run.
      repeat break Hr; inversion Hr; subst; eauto.
    + unfold ret. intros H. inversion H; subst.
      split; [reflexivity|]. split; discriminate.
  - unfold ret. intros H. inversion H; subst.
    split; [reflexivity|]. split; discriminate.
Qed.

Lemma matchExpectedItem_flags_witness :
  matchExpectedItem Cases.findsNumber (Some "7") "number" (JObj []) (JStr "number")
    (JStr "entity") Cases.guessing = (Val (true, false), Cases.guessing) /\
  true && false = false /\
  (true = true ->
   JStr "entity" = JStr "entity" /\ Cases.guessing = Cases.guessing /\
   exists e, In e (entities (nluResultObj Cases.guessing)) /\
             JStr "number" = JStr (Entity.entity e)) /\
  (false = true ->
   exists value,
     resolvers (nluResultObj Cases.guessing)
       = [ {| resolverName := JStr "number"; resolverValue := value |} ]).
Proof.
  assert (H : matchExpectedItem Cases.findsNumber (Some "7") "number" (JObj [])
                (JStr "number") (JStr "entity") Cases.guessing
              = (Val (true, false), Cases.guessing)) by (vm_compute; reflexivity).
  split; [exact H|].
  exact (matchExpectedItem_flags Cases.findsNumber (Some "7") "number" (JObj [])
           (JStr "number") (JStr "entity") Cases.guessing true false Cases.guessing H).
Defined.

(** X8: an expected item whose type contains "resolver" but is neither
    "global_resolver" nor "skill_resolver" names no classifier: the matching
    throws a TypeError and changes nothing. *)
Theorem unknown_resolver_type_throws env u skillName rs name type s :
  includes "resolver" type = true ->
  type <> "global_resolver" ->
  type <> "skill_resolver" ->
  matchExpectedItem env u skillName rs name (JStr type) s =
    (Throw (TypeError "Cannot read properties of undefined (reading 'process')"), s).
Proof.
  intros Hinc Hg Hs.
  assert (He : (type =? "entity") = false).
  { destruct (String.eqb_spec type "entity") as [->|]; [discriminate Hinc|reflexivity]. }
  apply String.eqb_neq in Hg. apply String.eqb_neq in Hs.
  unfold matchExpectedItem, expectedItemKind, resolverProcess. run.
  simpl is_str. rewrite He, Hinc. cbv beta iota. rewrite Hg, Hs. reflexivity.
Qed.

Lemma unknown_resolver_type_throws_witness :
  includes "resolver" "custom_resolver" = true /\
  "custom_resolver" <> "global_resolver" /\
  "custom_resolver" <> "skill_resolver" /\
  matchExpectedItem Scenario.env (Some "yes") "number" (JObj []) (JStr "answer")
    (JStr "custom_resolver") Cases.guessing =
    (Throw (TypeError "Cannot read properties of undefined (reading 'process')"),
     Cases.guessing).
Proof.
  assert (H1 : "custom_resolver" <> "global_resolver") by discriminate.
  assert (H2 : "custom_resolver" <> "skill_resolver") by discriminate.
  split; [reflexivity|]. split; [exact H1|]. split; [exact H2|].
  exact (unknown_resolver_type_throws Scenario.env (Some "yes") "number" (JObj [])
           (JStr "answer") "custom_resolver" Cases.guessing eq_refl H1 H2).
Defined.

(** *** The loaders, failure by failure *)

(** X9: a loader whose model file is missing rejects with the warning that
    names the training command; it says nothing to the user and leaves the
    state as it was. *)
Theorem loaders_silent_on_missing_model env p s :
  existsSync env p = false ->
  loadGlobalResolversModel env p s =
    (Throw (LoadRejection "warning"
              "The global resolvers NLP model does not exist, please run: npm run train"), s) /\
  loadSkillsResolversModel env p s =
    (Throw (LoadRejection "warning"
              "The skills resolvers NLP model does not exist, please run: npm run train"), s) /\
  loadMainModel env p s =
    (Throw (LoadRejection "warning"
              "The main NLP model does not exist, please run: npm run train"), s).
Proof.
  intros H. unfold loadGlobalResolversModel, loadSkillsResolversModel, loadMainModel.
  rewrite H. repeat split; reflexivity.
Qed.

Lemma loaders_silent_on_missing_model_witness :
  existsSync Cases.emptyDisk "/leon/core/data/models/leon-main-model.nlp" = false /\
  loadMainModel Cases.emptyDisk "/leon/core/data/models/leon-main-model.nlp" Scenario.start =
    (Throw (LoadRejection "warning"
              "The main NLP model does not exist, please run: npm run train"),
     Scenario.start).
Proof.
  split; [reflexivity|].
  exact (proj2 (proj2 (loaders_silent_on_missing_model Cases.emptyDisk
                         "/leon/core/data/models/leon-main-model.nlp" Scenario.start
                         eq_refl))).
Defined.

(** X10: a loader whose model file exists but whose container or load
    fails with [e] tells the user (the error phrase with [e]'s message, then
    is-typing false) and rejects with type 'error'; the main loader then
    leaves the NER object as it was. *)
Theorem loaders_speak_load_errors env p s e :
  existsSync env p = true ->
  loadFails env p e ->
  let rejection := Throw (LoadRejection "error" (tpl (message e))) in
  (fst (loadGlobalResolversModel env p s) = rejection /\
   trace (snd (loadGlobalResolversModel env p s)) = (trace s ++ loadErrorEvents e)%list) /\
  (fst (loadSkillsResolversModel env p s) = rejection /\
   trace (snd (loadSkillsResolversModel env p s)) = (trace s ++ loadErrorEvents e)%list) /\
  (fst (loadMainModel env p s) = rejection /\
   trace (snd (loadMainModel env p s)) = (trace s ++ loadErrorEvents e)%list /\
   nerReady (snd (loadMainModel env p s)) = nerReady s).
Proof.
  intros Hex Hfail rejection. subst rejection.
  unfold loadGlobalResolversModel, loadSkillsResolversModel, loadMainModel,
    installGlobalResolversNlp, installSkillsResolversNlp, installMainNlp, awaitLoad,
    loadFailed, loadErrorEvents.
  rewrite Hex. run. simpl negb. cbv iota.
  destruct Hfail as [Hb|[[nlp Hb] Hl]]; rewrite Hb; [|rewrite Hl]; simpl;
    rewrite <- ?app_assoc; repeat split; reflexivity.
Qed.

Lemma loaders_speak_load_errors_witness :
  let p := mainModelPath Scenario.corruptMainModel in
  let e := SystemError "Unexpected token" in
  existsSync Scenario.corruptMainModel p = true /\
  loadFails Scenario.corruptMainModel p e /\
  fst (loadMainModel Scenario.corruptMainModel p Scenario.start)
    = Throw (LoadRejection "error" "Unexpected token") /\
  trace (snd (loadMainModel Scenario.corruptMainModel p Scenario.start))
    = ([] ++ loadErrorEvents e)%list /\
  nerReady (snd (loadMainModel Scenario.corruptMainModel p Scenario.start)) = false.
Proof.
  intros p e.
  assert (Hf : loadFails Scenario.corruptMainModel p e).
  { right. split; [eexists; reflexivity|vm_compute; reflexivity]. }
  split; [reflexivity|]. split; [exact Hf|].
  exact (proj2 (proj2 (loaders_speak_load_errors Scenario.corruptMainModel p
                         Scenario.start e eq_refl Hf))).
Defined.

(** X11: after [loadNLPModels], the NER object exists exactly when the main
    loader resolved (given that it did not exist before): the loaders of
    the two resolver models never build it, and a main model that fails to
    load leaves [this.ner] as it was. *)
Theorem ner_exists_iff_main_model_loaded env s :
  nerReady s = false ->
  let '(_, _, main, s') := loadNLPModels env s in
  nerReady s' = true <-> main = Val tt.
Proof.
  intros Hn. unfold loadNLPModels.
  destruct (loadGlobalResolversModel env (globalResolversModelPath env) s) as [r1 s1] eqn:E1.
  destruct (loadSkillsResolversModel env (skillsResolversModelPath env) s1) as [r2 s2] eqn:E2.
  destruct (loadMainModel env (mainModelPath env) s2) as [r3 s3] eqn:E3.
  assert (H1 : nerReady s1 = nerReady s).
  { revert E1. unfold loadGlobalResolversModel, installGlobalResolversNlp, awaitLoad,
      loadFailed. run. intros E1. repeat break E1; inversion E1; reflexivity. }
  assert (H2 : nerReady s2 = nerReady s1).
  { revert E2. unfold loadSkillsResolversModel, installSkillsResolversNlp, awaitLoad,
      loadFailed. run. intros E2. repeat break E2; inversion E2; reflexivity. }
  revert E3. unfold loadMainModel, installMainNlp, awaitLoad, loadFailed. run.
  intros E3. repeat break E3; inversion E3; subst; simpl;
    rewrite ?H2, ?H1, ?Hn; split; intros H; try discriminate H; reflexivity.
Qed.

Lemma ner_exists_iff_main_model_loaded_witness :
  nerReady Scenario.start = false /\
  (nerReady (snd (loadNLPModels Scenario.env Scenario.start)) = true <->
   snd (fst (loadNLPModels Scenario.env Scenario.start)) = Val tt).
Proof.
  split; [reflexivity|].
  exact (ner_exists_iff_main_model_loaded Scenario.env Scenario.start eq_refl).
Defined.

(** *** The spaCy merge *)

Lemma addEntities_loop_runs (l : list Entity.t) :
  forall (m : M unit) s,
    (exists t, m s = (Val tt, t)) ->
    exists t,
      fold_left (fun m e => m ;; s <- get ;; log (AddEntities e (brainLang s))) l m s
        = (Val tt, t).
Proof.
  induction l as [|e l IH]; intros m s Hm; simpl; [exact Hm|].
  apply IH. destruct Hm as [t Ht]. unfold bind, get, log, modify. rewrite Ht.
  eexists. reflexivity.
Qed.

(** X12: [mergeSpacyEntities] registers every entity that the tokenization
    service returns, in order, under the current language, and changes
    nothing else of the NLU's state; when the service fails the call
    rejects with the service's error, without effect. *)
Theorem mergeSpacyEntities_effects env u s :
  match getSpacyEntities env u with
  | inr l =>
      exists s',
        mergeSpacyEntities env u s = (Val tt, s') /\
        same_fields s s' /\
        trace s' = (trace s ++ map (fun e => AddEntities e (brainLang s)) l)%list
  | inl e => mergeSpacyEntities env u s = (Throw e, s)
  end.
Proof.
  destruct (getSpacyEntities env u) as [e|l] eqn:Hs.
  - unfold mergeSpacyEntities, bind, liftE. rewrite Hs. reflexivity.
  - assert (Hrun : exists s', mergeSpacyEntities env u s = (Val tt, s')).
    { unfold mergeSpacyEntities, bind at 1, liftE. rewrite Hs.
      apply addEntities_loop_runs. eexists. reflexivity. }
    destruct Hrun as [s' Hrun]. exists s'. split; [exact Hrun|].
    split; [exact (mergeSpacyEntities_same_fields _ _ _ _ _ Hrun)|].
    destruct (mergeSpacyEntities_trace _ _ _ _ Hrun) as (l' & Hl' & Ht).
    rewrite Hs in Hl'. inversion Hl'; subst. exact Ht.
Qed.

(** *** The guards of [process] *)

(** X13: without the three classifier objects, [process] rejects with the
    "model is missing" message after one clock reading; it says the error
    phrase unless the Brain is muted, and touches neither the conversation
    nor the NLU result. *)
Theorem process_rejects_without_models env fuel u s :
  hasNlpModels s = false ->
  exists s',
    process env (S fuel) u s = (Throw (RejectMsg modelMissing), s') /\
    trace s' = (trace s ++ modelsMissingEvents (brainIsMuted s))%list /\
    conv s' = conv s /\
    nluResultObj s' = nluResultObj s /\
    clock s' = S (clock s).
Proof.
  intros H. simpl. unfold process_body, bind at 1, now. unfold promise, bind at 1, get.
  assert (H' : hasNlpModels (set_clock (S (clock s)) s) = false) by exact H.
  rewrite H'. simpl negb. cbv iota. unfold modelsMissingEvents. run. fields.
  destruct (brainIsMuted s); simpl; eexists; (split; [reflexivity|]); simpl;
    rewrite <- ?app_assoc, ?app_nil_r; auto.
Qed.

Lemma process_rejects_without_models_witness :
  hasNlpModels Scenario.start = false /\
  exists s',
    process Scenario.env 1 (Some "hello") Scenario.start
      = (Throw (RejectMsg modelMissing), s') /\
    trace s' = (trace Scenario.start ++ modelsMissingEvents false)%list /\
    conv s' = conv Scenario.start /\
    nluResultObj s' = nluResultObj Scenario.start /\
    clock s' = 1.
Proof.
  split; [reflexivity|].
  exact (process_rejects_without_models Scenario.env 0 (Some "hello") Scenario.start
           eq_refl).
Defined.

(** X14: when the classifier reports a locale that is not installed,
    [process] says so and clears the typing indicator, muted or not, and
    resolves with the empty object; the language, the conversation and the
    Brain are left alone. *)
Theorem process_unsupported_language env fuel u s locale intent skillName s1 :
  classified env u s locale intent skillName s1 ->
  arr_includes (getShortCodes env) locale = false ->
  exists s',
    process env (S fuel) u s = (Val (OData Processed.empty), s') /\
    trace s' = (trace s1 ++ unsupportedLanguageEvents)%list /\
    conv s' = conv s /\
    brainLang s' = brainLang s.
Proof.
  intros Hcls Hsup.
  rewrite (process_classified _ fuel _ _ _ _ _ _ Hcls).
  destruct (classified_frame _ _ _ _ _ _ _ Hcls) as (_ & _ & _ & _ & Hc & Hl & _).
  unfold promise, dispatchIntent. rewrite Hsup. simpl negb. cbv iota. run. fields.
  eexists. split; [reflexivity|]. simpl. rewrite <- app_assoc. auto.
Qed.

Lemma german_classified :
  classified Cases.german (Some "guten Tag") Scenario.loadedMuted "de" "None" "None"
    (Cases.answered Cases.german (Some "guten Tag") Scenario.loadedMuted).
Proof.
  split; [vm_compute; reflexivity|]. exists (set_clock 1 Scenario.loadedMuted).
  repeat split; vm_compute; reflexivity.
Defined.

Lemma process_unsupported_language_witness :
  let s1 := Cases.answered Cases.german (Some "guten Tag") Scenario.loadedMuted in
  classified Cases.german (Some "guten Tag") Scenario.loadedMuted "de" "None" "None" s1 /\
  arr_includes (getShortCodes Cases.german) "de" = false /\
  brainIsMuted Scenario.loadedMuted = true /\
  exists s',
    process Cases.german 1 (Some "guten Tag") Scenario.loadedMuted
      = (Val (OData Processed.empty), s') /\
    trace s' = (trace s1 ++ unsupportedLanguageEvents)%list /\
    conv s' = conv Scenario.loadedMuted /\
    brainLang s' = brainLang Scenario.loadedMuted.
Proof.
  split; [exact german_classified|]. split; [reflexivity|]. split; [reflexivity|].
  exact (process_unsupported_language Cases.german 0 (Some "guten Tag")
           Scenario.loadedMuted "de" "None" "None" _ german_classified eq_refl).
Defined.

(** X15: when the classifier reports an installed locale other than the
    current language, [process] switches: it sets [BRAIN.lang], announces
    the switch, requests the kill of the tokenization process and resolves
    with the empty object.  The conversation is not cleared, and the Brain
    executes nothing. *)
Theorem process_switches_language env fuel u s locale intent skillName s1 :
  classified env u s locale intent skillName s1 ->
  arr_includes (getShortCodes env) locale = true ->
  brainLang s <> locale ->
  exists s',
    process env (S fuel) u s = (Val (OData Processed.empty), s') /\
    brainLang s' = locale /\
    conv s' = conv s /\
    trace s' = (trace s1 ++ [SetLang locale; announcement; Kill (tcpServerProcess s1)])%list.
Proof.
  intros Hcls Hsup Hlang.
  rewrite (process_classified _ fuel _ _ _ _ _ _ Hcls).
  destruct (classified_frame _ _ _ _ _ _ _ Hcls) as (_ & _ & _ & _ & Hc & Hl & _).
  apply String.eqb_neq in Hlang.
  unfold promise, dispatchIntent. rewrite Hsup. simpl.
  unfold bind at 1, get. rewrite Hl, Hlang. simpl.
  unfold switchLanguage, announcement. run. fields.
  eexists. split; [reflexivity|]. simpl. rewrite <- !app_assoc. auto.
Qed.

Lemma french_classified :
  classified Cases.french (Some "bonjour") Scenario.loaded "fr" "None" "None"
    (Cases.answered Cases.french (Some "bonjour") Scenario.loaded).
Proof.
  split; [vm_compute; reflexivity|]. exists (set_clock 1 Scenario.loaded).
  repeat split; vm_compute; reflexivity.
Defined.

Lemma process_switches_language_witness :
  let s1 := Cases.answered Cases.french (Some "bonjour") Scenario.loaded in
  classified Cases.french (Some "bonjour") Scenario.loaded "fr" "None" "None" s1 /\
  arr_includes (getShortCodes Cases.french) "fr" = true /\
  brainLang Scenario.loaded <> "fr" /\
  exists s',
    process Cases.french 1 (Some "bonjour") Scenario.loaded
      = (Val (OData Processed.empty), s') /\
    brainLang s' = "fr" /\
    conv s' = conv Scenario.loaded /\
    trace s' = (trace s1 ++ [SetLang "fr"; announcement; Kill (tcpServerProcess s1)])%list.
Proof.
  assert (H : brainLang Scenario.loaded <> "fr") by (vm_compute; discriminate).
  split; [exact french_classified|]. split; [reflexivity|]. split; [exact H|].
  exact (process_switches_language Cases.french 0 (Some "bonjour") Scenario.loaded
           "fr" "None" "None" _ french_classified eq_refl H).
Defined.

(** X16: [handleActionLoop] is awaited inside the promise's async executor
    without a [try]: when it rejects, [process] neither resolves nor
    rejects; its promise stays pending. *)
Theorem process_hangs_when_loop_handler_throws env fuel u s s0 e s' :
  hasNlpModels s = true ->
  mergeSpacyEntities env u (set_clock (S (clock s)) s) = (Val tt, s0) ->
  Conversation.hasActiveContext (conv s0) && ActiveContext.isInActionLoop (conv s0) = true ->
  handleActionLoop env (process env fuel) u s0 = (Throw e, s') ->
  process env (S fuel) u s = (Hang, s').
Proof.
  intros Hm Hmerge Hloop Hthrow.
  simpl. unfold process_body, bind at 1, now. unfold promise, bind at 1, get.
  assert (Hm' : hasNlpModels (set_clock (S (clock s)) s) = true) by exact Hm.
  rewrite Hm'. simpl. unfold bind at 1. rewrite Hmerge.
  unfold bind at 1, get. rewrite Hloop. unfold bind at 1. rewrite Hthrow. reflexivity.
Qed.

Lemma process_hangs_when_loop_handler_throws_witness :
  let s := set_conv Scenario.guessContext Scenario.loaded in
  let s0 := set_clock 1 s in
  let thrown := NerError "error" "random_ner_type_not_supported" (Some (Some "entity type not supported")) in
  hasNlpModels s = true /\
  mergeSpacyEntities Scenario.failingNer (Some "7") (set_clock (S (clock s)) s)
    = (Val tt, s0) /\
  Conversation.hasActiveContext (conv s0) && ActiveContext.isInActionLoop (conv s0) = true /\
  exists s',
    handleActionLoop Scenario.failingNer (process Scenario.failingNer 0) (Some "7") s0
      = (Throw thrown, s') /\
    process Scenario.failingNer 1 (Some "7") s = (Hang, s').
Proof.
  intros s s0 thrown.
  assert (H : exists s',
             handleActionLoop Scenario.failingNer (process Scenario.failingNer 0)
               (Some "7") s0 = (Throw thrown, s')).
  { eexists. vm_compute. reflexivity. }
  split; [vm_compute; reflexivity|]. split; [vm_compute; reflexivity|].
  split; [vm_compute; reflexivity|].
  destruct H as [s' H]. exists s'. split; [exact H|].
  refine (process_hangs_when_loop_handler_throws Scenario.failingNer 0 (Some "7") s s0
            thrown s' _ _ _ H); vm_compute; reflexivity.
Defined.

(** X17: when the chosen intent is 'None' and [langs.json] has no entry for
    the locale's long code, reading its fallbacks throws inside the
    executor: [process] stays pending, having said nothing. *)
Theorem process_hangs_without_fallback_table env fuel u s locale skillName s1 :
  classified env u s locale "None" skillName s1 ->
  arr_includes (getShortCodes env) locale = true ->
  brainLang s = locale ->
  langsFallbacks env (getLongCode env locale) = None ->
  process env (S fuel) u s = (Hang, s1).
Proof.
  intros Hcls Hsup Hlang Hnone. subst locale.
  rewrite (process_classified _ fuel _ _ _ _ _ _ Hcls).
  destruct (classified_frame _ _ _ _ _ _ _ Hcls) as (_ & _ & _ & _ & _ & Hl & _).
  unfold promise, dispatchIntent. rewrite Hsup. simpl.
  unfold bind at 1, get. rewrite Hl, String.eqb_refl. simpl.
  unfold bind at 1, require. rewrite Hnone. reflexivity.
Qed.

Lemma noTable_classified :
  classified Cases.noTable (Some "asdfghjkl") Scenario.loaded "en" "None" "None"
    (Cases.answered Cases.noTable (Some "asdfghjkl") Scenario.loaded).
Proof.
  split; [vm_compute; reflexivity|]. exists (set_clock 1 Scenario.loaded).
  repeat split; vm_compute; reflexivity.
Defined.

Lemma process_hangs_without_fallback_table_witness :
  let s1 := Cases.answered Cases.noTable (Some "asdfghjkl") Scenario.loaded in
  classified Cases.noTable (Some "asdfghjkl") Scenario.loaded "en" "None" "None" s1 /\
  arr_includes (getShortCodes Cases.noTable) "en" = true /\
  brainLang Scenario.loaded = "en" /\
  langsFallbacks Cases.noTable (getLongCode Cases.noTable "en") = None /\
  process Cases.noTable 1 (Some "asdfghjkl") Scenario.loaded = (Hang, s1).
Proof.
  split; [exact noTable_classified|]. split; [reflexivity|].
  split; [vm_compute; reflexivity|]. split; [reflexivity|].
  refine (process_hangs_without_fallback_table Cases.noTable 0 (Some "asdfghjkl")
            Scenario.loaded "en" "None" _ noTable_classified eq_refl _ eq_refl).
  vm_compute; reflexivity.
Defined.

(** *** Failures on the normal path *)

(** X18: when the Brain's execution throws on the normal path, [process]
    rejects with a new error that carries the thrown message; the typing
    indicator is cleared unless the Brain is muted; the context that was
    activated for the turn stays active. *)
Theorem process_rejects_when_brain_throws env fuel u s intent skillName sNer s2 s3 e :
  reachesNormalPath env u s intent skillName sNer s2 ->
  activate env intent skillName s2 = (Val tt, s3) ->
  brainExecute env (nluResultObj s3) = inl e ->
  exists s',
    process env (S fuel) u s = (Throw (ErrorObj (message e)), s') /\
    trace s' = (trace s3 ++ Execute (nluResultObj s3)
                  :: executorErrorEvents (brainIsMuted s))%list /\
    conv s' = conv s3.
Proof.
  intros Hreach Hact Hexec.
  rewrite (process_normal_path _ fuel _ _ _ _ _ _ Hreach).
  destruct (reachesNormalPath_frame _ _ _ _ _ _ _ Hreach) as (_ & Hmu & _).
  destruct (activate_spec env intent skillName s2) as (s3' & Hact' & _ & _ & _ & Hmu3 & _).
  rewrite Hact in Hact'. inversion Hact'; subst s3'. clear Hact'.
  unfold promise, normalPath. unfold bind at 1. rewrite Hact.
  unfold executeAndRotate, executorErrorEvents. run. rewrite Hexec. fields.
  rewrite Hmu3, Hmu. destruct (brainIsMuted s); simpl;
    eexists; (split; [reflexivity|]); simpl; rewrite <- ?app_assoc; auto.
Qed.

Lemma crashing_reaches_normal_path :
  reachesNormalPath Scenario.crashingSkill (Some "Hello Leon") Scenario.loaded "None" "None"
    (Cases.extracted Scenario.crashingSkill (Some "Hello Leon") Scenario.loaded)
    (Cases.routed Scenario.crashingSkill (Some "Hello Leon") Scenario.loaded).
Proof.
  exists "en", (Cases.answered Scenario.crashingSkill (Some "Hello Leon") Scenario.loaded),
    (snd (fallback Scenario.env [Cases.helloRow]
            (Cases.answered Scenario.crashingSkill (Some "Hello Leon") Scenario.loaded))).
  split; [|split; [reflexivity|split; [vm_compute; reflexivity|split; [|split; [|split]]]]].
  - split; [vm_compute; reflexivity|]. exists (set_clock 1 Scenario.loaded).
    repeat split; vm_compute; reflexivity.
  - right. split; [reflexivity|]. do 2 eexists.
    split; [reflexivity|vm_compute; reflexivity].
  - vm_compute; reflexivity.
  - vm_compute; reflexivity.
  - vm_compute; reflexivity.
Defined.

Lemma process_rejects_when_brain_throws_witness :
  let u := Some "Hello Leon" in
  let s3 := Cases.activated Scenario.crashingSkill u Scenario.loaded in
  reachesNormalPath Scenario.crashingSkill u Scenario.loaded "None" "None"
    (Cases.extracted Scenario.crashingSkill u Scenario.loaded)
    (Cases.routed Scenario.crashingSkill u Scenario.loaded) /\
  activate Scenario.crashingSkill "None" "None"
    (Cases.routed Scenario.crashingSkill u Scenario.loaded) = (Val tt, s3) /\
  brainExecute Scenario.crashingSkill (nluResultObj s3) = inl (Thrown (Some "skill crashed")) /\
  exists s',
    process Scenario.crashingSkill 1 u Scenario.loaded
      = (Throw (ErrorObj (Some "skill crashed")), s') /\
    trace s' = (trace s3 ++ Execute (nluResultObj s3)
                  :: executorErrorEvents (brainIsMuted Scenario.loaded))%list /\
    conv s' = conv s3.
Proof.
  intros u s3.
  assert (Hact : activate Scenario.crashingSkill "None" "None"
                   (Cases.routed Scenario.crashingSkill u Scenario.loaded) = (Val tt, s3))
    by (vm_compute; reflexivity).
  split; [exact crashing_reaches_normal_path|]. split; [exact Hact|].
  split; [reflexivity|].
  exact (process_rejects_when_brain_throws Scenario.crashingSkill 0 u Scenario.loaded
           "None" "None" _ _ s3 (Thrown (Some "skill crashed"))
           crashing_reaches_normal_path Hact eq_refl).
Defined.

(** X19: when the Brain queues a next action but its reply has no [action],
    the rotation of lines 662-675 has already cleared the active context
    when it throws: [process] rejects with the TypeError's message, the
    Brain having executed, and no context is active any more. *)
Theorem process_rotation_failure_loses_context
  env fuel u s intent skillName sNer s2 s3 pd l :
  reachesNormalPath env u s intent skillName sNer s2 ->
  activate env intent skillName s2 = (Val tt, s3) ->
  brainExecute env (nluResultObj s3) = inr pd ->
  Processed.nextAction pd = Some l ->
  Processed.action pd = None ->
  exists s',
    process env (S fuel) u s =
      (Throw (ErrorObj (Some "Cannot read properties of undefined (reading 'next_action')")),
       s') /\
    Conversation.hasActiveContext (conv s') = false /\
    In (Execute (nluResultObj s3)) (trace s').
Proof.
  intros Hreach Hact Hexec Hnext Hnone.
  rewrite (process_normal_path _ fuel _ _ _ _ _ _ Hreach).
  unfold promise, normalPath. unfold bind at 1. rewrite Hact.
  unfold executeAndRotate. run. rewrite Hexec. fields. rewrite Hnext. fields.
  rewrite Hnone. fields.
  destruct (brainIsMuted s3); simpl;
    eexists; (split; [reflexivity|]); simpl; (split; [reflexivity|]);
    rewrite ?in_app_iff; simpl; tauto.
Qed.

Lemma queueing_reaches_normal_path :
  reachesNormalPath Cases.queuesWithoutAction (Some "Hello Leon") Scenario.loaded
    "None" "None"
    (Cases.extracted Cases.queuesWithoutAction (Some "Hello Leon") Scenario.loaded)
    (Cases.routed Cases.queuesWithoutAction (Some "Hello Leon") Scenario.loaded).
Proof.
  exists "en", (Cases.answered Cases.queuesWithoutAction (Some "Hello Leon") Scenario.loaded),
    (snd (fallback Scenario.env [Cases.helloRow]
            (Cases.answered Cases.queuesWithoutAction (Some "Hello Leon") Scenario.loaded))).
  split; [|split; [reflexivity|split; [vm_compute; reflexivity|split; [|split; [|split]]]]].
  - split; [vm_compute; reflexivity|]. exists (set_clock 1 Scenario.loaded).
    repeat split; vm_compute; reflexivity.
  - right. split; [reflexivity|]. do 2 eexists.
    split; [reflexivity|vm_compute; reflexivity].
  - vm_compute; reflexivity.
  - vm_compute; reflexivity.
  - vm_compute; reflexivity.
Defined.

Lemma process_rotation_failure_loses_context_witness :
  let u := Some "Hello Leon" in
  let s3 := Cases.activated Cases.queuesWithoutAction u Scenario.loaded in
  Conversation.hasActiveContext (conv s3) = true /\
  (exists pd,
     brainExecute Cases.queuesWithoutAction (nluResultObj s3) = inr pd /\
     Processed.nextAction pd = Some false /\
     Processed.action pd = None) /\
  exists s',
    process Cases.queuesWithoutAction 1 u Scenario.loaded =
      (Throw (ErrorObj (Some "Cannot read properties of undefined (reading 'next_action')")),
       s') /\
    Conversation.hasActiveContext (conv s') = false /\
    In (Execute (nluResultObj s3)) (trace s').
Proof.
  intros u s3.
  assert (Hact : activate Cases.queuesWithoutAction "None" "None"
                   (Cases.routed Cases.queuesWithoutAction u Scenario.loaded) = (Val tt, s3))
    by (vm_compute; reflexivity).
  split; [vm_compute; reflexivity|].
  split; [eexists; repeat split; reflexivity|].
  exact (process_rotation_failure_loses_context Cases.queuesWithoutAction 0 u
           Scenario.loaded "None" "None" _ _ s3 _ false
           queueing_reaches_normal_path Hact eq_refl eq_refl eq_refl).
Defined.

(** X20: in [process] a failure of the NER gateway is caught.  When the
    log line of the catch runs through (the log helper has no channel named
    like the error's type, or the error carries an [obj] and the logging
    returns), the turn goes on: the config path is stored, the phrase keyed
    by the error's code is spoken unless the Brain is muted, the entities
    stay as they were, and the stage completes.  When the helper has such a
    channel and the error carries no [obj], the catch itself throws the
    TypeError of the read [e.obj.message]: nothing is spoken, the stage
    does not complete, and a call of [process] that got there stays
    pending. *)
Theorem ner_failure_spoken_unless_log_line_throws env s d k e :
  domain (classification (nluResultObj s)) = Some d ->
  skill (classification (nluResultObj s)) = Some k ->
  nerReady s = true ->
  extractEntities env (brainLang s) (configPathOf env s d k)
    (with_configDataFilePath (Some (configPathOf env s d k)) (nluResultObj s)) = inl e ->
  let located :=
    set_nluResultObj
      (with_configDataFilePath (Some (configPathOf env s d k)) (nluResultObj s)) s in
  (logsQuietly env e ->
   exists s',
     locateAndExtract env s = (Val tt, s') /\
     nluResultObj s' = nluResultObj located /\
     entities (nluResultObj s') = entities (nluResultObj s) /\
     trace s' = (trace s ++ nerErrorEvents (brainIsMuted s) e)%list) /\
  (forall call err,
     logHelper env (typeKey e) = Some call ->
     objMessage e = inl err ->
     locateAndExtract env s = (Throw err, located) /\
     forall fuel u s0 locale intent skillName s1,
       classified env u s0 locale intent skillName s1 ->
       arr_includes (getShortCodes env) locale = true ->
       brainLang s0 = locale ->
       intentResolved env locale intent s1 s ->
       process env (S fuel) u s0 = (Hang, located)).
Proof.
  intros Hd Hk Hn He located. subst located.
  assert (Hthrow : forall call err,
            logHelper env (typeKey e) = Some call ->
            objMessage e = inl err ->
            locateAndExtract env s =
              (Throw err,
               set_nluResultObj
                 (with_configDataFilePath (Some (configPathOf env s d k)) (nluResultObj s))
                 s)).
  { intros call err Hcall Hobj.
    unfold locateAndExtract, logCaught, nerExtractEntities, configPathOf in *.
    run. rewrite Hd, Hk. fields. rewrite Hn, He. fields. rewrite Hcall, Hobj.
    reflexivity. }
  split; [|intros call err Hcall Hobj; split; [exact (Hthrow call err Hcall Hobj)|];
           intros fuel u s0 locale intent skillName s1 Hcls Hsup Hlang Hres;
           rewrite (process_classified _ fuel _ _ _ _ _ _ Hcls);
           destruct (classified_frame _ _ _ _ _ _ _ Hcls) as (_ & _ & _ & _ & _ & Hl & _);
           unfold promise;
           rewrite (dispatchIntent_resolved env _ u locale intent skillName _ s1 s);
           [|assumption|congruence|assumption];
           unfold afterIntent; unfold bind at 1;
           rewrite (Hthrow call err Hcall Hobj); reflexivity].
  clear Hthrow.
  unfold locateAndExtract, logCaught, nerExtractEntities, nerErrorEvents, configPathOf in *.
  run. rewrite Hd, Hk. fields. rewrite Hn, He. fields.
  - intros [Hnone|(call & m & Hcall & Hobj & Hret)].
    + rewrite Hnone. fields.
      destruct (brainIsMuted s); simpl; eexists; (split; [reflexivity|]); simpl;
        rewrite ?app_nil_r; auto.
    + rewrite Hcall, Hobj, Hret. fields.
      destruct (brainIsMuted s); simpl; eexists; (split; [reflexivity|]); simpl;
        rewrite ?app_nil_r; auto.
Qed.

Lemma ner_failure_spoken_unless_log_line_throws_witness :
  let u := Some "Hello Leon" in
  let path := "/leon/skills/greetings/hello/config/en.json" in
  (let s := snd (fallback Scenario.env [Cases.helloRow]
                   (Cases.answered Scenario.failingNer u Scenario.loaded)) in
   let e := NerError "error" "random_ner_type_not_supported"
              (Some (Some "entity type not supported")) in
   logsQuietly Scenario.failingNer e /\
   exists s',
     locateAndExtract Scenario.failingNer s = (Val tt, s') /\
     nluResultObj s' = with_configDataFilePath (Some path) (nluResultObj s) /\
     entities (nluResultObj s') = entities (nluResultObj s) /\
     trace s' = (trace s ++ nerErrorEvents (brainIsMuted s) e)%list) /\
  (let s := snd (fallback Scenario.env [Cases.helloRow]
                   (Cases.answered Cases.bareNerError u Scenario.loaded)) in
   fst (locateAndExtract Cases.bareNerError s) =
     Throw (TypeError "Cannot read properties of undefined (reading 'message')") /\
   trace (snd (locateAndExtract Cases.bareNerError s)) = trace s /\
   fst (process Cases.bareNerError 1 u Scenario.loaded) = Hang).
Proof.
  intros u path. split.
  - intros s e.
    assert (Hd : domain (classification (nluResultObj s)) = Some "greetings")
      by (vm_compute; reflexivity).
    assert (Hk : skill (classification (nluResultObj s)) = Some "hello")
      by (vm_compute; reflexivity).
    assert (Hn : nerReady s = true) by (vm_compute; reflexivity).
    assert (Hq : logsQuietly Scenario.failingNer e).
    { right. exists (fun _ => None), (Some "entity type not supported").
      repeat split; reflexivity. }
    split; [exact Hq|].
    exact (proj1 (ner_failure_spoken_unless_log_line_throws Scenario.failingNer s "greetings"
                    "hello" e Hd Hk Hn eq_refl) Hq).
  - intros s.
    assert (Hd : domain (classification (nluResultObj s)) = Some "greetings")
      by (vm_compute; reflexivity).
    assert (Hk : skill (classification (nluResultObj s)) = Some "hello")
      by (vm_compute; reflexivity).
    assert (Hn : nerReady s = true) by (vm_compute; reflexivity).
    rewrite (proj1 (proj2 (ner_failure_spoken_unless_log_line_throws Cases.bareNerError s
                             "greetings" "hello"
                             (NerError "error" "random_ner_type_not_supported" None)
                             Hd Hk Hn eq_refl) (fun _ => None) _ eq_refl eq_refl)).
    split; [reflexivity|]. split; [reflexivity|]. vm_compute; reflexivity.
Defined.

(** *** Slot filling, turn by turn *)

Lemma mergeSpacyEntities_runs env u s l :
  getSpacyEntities env u = inr l ->
  exists s', mergeSpacyEntities env u s = (Val tt, s') /\ same_fields s s'.
Proof.
  intros Hs.
  assert (Hrun : exists s', mergeSpacyEntities env u s = (Val tt, s')).
  { unfold mergeSpacyEntities, bind at 1, liftE. rewrite Hs.
    apply addEntities_loop_runs. eexists. reflexivity. }
  destruct Hrun as [s' Hrun]. exists s'. split; [exact Hrun|].
  exact (mergeSpacyEntities_same_fields _ _ _ _ _ Hrun).
Qed.

Lemma slotFill_without_nextAction env u s :
  truthy (ActiveContext.nextAction (conv s)) = false ->
  slotFill env u s = (Val None, s).
Proof. intros H. unfold slotFill, bind, get, ret. rewrite H. reflexivity. Qed.

Lemma pending_not_all_filled c slot :
  Conversation.getNotFilledSlot c = Some slot ->
  Conversation.areSlotsAllFilled c = false.
Proof.
  intros H. destruct (Conversation.areSlotsAllFilled c) eqn:E; [|reflexivity].
  rewrite (all_filled_none_pending _ E) in H. discriminate.
Qed.

(** X21: a context that holds slots but no next action, and is not in an
    action loop, makes [process] call itself without end: [slotFill]
    returns null at once without clearing the context, [handleSlotFilling]
    re-enters [process] with the same utterance, and the re-entered call
    finds the same context.  Whatever the depth allowed, the call does not
    settle. *)
Theorem slot_filling_without_next_action_never_returns env u l :
  getSpacyEntities env u = inr l ->
  forall fuel s,
    hasNlpModels s = true ->
    Conversation.hasActiveContext (conv s) = true ->
    ActiveContext.isInActionLoop (conv s) = false ->
    ActiveContext.slots (conv s) <> [] ->
    truthy (ActiveContext.nextAction (conv s)) = false ->
    fst (process env fuel u s) = NoFuel.
Proof.
  intros Hs fuel. induction fuel as [|fuel IH]; intros s Hm Hctx Hloop Hslots Hnext;
    [reflexivity|].
  destruct (mergeSpacyEntities_runs env u (set_clock (S (clock s)) s) l Hs)
    as (s0 & Hmerge & Hsame).
  destruct Hsame as (Hg & Hk & Hmn & _ & Hc & _). simpl in Hg, Hk, Hmn, Hc.
  assert (Hm0 : hasNlpModels s0 = true).
  { unfold hasNlpModels in *. rewrite Hg, Hk, Hmn. exact Hm. }
  apply nonempty_length in Hslots.
  simpl. unfold process_body, bind at 1, now. unfold promise, bind at 1, get.
  assert (Hm' : hasNlpModels (set_clock (S (clock s)) s) = true) by exact Hm.
  rewrite Hm'. simpl. unfold bind at 1. rewrite Hmerge.
  unfold bind at 1, get. rewrite Hc, Hctx, Hloop, Hslots. simpl.
  unfold try_catch, handleSlotFilling. unfold bind at 1. unfold bind at 1.
  rewrite slotFill_without_nextAction by (rewrite Hc; exact Hnext).
  unfold bind at 1.
  specialize (IH s0 Hm0).
  rewrite Hc in IH. specialize (IH Hctx Hloop).
  rewrite <- nonempty_length in IH. specialize (IH Hslots Hnext).
  destruct (process env fuel u s0) as [r t]. simpl in IH. subst r. reflexivity.
Qed.

Lemma slot_filling_without_next_action_never_returns_witness :
  let s := set_conv (Cases.asking [Cases.item] None) Scenario.loaded in
  getSpacyEntities Scenario.env (Some "milk") = inr [] /\
  hasNlpModels s = true /\
  Conversation.hasActiveContext (conv s) = true /\
  ActiveContext.isInActionLoop (conv s) = false /\
  ActiveContext.slots (conv s) <> [] /\
  truthy (ActiveContext.nextAction (conv s)) = false /\
  fst (process Scenario.env 25 (Some "milk") s) = NoFuel.
Proof.
  intros s.
  assert (Hs : ActiveContext.slots (conv s) <> []) by discriminate.
  split; [reflexivity|]. split; [vm_compute; reflexivity|]. split; [reflexivity|].
  split; [reflexivity|]. split; [exact Hs|]. split; [reflexivity|].
  refine (slot_filling_without_next_action_never_returns Scenario.env (Some "milk") []
            eq_refl 25 s _ eq_refl eq_refl Hs eq_refl).
  vm_compute; reflexivity.
Defined.

(** X22: when a slot is pending and no extracted entity answers it,
    [slotFill] speaks the out-of-topic phrase, clears the active context and
    returns null, without calling the Brain. *)
Theorem slotFill_out_of_topic env u s intent d es slot :
  truthy (ActiveContext.nextAction (conv s)) = true ->
  ActiveContext.intent (conv s) = Some intent ->
  ActiveContext.domain (conv s) = Some d ->
  nerReady s = true ->
  extractEntities env (brainLang s)
    (configPathOf env s d (hd "" (split "." intent)))
    (slotFillQuery u (conv s) (hd "" (split "." intent))
       (nth_error (split "." intent) 1)) = inr es ->
  Conversation.getNotFilledSlot (conv s) = Some slot ->
  fillsSlot es slot = false ->
  exists s',
    slotFill env u s = (Val None, s') /\
    Conversation.hasActiveContext (conv s') = false /\
    trace s' = (trace s ++ [outOfTopic])%list.
Proof.
  intros Hnext Hint Hdom Hner Hes Hslot Hans.
  unfold slotFill, nerExtractEntities, configPathOf, fillsSlot in *. run.
  rewrite Hnext, Hint, Hdom. fields. rewrite Hner, Hes. fields.
  rewrite Hslot, Hans. fields. rewrite (pending_not_all_filled _ _ Hslot). fields.
  eexists. split; [reflexivity|]. split; reflexivity.
Qed.

Lemma slotFill_out_of_topic_witness :
  let s := set_conv (Cases.asking [Cases.item] (Some "add")) Scenario.loaded in
  truthy (ActiveContext.nextAction (conv s)) = true /\
  Conversation.getNotFilledSlot (conv s) = Some Cases.item /\
  fillsSlot [Entity.mk "person" "leon"] Cases.item = false /\
  exists s',
    slotFill Scenario.env (Some "hello leon") s = (Val None, s') /\
    Conversation.hasActiveContext (conv s') = false /\
    trace s' = (trace s ++ [outOfTopic])%list.
Proof.
  intros s.
  split; [reflexivity|]. split; [reflexivity|]. split; [reflexivity|].
  exact (slotFill_out_of_topic Scenario.env (Some "hello leon") s "list.add" "shopping"
           [Entity.mk "person" "leon"] Cases.item
           eq_refl eq_refl eq_refl eq_refl eq_refl eq_refl eq_refl).
Defined.

(** X23: when an extracted entity answers the pending slot and another
    slot is still unfilled afterwards, [slotFill] records the entities in
    the slots, asks that slot's question, clears the typing indicator and
    returns the empty object; the context stays active and the Brain is not
    called. *)
Theorem slotFill_asks_next_question env u s intent d es slot next :
  truthy (ActiveContext.nextAction (conv s)) = true ->
  ActiveContext.intent (conv s) = Some intent ->
  ActiveContext.domain (conv s) = Some d ->
  nerReady s = true ->
  extractEntities env (brainLang s)
    (configPathOf env s d (hd "" (split "." intent)))
    (slotFillQuery u (conv s) (hd "" (split "." intent))
       (nth_error (split "." intent) 1)) = inr es ->
  Conversation.getNotFilledSlot (conv s) = Some slot ->
  fillsSlot es slot = true ->
  Conversation.getNotFilledSlot (Conversation.setSlots (brainLang s) es (conv s))
    = Some next ->
  exists s',
    slotFill env u s = (Val (Some Processed.empty), s') /\
    conv s' = Conversation.setSlots (brainLang s) es (conv s) /\
    trace s' = (trace s ++ [Talk (Text (Slot.pickedQuestion next)) false;
                            Emit "is-typing" (JBool false)])%list.
Proof.
  intros Hnext Hint Hdom Hner Hes Hslot Hans Hn.
  unfold slotFill, nerExtractEntities, configPathOf, fillsSlot in *. run.
  rewrite Hnext, Hint, Hdom. fields. rewrite Hner, Hes. fields.
  rewrite Hslot, Hans. fields. rewrite Hn. fields.
  eexists. split; [reflexivity|]. simpl. rewrite <- app_assoc. split; reflexivity.
Qed.

Lemma slotFill_asks_next_question_witness :
  let s := set_conv (Cases.asking [Cases.item; Cases.quantity] (Some "add"))
             Scenario.loaded in
  let es := [Entity.mk "product" "milk"] in
  Conversation.getNotFilledSlot (conv s) = Some Cases.item /\
  fillsSlot es Cases.item = true /\
  Conversation.getNotFilledSlot (Conversation.setSlots (brainLang s) es (conv s))
    = Some Cases.quantity /\
  exists s',
    slotFill Cases.findsProduct (Some "milk") s = (Val (Some Processed.empty), s') /\
    conv s' = Conversation.setSlots (brainLang s) es (conv s) /\
    trace s' = (trace s ++ [Talk (Text "How many?") false;
                            Emit "is-typing" (JBool false)])%list.
Proof.
  intros s es.
  split; [reflexivity|]. split; [reflexivity|]. split; [reflexivity|].
  exact (slotFill_asks_next_question Cases.findsProduct (Some "milk") s "list.add"
           "shopping" es Cases.item Cases.quantity
           eq_refl eq_refl eq_refl eq_refl eq_refl eq_refl eq_refl eq_refl).
Defined.

(** X24: when slot filling is interrupted ([slotFill] returns null),
    [process] handles the same utterance afresh, in the state that
    [slotFill] left, and resolves with null whatever the inner call resolved
    with; when the inner call rejects, the outer one rejects with the empty
    object, so the reason of the rejection is lost. *)
Theorem process_slot_filling_interrupted env fuel u s s0 s1 :
  hasNlpModels s = true ->
  mergeSpacyEntities env u (set_clock (S (clock s)) s) = (Val tt, s0) ->
  Conversation.hasActiveContext (conv s0) = true ->
  ActiveContext.isInActionLoop (conv s0) = false ->
  ActiveContext.slots (conv s0) <> [] ->
  slotFill env u s0 = (Val None, s1) ->
  process env (S fuel) u s =
    match process env fuel u s1 with
    | (Val _, s') => (Val ONull, s')
    | (Throw _, s') => (Throw RejectEmptyObj, s')
    | (Hang, s') => (Hang, s')
    | (NoFuel, s') => (NoFuel, s')
    end.
Proof.
  intros Hm Hmerge Hctx Hloop Hslots Hfill.
  apply nonempty_length in Hslots.
  assert (Hm' : hasNlpModels (set_clock (S (clock s)) s) = true) by exact Hm.
  simpl. unfold process_body, bind at 1, now. unfold promise, bind at 1, get.
  rewrite Hm'. simpl. unfold bind at 1. rewrite Hmerge.
  unfold bind at 1, get. rewrite Hctx, Hloop, Hslots. simpl.
  unfold try_catch, handleSlotFilling. unfold bind at 1. unfold bind at 1.
  rewrite Hfill. unfold bind at 1.
  destruct (process env fuel u s1) as [[? | ? | |] ?]; reflexivity.
Qed.

Lemma process_slot_filling_interrupted_witness :
  let s := set_conv (Cases.asking [Cases.item] (Some "add")) Scenario.loaded in
  let s0 := snd (mergeSpacyEntities Scenario.env (Some "hello leon")
                   (set_clock (S (clock s)) s)) in
  let s1 := snd (slotFill Scenario.env (Some "hello leon") s0) in
  Conversation.hasActiveContext (conv s1) = false /\
  fst (process Scenario.env 1 (Some "hello leon") s1) <> Val ONull /\
  fst (process Scenario.env 2 (Some "hello leon") s) = Val ONull.
Proof.
  intros s s0 s1.
  assert (Hs : ActiveContext.slots (conv s0) <> []) by (vm_compute; discriminate).
  assert (Hm : hasNlpModels s = true) by (vm_compute; reflexivity).
  assert (Hmerge : mergeSpacyEntities Scenario.env (Some "hello leon")
                     (set_clock (S (clock s)) s) = (Val tt, s0))
    by (vm_compute; reflexivity).
  assert (Hc : Conversation.hasActiveContext (conv s0) = true)
    by (vm_compute; reflexivity).
  assert (Hl : ActiveContext.isInActionLoop (conv s0) = false)
    by (vm_compute; reflexivity).
  assert (Hfill : slotFill Scenario.env (Some "hello leon") s0 = (Val None, s1))
    by (vm_compute; reflexivity).
  split; [vm_compute; reflexivity|]. split; [vm_compute; discriminate|].
  rewrite (process_slot_filling_interrupted Scenario.env 1 (Some "hello leon") s s0 s1
             Hm Hmerge Hc Hl Hs Hfill).
  vm_compute; reflexivity.
Defined.

Lemma filterByName_filter items wanted kept :
  filterByName items wanted = inr kept -> kept = filter (namedLike wanted) items.
Proof.
  revert kept. induction items as [|x l IH]; simpl; intros kept H.
  - inversion H. reflexivity.
  - unfold namedLike at 1.
    destruct (get_prop x "name") as [e|v]; [discriminate|].
    destruct (filterByName l wanted) as [e|rest]; [discriminate|].
    rewrite <- (IH rest eq_refl). destruct (is_str v wanted); inversion H; reflexivity.
Qed.

(** X25: [routeSlotFilling] answers true only after it has seeded the
    active context with the intent's mandatory slots, found one of them
    unfilled, sent that slot's suggestions, asked the slot's question and
    cleared the typing indicator, in this order; the NLU result is not
    changed.  The suggestions are the member [suggestions] of the first
    element named like the slot in [actions[action].slots] of the config
    file of the NLU result. *)
Theorem routeSlotFilling_true_asks env intent s s' :
  routeSlotFilling env intent s = (Val true, s') ->
  exists slot path config actions act items current others suggestions,
    conv s' =
      Conversation.setActiveContext (nextActionOf env) (routedContext env intent s)
        (conv s) /\
    Conversation.getNotFilledSlot (conv s') = Some slot /\
    nluResultObj s' = nluResultObj s /\
    configDataFilePath (nluResultObj s) = Some path /\
    readJson env path = inr config /\
    get_prop config "actions" = inr actions /\
    get_prop actions (tpl (action (classification (nluResultObj s)))) = inr act /\
    get_prop act "slots" = inr (JArr items) /\
    filter (namedLike (Slot.name slot)) items = current :: others /\
    get_prop current "suggestions" = inr suggestions /\
    trace s' = (trace s ++ [Emit "suggest" suggestions;
                            Talk (Text (Slot.pickedQuestion slot)) false;
                            Emit "is-typing" (JBool false)])%list.
Proof.
  unfold routeSlotFilling, routedContext. run. intros H.
  destruct (0 <? length (getMandatorySlots env intent))%nat; [|discriminate].
  fields.
  destruct (Conversation.getNotFilledSlot _) as [slot|] eqn:Hslot; [|discriminate].
  destruct (configDataFilePath (nluResultObj s)) as [path|] eqn:Hpath; [|discriminate].
  destruct (readJson env path) as [|config] eqn:Hjson; [discriminate|].
  destruct (get_prop config "actions") as [|actions] eqn:Ha; [discriminate|].
  destruct (get_prop actions _) as [|act] eqn:Hact; [discriminate|].
  destruct (get_prop act "slots") as [|slotsCfg] eqn:Hs; [discriminate|].
  destruct slotsCfg as [| | | | |items|]; try discriminate.
  destruct (filterByName items (Slot.name slot)) as [|matching] eqn:Hf; [discriminate|].
  apply filterByName_filter in Hf.
  destruct matching as [|current others]; [discriminate|]. simpl in H.
  destruct (get_prop current "suggestions") as [|suggestions] eqn:Hsug; [discriminate|].
  inversion H; subst s'. clear H.
  exists slot, path, config, actions, act, items, current, others, suggestions.
  split; [reflexivity|]. split; [exact Hslot|]. split; [reflexivity|].
  split; [reflexivity|]. split; [exact Hjson|]. split; [exact Ha|]. split; [exact Hact|].
  split; [exact Hs|]. split; [symmetry; exact Hf|]. split; [exact Hsug|].
  simpl. rewrite <- !app_assoc. reflexivity.
Qed.

Lemma routeSlotFilling_true_asks_witness :
  let s := Cases.beforeRouting in
  let s' := snd (routeSlotFilling Cases.shopping "list.add" s) in
  routeSlotFilling Cases.shopping "list.add" s = (Val true, s') /\
  In (Emit "suggest" (JArr [JStr "milk"; JStr "eggs"])) (trace s') /\
  exists slot path config actions act items current others suggestions,
    conv s' =
      Conversation.setActiveContext (nextActionOf Cases.shopping)
        (routedContext Cases.shopping "list.add" s) (conv s) /\
    Conversation.getNotFilledSlot (conv s') = Some slot /\
    nluResultObj s' = nluResultObj s /\
    configDataFilePath (nluResultObj s) = Some path /\
    readJson Cases.shopping path = inr config /\
    get_prop config "actions" = inr actions /\
    get_prop actions (tpl (action (classification (nluResultObj s)))) = inr act /\
    get_prop act "slots" = inr (JArr items) /\
    filter (namedLike (Slot.name slot)) items = current :: others /\
    get_prop current "suggestions" = inr suggestions /\
    trace s' = (trace s ++ [Emit "suggest" suggestions;
                            Talk (Text (Slot.pickedQuestion slot)) false;
                            Emit "is-typing" (JBool false)])%list.
Proof.
  intros s s'.
  assert (H : routeSlotFilling Cases.shopping "list.add" s = (Val true, s'))
    by (vm_compute; reflexivity).
  split; [exact H|]. split; [vm_compute; auto 10|].
  exact (routeSlotFilling_true_asks Cases.shopping "list.add" s s' H).
Defined.

(** *** The action loop *)

(** X26: on a turn of an action loop whose expected item is an entity that
    the NER gateway finds in the utterance, [handleActionLoop] hands the
    Brain the NLU result rebuilt from the active context: the utterance, the
    extracted entities, the context's slots, domain, skill and action, the
    skill's config path and confidence 1.  The rest of the call is the
    interpretation of the Brain's reply. *)
Theorem handleActionLoop_executes_context_result
  env p u s intent d es config rc name type :
  ActiveContext.intent (conv s) = Some intent ->
  ActiveContext.domain (conv s) = Some d ->
  nerReady s = true ->
  extractEntities env (brainLang s)
    (configPathOf env s d (hd "" (split "." intent)))
    (loopResult env u s d intent []) = inr es ->
  readJson env (configPathOf env s d (hd "" (split "." intent))) = inr config ->
  expectedItemOf config (tpl (nth_error (split "." intent) 1)) = inr (rc, name, type) ->
  is_str type "entity" = true ->
  existsb (fun e => is_str name (Entity.entity e)) es = true ->
  handleActionLoop env p u s =
    runLoopAction env p (set_nluResultObj (loopResult env u s d intent es) s).
Proof.
  intros Hint Hdom Hner Hes Hcfg Hitem Htype Hfound.
  assert (Hlen : (0 <? length (filter (fun e => is_str name (Entity.entity e)) es))%nat
                 = true).
  { apply Nat.ltb_lt. apply existsb_exists in Hfound. destruct Hfound as (e & Hin & He).
    assert (Hf : In e (filter (fun e => is_str name (Entity.entity e)) es))
      by (apply filter_In; split; assumption).
    destruct (filter (fun e => is_str name (Entity.entity e)) es);
      [destruct Hf | simpl; lia]. }
  unfold handleActionLoop, enterActionLoop, readExpectedItem, matchExpectedItem,
    nerExtractEntities, expectedItemKind, loopResult, configPathOf in *.
  rewrite Hdom in Hes. run. rewrite Hint, Hdom. fields. rewrite Hner, Hes. fields.
  rewrite Hcfg. fields. cbn [action classification with_entities nluResultObj].
  rewrite Hitem. fields. rewrite Htype. fields. unfold with_entities.
  cbn [entities utterance currentEntities currentResolvers resolvers slots
       configDataFilePath answers classification].
  rewrite Hlen. reflexivity.
Qed.

Lemma handleActionLoop_executes_context_result_witness :
  let s := Cases.inLoop in
  let p := process Cases.findsNumber 1 in
  existsb (fun e => is_str (JStr "number") (Entity.entity e)) [Entity.mk "number" "7"]
    = true /\
  handleActionLoop Cases.findsNumber p (Some "7") s =
    runLoopAction Cases.findsNumber p
      (set_nluResultObj
         (loopResult Cases.findsNumber (Some "7") s "games" "number.guess"
            [Entity.mk "number" "7"]) s).
Proof.
  intros s p. split; [reflexivity|].
  refine (handleActionLoop_executes_context_result Cases.findsNumber p (Some "7") s
            "number.guess" "games" [Entity.mk "number" "7"] Scenario.guessConfig
            (JObj []) (JStr "number") (JStr "entity")
            eq_refl eq_refl _ eq_refl eq_refl _ eq_refl eq_refl);
    vm_compute; reflexivity.
Defined.

(** X27: when the Brain throws during a turn of an action loop, the
    handler swallows the error and returns null; the active context is left
    as it was, so the conversation stays in the loop. *)
Theorem runLoopAction_swallows_brain_error env p s e :
  brainExecute env (nluResultObj s) = inl e ->
  runLoopAction env p s = (Val ONull, add_event (Execute (nluResultObj s)) s).
Proof.
  intros H. unfold runLoopAction. run. fields. rewrite H. reflexivity.
Qed.

Lemma runLoopAction_swallows_brain_error_witness :
  let s := Cases.guessing in
  runLoopAction Scenario.crashingSkill (process Scenario.crashingSkill 1) s =
    (Val ONull, add_event (Execute (nluResultObj s)) s) /\
  conv (add_event (Execute (nluResultObj s)) s) = Scenario.guessContext.
Proof.
  intros s. split; [|vm_compute; reflexivity].
  exact (runLoopAction_swallows_brain_error Scenario.crashingSkill
           (process Scenario.crashingSkill 1) s (Thrown (Some "skill crashed")) eq_refl).
Defined.

(** X28: when the skill asks to restart, the handler clears the active
    context and re-enters [process] with the utterance that opened the
    context, not with the current one; it returns null whether that call
    resolves or rejects. *)
Theorem runLoopAction_restart env p s pd :
  brainExecute env (nluResultObj s) = inr pd ->
  asksRestart pd = true ->
  runLoopAction env p s =
    match p (ActiveContext.originalUtterance (conv s))
            (set_conv (Conversation.cleanActiveContext (conv s))
               (add_event (Execute (nluResultObj s)) s)) with
    | (Val _, s') => (Val ONull, s')
    | (Throw _, s') => (Val ONull, s')
    | (Hang, s') => (Hang, s')
    | (NoFuel, s') => (NoFuel, s')
    end.
Proof.
  intros H Hr. unfold asksRestart in Hr. unfold runLoopAction. run. fields.
  rewrite H, Hr. fields.
  destruct (p _ _) as [[? | ? | |] ?]; reflexivity.
Qed.

Lemma runLoopAction_restart_witness :
  let s := Cases.guessing in
  let p := process Cases.restarting 1 in
  asksRestart (Processed.mk (Some 5%Z) (utterance (nluResultObj s))
                 (configDataFilePath (nluResultObj s))
                 (Some (classification (nluResultObj s)))
                 (Some (Processed.mkAction None false)) None
                 (Some (Processed.mkCore (Some true) None)) None) = true /\
  ActiveContext.originalUtterance (conv s) = Some "Let's play" /\
  runLoopAction Cases.restarting p s =
    match p (ActiveContext.originalUtterance (conv s))
            (set_conv (Conversation.cleanActiveContext (conv s))
               (add_event (Execute (nluResultObj s)) s)) with
    | (Val _, s') => (Val ONull, s')
    | (Throw _, s') => (Val ONull, s')
    | (Hang, s') => (Hang, s')
    | (NoFuel, s') => (NoFuel, s')
    end.
Proof.
  intros s p. split; [reflexivity|]. split; [vm_compute; reflexivity|].
  exact (runLoopAction_restart Cases.restarting p s _ eq_refl eq_refl).
Defined.

(** X29: when the skill stops the loop and names no next action, the
    handler clears the active context and returns null instead of the
    Brain's data. *)
Theorem runLoopAction_loop_ends env p s pd a :
  brainExecute env (nluResultObj s) = inr pd ->
  asksRestart pd = false ->
  Processed.action pd = Some a ->
  truthy (Processed.next_action a) = false ->
  stopsLoop pd = true ->
  runLoopAction env p s =
    (Val ONull,
     set_conv (Conversation.cleanActiveContext (conv s))
       (add_event (Execute (nluResultObj s)) s)).
Proof.
  intros H Hr Ha Hn Hs. unfold asksRestart, stopsLoop in *. unfold runLoopAction.
  run. fields. rewrite H, Hr, Ha, Hs, Hn. reflexivity.
Qed.

Lemma runLoopAction_loop_ends_witness :
  let s := Cases.guessing in
  let p := process (Cases.stopping None) 1 in
  exists s',
    runLoopAction (Cases.stopping None) p s = (Val ONull, s') /\
    Conversation.hasActiveContext (conv s') = false.
Proof.
  intros s p. eexists. split.
  - exact (runLoopAction_loop_ends (Cases.stopping None) p s _
             (Processed.mkAction None false) eq_refl eq_refl eq_refl eq_refl eq_refl).
  - vm_compute; reflexivity.
Defined.

(** X30: when the skill stops the loop and names a next action, the
    handler returns the Brain's data and keeps the active context, in which
    it writes the loop flag of the action, the next action as action name,
    and "<skill>.<next action>" as intent. *)
Theorem runLoopAction_prepares_next_action env p s pd a c :
  brainExecute env (nluResultObj s) = inr pd ->
  asksRestart pd = false ->
  Processed.action pd = Some a ->
  truthy (Processed.next_action a) = true ->
  stopsLoop pd = true ->
  Processed.classification pd = Some c ->
  runLoopAction env p s =
    (Val (OData pd),
     set_conv
       (Conversation.with_intent (tpl (skill c) ++ "." ++ tpl (Processed.next_action a))
          (Conversation.with_loop_action (Processed.loop a) (Processed.next_action a)
             (conv s)))
       (add_event (Execute (nluResultObj s)) s)).
Proof.
  intros H Hr Ha Hn Hs Hc. unfold asksRestart, stopsLoop in *. unfold runLoopAction.
  run. fields. rewrite H, Hr, Ha, Hs, Hn. fields. rewrite Hc. reflexivity.
Qed.

Lemma runLoopAction_prepares_next_action_witness :
  let s := Cases.guessing in
  let p := process (Cases.stopping (Some "replay")) 1 in
  exists pd s',
    runLoopAction (Cases.stopping (Some "replay")) p s = (Val (OData pd), s') /\
    ActiveContext.intent (conv s') = Some "number.replay" /\
    ActiveContext.actionName (conv s') = Some "replay" /\
    ActiveContext.isInActionLoop (conv s') = false.
Proof.
  intros s p. do 2 eexists. split.
  - exact (runLoopAction_prepares_next_action (Cases.stopping (Some "replay")) p s _
             (Processed.mkAction (Some "replay") false) _
             eq_refl eq_refl eq_refl eq_refl eq_refl eq_refl).
  - vm_compute. repeat split; reflexivity.
Defined.

